(** * The git-handler extraction scripts of agent-sessions

    A shallow embedding of the four Python scripts that rewrite
    [electron/main.ts] ([extract_git.py], [modify_main.py],
    [modify_main_v2.py], [modify_main_final.py]) and the properties of
    the patch-engine specification checked against them.

    Conventions of the embedding:
    - a Python [str] is a [string], one character for each code point
      (text with code points below 256); [pat in s] is [contains pat s];
    - the list returned by [f.readlines()] is a [list string]; a file is
      represented by that list, and [f.writelines(new_lines)] stores the
      list it is given; [Text] relates the list to the characters of the
      file, with the newline translation of Python's text mode;
    - [lines[i]] is the list lookup [lines !! i]; a lookup out of range
      raises Python's IndexError, the outcome [IndexError] here;
    - each [while] loop is a recursive function on an iteration budget;
      [OutOfFuel] marks an exhausted budget and is shown unreachable for
      the budgets the scripts' [main] functions use. *)

From Stdlib Require Import Ascii String Arith Lia.
From stdpp Require Import gmap strings list fin_maps.

Open Scope string_scope.
Open Scope list_scope.
Open Scope nat_scope.

(** ** Python strings *)

Module PyStr.

(** The line feed that ends a line returned by [readlines()]. *)
Definition LF : string := String (ascii_of_nat 10) EmptyString.

(** [pat in s] *)
Fixpoint contains (pat s : string) : bool :=
  String.prefix pat s
  || match s with
     | EmptyString => false
     | String _ s' => contains pat s'
     end.

(** [s.startswith(pat)] *)
Definition startswith (pat s : string) : bool := String.prefix pat s.

(** [c.isspace()] for a character below 256. *)
Definition isspace (c : ascii) : bool :=
  let n := nat_of_ascii c in
  ((9 <=? n) && (n <=? 13)) || ((28 <=? n) && (n <=? 32))
  || (n =? 133) || (n =? 160).

Fixpoint lstrip (s : string) : string :=
  match s with
  | EmptyString => EmptyString
  | String c s' => if isspace c then lstrip s' else s
  end.

Fixpoint rstrip (s : string) : string :=
  match s with
  | EmptyString => EmptyString
  | String c s' =>
      match rstrip s' with
      | EmptyString => if isspace c then EmptyString else String c EmptyString
      | r => String c r
      end
  end.

(** [s.strip()] *)
Definition strip (s : string) : string := rstrip (lstrip s).

(** [''.join(ls)] *)
Definition join (ls : list string) : string := String.concat "" ls.

(** [ls[a:b]] for [0 <= a] and [0 <= b] *)
Definition slice {A} (ls : list A) (a b : nat) : list A := drop a (take b ls).

End PyStr.
Import PyStr.

(** ** Outcomes of a run *)

Inductive outcome (A : Type) : Type :=
| Done (a : A)
| IndexError
| OutOfFuel.
Arguments Done {A} a.
Arguments IndexError {A}.
Arguments OutOfFuel {A}.

#[global] Instance outcome_ret : MRet outcome := fun A a => Done a.
#[global] Instance outcome_bind : MBind outcome := fun A B k m =>
  match m with
  | Done a => k a
  | IndexError => IndexError
  | OutOfFuel => OutOfFuel
  end.

(** [lines[i]] with Python's bounds check (for [0 <= i]). *)
Definition index (lines : list string) (i : nat) : outcome string :=
  match lines !! i with
  | Some l => Done l
  | None => IndexError
  end.

(** ** The main loop shared by the [while i < len(lines)] scripts *)

Record state : Type := State { idx : nat; new_lines : list string }.

Definition init : state := State 0 [].

(** [while i < n: body] *)
Fixpoint while_loop (body : state -> outcome state) (n fuel : nat)
    (st : state) : outcome state :=
  if idx st <? n then
    match fuel with
    | 0 => OutOfFuel
    | S fuel' => st' ← body st ; while_loop body n fuel' st'
    end
  else Done st.

(** The text the scripts insert. *)
Definition import_line : string :=
  "import { registerGitHandlers, cleanupGitWatchers } "
  +:+ "from './services/git-service.js'" +:+ LF.
Definition blank_line : string := LF.
Definition register_comment : string :=
  "  // Register all git-related IPC handlers" +:+ LF.
Definition register_call : string :=
  "  registerGitHandlers(mainWindow, sshManager, execInContextAsync)" +:+ LF.
Definition cleanup_comment : string :=
  "    // Clean up all git watchers" +:+ LF.
Definition cleanup_call : string := "    cleanupGitWatchers()" +:+ LF.

(** [i += 1] past every line up to and including the first one that
    contains [pat]:
<<
    while i < len(lines):
        i += 1
        if pat in lines[i]:
            i += 1
            break
>> *)
Fixpoint skip_past (pat : string) (lines : list string) (fuel i : nat)
    : outcome nat :=
  if i <? length lines then
    match fuel with
    | 0 => OutOfFuel
    | S fuel' =>
        let i := i + 1 in
        l ← index lines i ;
        if contains pat l then Done (i + 1)
        else skip_past pat lines fuel' i
    end
  else Done i.

(** [for j in range(a, b): f] *)
Definition range (a b : nat) : list nat := seq a (b - a).

Fixpoint for_range (js : list nat) (f : nat -> state -> outcome state)
    (st : state) : outcome state :=
  match js with
  | [] => Done st
  | j :: js' => st' ← f j st ; for_range js' f st'
  end.

(** The line ranges [(i, i')] consumed by the iterations in which an
    edit applies ([fires i]): the iteration starts at line index [i] and
    leaves the index at [i']. *)
Fixpoint consumed (body : state -> outcome state) (fires : nat -> bool)
    (n fuel : nat) (st : state) : list (nat * nat) :=
  if idx st <? n then
    match fuel with
    | 0 => []
    | S fuel' =>
        match body st with
        | Done st' =>
            (if fires (idx st) then [(idx st, idx st')] else [])
            ++ consumed body fires n fuel' st'
        | IndexError | OutOfFuel => []
        end
    end
  else [].

(** The ranges are not empty, start at or after [lo] and each starts at
    or after the end of the one before. *)
Fixpoint increasing (lo : nat) (rs : list (nat * nat)) : Prop :=
  match rs with
  | [] => True
  | (a, b) :: rs' => lo <= a /\ a < b /\ increasing b rs'
  end.


(** ** extract_git.py *)

Module ExtractGit.

(** The scan over the git IPC handlers (step 3):
<<
    while i < len(lines):
        i += 1
        if i >= len(lines):
            break
        if "ipcMain.handle(" in lines[i] and "'git:pull'" not in lines[i]:
            break
        if "// File system IPC handlers" in lines[i]:
            break
>> *)
Fixpoint skip_handlers (lines : list string) (fuel i : nat) : outcome nat :=
  if i <? length lines then
    match fuel with
    | 0 => OutOfFuel
    | S fuel' =>
        let i := i + 1 in
        if length lines <=? i then Done i
        else
          l ← index lines i ;
          if contains "ipcMain.handle(" l && negb (contains "'git:pull'" l)
          then Done i
          else if contains "// File system IPC handlers" l then Done i
          else skip_handlers lines fuel' i
    end
  else Done i.

(** One turn of the inner [for j] loop of step 4; its [continue] resumes
    that [for] loop, [line] is the line the outer loop is at. *)
Definition register_after (lines : list string) (line : string) (j : nat)
    (st : state) : outcome state :=
  l ← index lines j ;
  if contains "sshManager.on('status-change'" l then
    Done (State (idx st + 1)
            (new_lines st
               ++ [line; blank_line; register_comment; register_call]))
  else Done st.

(** The guard of step 4. *)
Definition closes_listener (lines : list string) (i : nat) (line : string)
    : bool :=
  (0 <? i) && contains "  })" line
  && contains "sshManager.on" (join (slice lines (max 0 (i - 20)) i)).

(** One iteration of [while i < len(lines)]. *)
Definition body (lines : list string) (st : state) : outcome state :=
  let i := idx st in
  line ← index lines i ;
  if (i =? 16) && contains "generateFileId" line then
    Done (State (i + 1) (new_lines st ++ [line; import_line]))
  else if contains "interface GitWatcherSet" line then
    i' ← skip_past "const GIT_DEBOUNCE_MS" lines (length lines) i ;
    Done (State i' (new_lines st))
  else if contains "ipcMain.handle('git:get-info'" line then
    i' ← skip_handlers lines (length lines) i ;
    Done (State i' (new_lines st))
  else
    st4 ← (if closes_listener lines i line
           then for_range (range (max 0 (i - 20)) i)
                  (register_after lines line) st
           else Done st) ;
    if contains "// Clean up all git watchers" line then
      i' ← skip_past "gitWatchers.clear()" lines (length lines) (idx st4) ;
      Done (State i' (new_lines st4 ++ [cleanup_comment; cleanup_call]))
    else
      Done (State (idx st4 + 1) (new_lines st4 ++ [line])).

(** The loop of [main], from [readlines()] to the list given to
    [writelines]. *)
Definition main (lines : list string) : outcome (list string) :=
  st ← while_loop (body lines) (length lines) (length lines) init ;
  Done (new_lines st).

(** The lines one firing of the inner [for] loop of step 4 appends
    before the closing line is appended once more. *)
Definition registration (line : string) : list string :=
  [line; blank_line; register_comment; register_call].

Definition is_listener (lines : list string) (j : nat) : bool :=
  match lines !! j with
  | Some l => contains "sshManager.on('status-change'" l
  | None => false
  end.

(** How many of the lines [js] open the status-change listener. *)
Definition hits (lines : list string) (js : list nat) : nat :=
  length (List.filter (is_listener lines) js).

(** How many of the (at most) 20 lines before line [i] do. *)
Definition listeners (lines : list string) (i : nat) : nat :=
  hits lines (range (max 0 (i - 20)) i).

(** Steps 1-3 do not fire on [line] at index [i]. *)
Definition past_step3 (i : nat) (line : string) : bool :=
  negb ((i =? 16) && contains "generateFileId" line)
  && negb (contains "interface GitWatcherSet" line)
  && negb (contains "ipcMain.handle('git:get-info'" line).

(** The effect of step 4 on the loop variables: the index advances by
    the number of listener lines found, each adding one registration. *)
Definition fired (lines : list string) (i : nat) (line : string) : nat :=
  if closes_listener lines i line then listeners lines i else 0.

(** A step changes the file's text at line [i] when one of the five
    edits applies there. *)
Definition fires (lines : list string) (i : nat) : bool :=
  match lines !! i with
  | None => false
  | Some line =>
      negb (past_step3 i line)
      || negb (fired lines i line =? 0)
      || contains "// Clean up all git watchers" line
  end.

(** Step 2 starts at [line]: step 1 does not fire and the line opens
    the interface block. *)
Definition starts_interface (i : nat) (line : string) : bool :=
  negb ((i =? 16) && contains "generateFileId" line)
  && contains "interface GitWatcherSet" line.

(** Step 5 starts at [line], at index [i] itself: steps 1-3 do not fire,
    step 4 has not moved the index, and the line is the cleanup comment. *)
Definition starts_cleanup (lines : list string) (i : nat) (line : string)
    : bool :=
  past_step3 i line && (fired lines i line =? 0)
  && contains "// Clean up all git watchers" line.

(** Step 4 inserts the registration at [line]: steps 1-3 do not fire,
    the line closes a block, and one of the 20 lines before it opens the
    status-change listener. *)
Definition registers (lines : list string) (i : nat) (line : string) : bool :=
  past_step3 i line && closes_listener lines i line
  && (0 <? listeners lines i).

(** [line] contains none of the patterns that start a step. *)
Definition inert (line : string) : bool :=
  negb (contains "generateFileId" line)
  && negb (contains "interface GitWatcherSet" line)
  && negb (contains "ipcMain.handle('git:get-info'" line)
  && negb (contains "  })" line)
  && negb (contains "// Clean up all git watchers" line).

(** The scan of step 3 stops at [l]: another handler than [git:pull], or
    the heading of the file-system section. *)
Definition stops_handlers (l : string) : bool :=
  contains "ipcMain.handle(" l && negb (contains "'git:pull'" l)
  || contains "// File system IPC handlers" l.

(** Step 3 starts at [line]: steps 1 and 2 do not fire and the line
    opens the first git handler. *)
Definition starts_handlers (i : nat) (line : string) : bool :=
  negb ((i =? 16) && contains "generateFileId" line)
  && negb (contains "interface GitWatcherSet" line)
  && contains "ipcMain.handle('git:get-info'" line.

(** Step 5 starts at [line] and step 4 cannot fire there: steps 1-3 do
    not fire, the line closes no block and is the cleanup comment. *)
Definition plain_cleanup (i : nat) (line : string) : bool :=
  past_step3 i line && negb (contains "  })" line)
  && contains "// Clean up all git watchers" line.

(** The rest of the file is empty or opens with a line at which the scan
    of step 3 stops. *)
Definition handlers_end (post : list string) : bool :=
  match post with
  | [] => true
  | l :: _ => stops_handlers l
  end.

End ExtractGit.

(** ** modify_main.py *)

Module ModifyMain.

(** The guard of step 3, evaluated at line 492. *)
Definition closes_listener (lines : list string) (i : nat) (line : string)
    : bool :=
  contains "  })" line && (0 <? i)
  && contains "sshManager.on('status-change'"
       (join (slice lines (max 0 (i - 10)) i)).

(** One iteration of [while i < len(lines)]. *)
Definition body (lines : list string) (st : state) : outcome state :=
  let i := idx st in
  line ← index lines i ;
  let line_num := i + 1 in
  after_import ←
    (if line_num =? 17 then
       prev ← index lines (i - 1) ;
       Done (startswith "import { generateFileId" (strip prev))
     else Done false) ;
  if after_import : bool then
    Done (State (i + 1) (new_lines st ++ [import_line; line]))
  else if (line_num =? 434) && contains "interface GitWatcherSet" line then
    Done (State (i + 10) (new_lines st))
  else if (line_num =? 492) && closes_listener lines i line then
    Done (State (i + 1)
            (new_lines st
               ++ [line; blank_line; register_comment; register_call]))
  else if (line_num =? 978) && contains "ipcMain.handle('git:get-info'" line
  then Done (State (i + 701) (new_lines st))
  else if (line_num =? 507) && contains "// Clean up all git watchers" line
  then Done (State (i + 13) (new_lines st ++ [cleanup_comment; cleanup_call]))
  else Done (State (i + 1) (new_lines st ++ [line])).

Definition main (lines : list string) : outcome (list string) :=
  st ← while_loop (body lines) (length lines) (length lines) init ;
  Done (new_lines st).

(** The guard of step 1: line 17 follows the [generateFileId] import. *)
Definition after_import (lines : list string) (i : nat) : bool :=
  (i + 1 =? 17)
  && match lines !! (i - 1) with
     | Some prev => startswith "import { generateFileId" (strip prev)
     | None => false
     end.

(** One of the five edits applies at line [i]. *)
Definition fires (lines : list string) (i : nat) : bool :=
  match lines !! i with
  | None => false
  | Some line =>
      after_import lines i
      || (i + 1 =? 434) && contains "interface GitWatcherSet" line
      || (i + 1 =? 492) && closes_listener lines i line
      || (i + 1 =? 978) && contains "ipcMain.handle('git:get-info'" line
      || (i + 1 =? 507) && contains "// Clean up all git watchers" line
  end.

(** The line numbers written into the script. *)
Definition hard_coded (line_num : nat) : bool :=
  existsb (Nat.eqb line_num) [17; 434; 492; 978; 507].



(** [line] neither opens with the [generateFileId] import nor contains
    any other pattern the script looks for. *)
Definition inert (line : string) : bool :=
  negb (startswith "import { generateFileId" (strip line))
  && negb (contains "interface GitWatcherSet" line)
  && negb (contains "  })" line)
  && negb (contains "ipcMain.handle('git:get-info'" line)
  && negb (contains "// Clean up all git watchers" line).

(** The same, leaving the first git handler aside. *)
Definition inert_but_handler (line : string) : bool :=
  negb (startswith "import { generateFileId" (strip line))
  && negb (contains "interface GitWatcherSet" line)
  && negb (contains "  })" line)
  && negb (contains "// Clean up all git watchers" line).

(** [blk] opens with the first git handler. *)
Definition opens_handlers (blk : list string) : bool :=
  match blk with
  | first :: _ => contains "ipcMain.handle('git:get-info'" first
  | [] => false
  end.

End ModifyMain.

(** ** modify_main_final.py *)

Module ModifyMainFinal.

(** The guard of step 3, evaluated between lines 540 and 550. *)
Definition closes_listener (lines : list string) (i : nat) : bool :=
  contains "sshManager.on('status-change'"
    (join (slice lines (max 0 (i - 10)) i)).

(** One iteration of [while i < len(lines)]. *)
Definition body (lines : list string) (st : state) : outcome state :=
  let i := idx st in
  line ← index lines i ;
  let line_num := i + 1 in
  if (line_num =? 16) && contains "generateFileId" line then
    Done (State (i + 1) (new_lines st ++ [line; import_line]))
  else if (line_num =? 434) && contains "interface GitWatcherSet" line then
    Done (State (i + 10) (new_lines st))
  else if contains "  })" line && (540 <? line_num) && (line_num <? 550)
          && closes_listener lines i then
    Done (State (i + 1)
            (new_lines st
               ++ [line; blank_line; register_comment; register_call]))
  else if (line_num =? 1277) && contains "ipcMain.handle('git:get-info'" line
  then Done (State (i + 742) (new_lines st))
  else if contains "// Clean up all git watchers" line
          && (500 <? line_num) && (line_num <? 600) then
    i' ← skip_past "gitWatchers.clear()" lines (length lines) i ;
    Done (State i' (new_lines st ++ [cleanup_comment; cleanup_call]))
  else Done (State (i + 1) (new_lines st ++ [line])).

Definition main (lines : list string) : outcome (list string) :=
  st ← while_loop (body lines) (length lines) (length lines) init ;
  Done (new_lines st).

(** The guard of step 3. *)
Definition registers (lines : list string) (i : nat) (line : string) : bool :=
  contains "  })" line && (540 <? i + 1) && (i + 1 <? 550)
  && closes_listener lines i.

(** The guard of step 5. *)
Definition cleanup_guard (i : nat) (line : string) : bool :=
  contains "// Clean up all git watchers" line
  && (500 <? i + 1) && (i + 1 <? 600).

(** Steps 1-4 do not fire on [line] at index [i]. *)
Definition past_step4 (lines : list string) (i : nat) (line : string)
    : bool :=
  negb ((i + 1 =? 16) && contains "generateFileId" line)
  && negb ((i + 1 =? 434) && contains "interface GitWatcherSet" line)
  && negb (registers lines i line)
  && negb ((i + 1 =? 1277) && contains "ipcMain.handle('git:get-info'" line).

(** One of the five edits applies at line [i]. *)
Definition fires (lines : list string) (i : nat) : bool :=
  match lines !! i with
  | None => false
  | Some line => negb (past_step4 lines i line) || cleanup_guard i line
  end.

(** The line numbers and line-number windows written into the script. *)
Definition hard_coded (line_num : nat) : bool :=
  existsb (Nat.eqb line_num) [16; 434; 1277]
  || (540 <? line_num) && (line_num <? 550)
  || (500 <? line_num) && (line_num <? 600).

(** Step 5 starts at [line]: steps 1-4 do not fire and the guard of
    step 5 holds. *)
Definition starts_cleanup (lines : list string) (i : nat) (line : string)
    : bool :=
  past_step4 lines i line && cleanup_guard i line.

(** [line] contains none of the patterns the script looks for. *)
Definition inert (line : string) : bool :=
  negb (contains "generateFileId" line)
  && negb (contains "interface GitWatcherSet" line)
  && negb (contains "  })" line)
  && negb (contains "ipcMain.handle('git:get-info'" line)
  && negb (contains "// Clean up all git watchers" line).

(** [line] contains none of the patterns other than the interface
    marker. *)
Definition inert_but_interface (line : string) : bool :=
  negb (contains "generateFileId" line)
  && negb (contains "  })" line)
  && negb (contains "ipcMain.handle('git:get-info'" line)
  && negb (contains "// Clean up all git watchers" line).

(** [blk] opens with the interface marker. *)
Definition opens_interface (blk : list string) : bool :=
  match blk with
  | first :: _ => contains "interface GitWatcherSet" first
  | [] => false
  end.

End ModifyMainFinal.

(** ** modify_main_v2.py *)

Module ModifyMainV2.

(** The loop variables that survive an iteration of
    [for i, line in enumerate(lines)]. *)
Record vstate : Type :=
  VState { skip_until_line : option nat; out_lines : list string }.

Definition vinit : vstate := VState None [].

(** [for i, line in enumerate(ls): body], counting from [i]. *)
Fixpoint for_enumerate (body : nat -> string -> vstate -> outcome vstate)
    (i : nat) (ls : list string) (st : vstate) : outcome vstate :=
  match ls with
  | [] => Done st
  | line :: ls' => st' ← body i line st ; for_enumerate body (S i) ls' st'
  end.

(** The search for the end of the cleanup block (step 5):
<<
    for j in range(i+1, len(lines)):
        if 'gitWatchers.clear()' in lines[j]:
            skip_until_line = j + 1
            break
>> *)
Fixpoint find_clear (lines : list string) (js : list nat)
    (skip : option nat) : outcome (option nat) :=
  match js with
  | [] => Done skip
  | j :: js' =>
      l ← index lines j ;
      if contains "gitWatchers.clear()" l then Done (Some (j + 1))
      else find_clear lines js' skip
  end.

(** The guard of step 3, evaluated at line 497. *)
Definition closes_listener (lines : list string) (i : nat) : bool :=
  contains "sshManager.on('status-change'"
    (join (slice lines (max 0 (i - 10)) i)).

(** The steps of an iteration that is not being skipped;
    [skip_until_line] is [None] when they run. *)
Definition steps (lines : list string) (i : nat) (line : string)
    (out : list string) : outcome vstate :=
  let line_num := i + 1 in
  if (line_num =? 16) && contains "generateFileId" line then
    Done (VState None (out ++ [line; import_line]))
  else if (line_num =? 439) && contains "interface GitWatcherSet" line then
    Done (VState (Some 448) out)
  else if (line_num =? 497) && contains "  })" line
          && closes_listener lines i then
    Done (VState None
            (out ++ [line; blank_line; register_comment; register_call]))
  else if (line_num =? 947) && contains "ipcMain.handle('git:get-info'" line
  then Done (VState (Some 1689) out)
  else if contains "// Clean up all git watchers" line && (500 <? line_num)
  then
    skip ← find_clear lines (range (i + 1) (length lines)) None ;
    Done (VState skip (out ++ [cleanup_comment; cleanup_call]))
  else Done (VState None (out ++ [line])).

(** One iteration of [for i, line in enumerate(lines)]. *)
Definition body (lines : list string) (i : nat) (line : string)
    (st : vstate) : outcome vstate :=
  let line_num := i + 1 in
  match skip_until_line st with
  | Some until =>
      if until <? line_num then steps lines i line (out_lines st)
      else Done st
  | None => steps lines i line (out_lines st)
  end.

Definition main (lines : list string) : outcome (list string) :=
  st ← for_enumerate (body lines) 0 lines vinit ;
  Done (out_lines st).

(** One of the five edits applies at line [i] (when the line is not
    being skipped). *)
Definition fires (lines : list string) (i : nat) : bool :=
  match lines !! i with
  | None => false
  | Some line =>
      (i + 1 =? 16) && contains "generateFileId" line
      || (i + 1 =? 439) && contains "interface GitWatcherSet" line
      || (i + 1 =? 497) && contains "  })" line && closes_listener lines i
      || (i + 1 =? 947) && contains "ipcMain.handle('git:get-info'" line
      || contains "// Clean up all git watchers" line && (500 <? i + 1)
  end.

(** The line numbers and the line-number bound written into the script. *)
Definition hard_coded (line_num : nat) : bool :=
  existsb (Nat.eqb line_num) [16; 439; 497; 947] || (500 <? line_num).

(** Step 5 starts at [line]: steps 1-4 do not fire, the line is the
    cleanup comment and its number is above 500. *)
Definition starts_cleanup (lines : list string) (i : nat) (line : string)
    : bool :=
  negb ((i + 1 =? 16) && contains "generateFileId" line)
  && negb ((i + 1 =? 439) && contains "interface GitWatcherSet" line)
  && negb ((i + 1 =? 497) && contains "  })" line && closes_listener lines i)
  && negb ((i + 1 =? 947) && contains "ipcMain.handle('git:get-info'" line)
  && (contains "// Clean up all git watchers" line && (500 <? i + 1)).

(** [line] contains none of the patterns the script looks for. *)
Definition inert (line : string) : bool :=
  negb (contains "generateFileId" line)
  && negb (contains "interface GitWatcherSet" line)
  && negb (contains "  })" line)
  && negb (contains "ipcMain.handle('git:get-info'" line)
  && negb (contains "// Clean up all git watchers" line).

(** Nothing is being skipped at index [i]: [skip_until_line] is [None]
    or a line number below that of the line at [i]. *)
Definition idle (i : nat) (skip : option nat) : Prop :=
  match skip with
  | None => True
  | Some until => until <= i
  end.

End ModifyMainV2.

(** ** The file on disk *)

Module IO.

(** The one path the scripts open. *)
Definition main_ts : string := "electron/main.ts".

(** What a script does to the file system, in order. Reading changes
    nothing and is left out. [open(p, 'w')] creates or truncates [p];
    [writelines] then appends the lines one after the other. *)
Inductive fs_op : Type :=
| OpenW (p : string)
| WriteLine (p : string) (l : string).

Definition path_of (op : fs_op) : string :=
  match op with
  | OpenW p => p
  | WriteLine p _ => p
  end.

(** A file system maps a path to the lines of the file stored there. *)
Definition apply_op (fs : gmap string (list string)) (op : fs_op)
    : gmap string (list string) :=
  match op with
  | OpenW p => <[p := []]> fs
  | WriteLine p l => <[p := default [] (fs !! p) ++ [l]]> fs
  end.

Definition run_ops (fs : gmap string (list string)) (ops : list fs_op)
    : gmap string (list string) :=
  foldl apply_op fs ops.

(**
<<
    with open('electron/main.ts', 'w', encoding='utf-8') as f:
        f.writelines(new_lines)
>> *)
Definition write_back (new_lines : list string) : list fs_op :=
  OpenW main_ts :: map (WriteLine main_ts) new_lines.

(** A whole script: [readlines()], the loop [main], then the write-back.
    An exception raised by the read or by the loop ends the script before
    the file is opened for writing. *)
Definition script (main : list string -> outcome (list string))
    (fs : gmap string (list string)) : list fs_op :=
  match fs !! main_ts with
  | None => []
  | Some lines =>
      match main lines with
      | Done new_lines => write_back new_lines
      | IndexError | OutOfFuel => []
      end
  end.

(** The file system after the script has run. *)
Definition run (main : list string -> outcome (list string))
    (fs : gmap string (list string)) : gmap string (list string) :=
  run_ops fs (script main fs).

(** The file system when the script is stopped after its first [k]
    file-system operations. *)
Definition interrupted (main : list string -> outcome (list string))
    (fs : gmap string (list string)) (k : nat) : gmap string (list string) :=
  run_ops fs (take k (script main fs)).

End IO.

(** ** Text mode *)

Module Text.

Definition CR : ascii := ascii_of_nat 13.
Definition NL : ascii := ascii_of_nat 10.

(** [f.readlines()] on a file opened with [open(path, 'r')]: the
    decoded text [s] is cut after each line end; a line end is CR LF, CR
    or LF, and each is returned as LF. [cur] is the part of the current
    line already read. *)
Fixpoint readlines_from (cur s : string) : list string :=
  match s with
  | EmptyString =>
      match cur with
      | EmptyString => []
      | String _ _ => [cur]
      end
  | String c s' =>
      if Ascii.eqb c NL then (cur +:+ LF) :: readlines_from "" s'
      else if Ascii.eqb c CR then
        match s' with
        | EmptyString => [cur +:+ LF]
        | String c' s'' =>
            if Ascii.eqb c' NL then (cur +:+ LF) :: readlines_from "" s''
            else (cur +:+ LF) :: readlines_from "" s'
        end
      else readlines_from (cur +:+ String c "") s'
  end.

Definition readlines (s : string) : list string := readlines_from "" s.

(** What a file opened with [open(path, 'w')] stores for the text [s]:
    each LF is written as the platform's line separator. *)
Fixpoint translate (linesep s : string) : string :=
  match s with
  | EmptyString => EmptyString
  | String c s' =>
      if Ascii.eqb c NL then linesep +:+ translate linesep s'
      else String c (translate linesep s')
  end.

(** [f.writelines(lines)] *)
Definition writelines (linesep : string) (lines : list string) : string :=
  translate linesep (join lines).

(** The text holds a CR. *)
Fixpoint has_cr (s : string) : bool :=
  match s with
  | EmptyString => false
  | String c s' => Ascii.eqb c CR || has_cr s'
  end.

End Text.

(** ** Sample documents *)

Module Samples.

(** A line as [readlines()] returns it. *)
Definition ln (s : string) : string := s +:+ LF.

(** [n] lines that match none of the scripts' patterns. *)
Definition pad (n : nat) : list string := replicate n (ln "// filler").

Definition generate_import : string :=
  ln "import { generateFileId } from './utils/id.js'".

(** A file whose 17th line (index 16) is the [generateFileId] import and
    that holds none of the other patterns. *)
Definition only_import : list string := pad 16 ++ [generate_import] ++ pad 2.

(** The same with the import on line 16 (index 15). *)
Definition only_import_v2 : list string :=
  pad 15 ++ [generate_import] ++ pad 2.

(** The ten lines modify_main.py expects at lines 434-443. *)
Definition interface_block : list string :=
  [ln "interface GitWatcherSet {";
   ln "  refsWatcher: FSWatcher | null";
   ln "  headWatcher: FSWatcher | null";
   ln "  indexWatcher: FSWatcher | null";
   ln "  debounceTimer: NodeJS.Timeout | null";
   ln "  projectPath: string";
   ln "}";
   ln "";
   ln "const gitWatchers = new Map<string, GitWatcherSet>()";
   ln "const GIT_DEBOUNCE_MS = 300"].

Definition handler_open : string :=
  ln "ipcMain.handle('git:get-info', async (_event, projectPath) => {".

(** The interface block and the first git handler at the top of a file. *)
Definition patterns_at_top : list string :=
  interface_block ++ [handler_open] ++ pad 2.

(** The status-change listener, the line that closes it, and the line
    after it. *)
Definition listener_open : string :=
  ln "  sshManager.on('status-change', (connectionId, connected) => {".
Definition listener_close : string := ln "  })".
Definition after_listener : string := ln "  const cleanup = () => {".

(** A file with the interface block on lines 434-443. *)
Definition block_at_434 : list string := pad 433 ++ interface_block ++ pad 2.


(** A file with the [generateFileId] import before line 17 and the
    interface block on lines 434-443. *)
Definition import_and_block : list string :=
  pad 15 ++ [generate_import] ++ pad 417 ++ interface_block ++ pad 2.

End Samples.

(** ** Vocabulary for the loops *)

(** Every iteration of [body] below [n] moves the index forward. *)
Definition progresses (body : state -> outcome state) (n : nat) : Prop :=
  forall st st', idx st < n -> body st = Done st' -> idx st < idx st'.

(** The loop with exactly the budget it needs from [st]. *)
Definition exec (body : state -> outcome state) (n : nat) (st : state)
    : outcome state :=
  while_loop body n (n - idx st) st.

(** The iteration at line [j] takes the default branch: the line is
    appended and the index moves to the next line. *)
Definition copies (body : state -> outcome state) (lines : list string)
    (j : nat) : Prop :=
  forall out l, lines !! j = Some l ->
    body (State j out) = Done (State (j + 1) (out ++ [l])).

(** States the loop passes through, starting from [init]. *)
Inductive reaches (body : state -> outcome state) (n : nat) : state -> Prop :=
| reaches_init : reaches body n init
| reaches_step st st' :
    reaches body n st -> idx st < n -> body st = Done st' ->
    reaches body n st'.

(** No line strictly between [i] and [j] contains [pat]. *)
Definition none_between (pat : string) (lines : list string) (i j : nat)
    : Prop :=
  forall k l, i < k < j -> lines !! k = Some l -> contains pat l = false.

(** No line after [i] contains [pat]. *)
Definition none_after (pat : string) (lines : list string) (i : nat) : Prop :=
  forall k l, i < k -> lines !! k = Some l -> contains pat l = false.

(** No line after index [i] contains [pat]. *)
Definition no_later (pat : string) (lines : list string) (i : nat) : bool :=
  forallb (fun l => negb (contains pat l)) (drop (i + 1) lines).

(** No line strictly between the indices [i] and [j] contains [pat]. *)
Definition no_match_between (pat : string) (lines : list string) (i j : nat)
    : bool :=
  forallb (fun l => negb (contains pat l)) (slice lines (i + 1) j).

(** Every iteration of [body] below [n] only appends to [new_lines]. *)
Definition appends (body : state -> outcome state) (n : nat) : Prop :=
  forall st st', idx st < n -> body st = Done st' ->
    exists extra, new_lines st' = new_lines st ++ extra.

(** What the write-back of [new] by the script around [main] does to the
    file: nothing before the file is opened; from the open on the file
    holds the first lines of [new] and no longer its old text; only the
    original path is ever touched; the finished run leaves [new]. *)
Definition writes_in_place (main : list string -> outcome (list string))
    (fs : gmap string (list string)) (new : list string) : Prop :=
  IO.interrupted main fs 0 = fs
  /\ (forall k, IO.interrupted main fs (S k) = <[IO.main_ts := take k new]> fs)
  /\ Forall (fun op => IO.path_of op = IO.main_ts) (IO.script main fs)
  /\ IO.run main fs = <[IO.main_ts := new]> fs.

(** A scan started by the iteration at [line] finds no terminator: step
    2 with no later [const GIT_DEBOUNCE_MS], or step 5, entered with the
    index step 4 left below the end of the file, with no later
    [gitWatchers.clear()]. *)
Definition extract_git_scan_fails (lines : list string) (i : nat) (line : string)
    : bool :=
  ExtractGit.starts_interface i line && no_later "const GIT_DEBOUNCE_MS" lines i
  || ExtractGit.past_step3 i line && contains "// Clean up all git watchers" line
     && (i + ExtractGit.fired lines i line <? length lines)
     && no_later "gitWatchers.clear()" lines (i + ExtractGit.fired lines i line).

(** * Properties *)

(** ** Lists, slices and lookups *)

Lemma index_Some lines i l : lines !! i = Some l -> index lines i = Done l.
Proof. unfold index. now intros ->. Qed.

Lemma index_None lines i : length lines <= i -> index lines i = IndexError.
Proof.
  intros H. unfold index. now rewrite (proj2 (lookup_ge_None lines i) H).
Qed.

Lemma slice_nil {A} (ls : list A) k : slice ls k k = [].
Proof.
  unfold slice. apply drop_ge. rewrite length_take. lia.
Qed.

Lemma slice_cons {A} (ls : list A) i k x :
  i < k -> ls !! i = Some x -> slice ls i k = x :: slice ls (S i) k.
Proof.
  intros Hik Hx. unfold slice.
  apply drop_S. rewrite lookup_take_lt by lia. exact Hx.
Qed.

Lemma slice_all {A} (ls : list A) : slice ls 0 (length ls) = ls.
Proof. unfold slice. now rewrite firstn_all. Qed.

Lemma range_lt a b : Forall (fun j => j < b) (range a b).
Proof.
  unfold range. apply Forall_forall. intros j Hj.
  apply list_elem_of_In, in_seq in Hj. lia.
Qed.

(** ** The main loop *)

Section Loop.

Variable body : state -> outcome state.
Variable n : nat.
Hypothesis body_progresses : progresses body n.


Lemma while_loop_fuel f1 : forall f2 st,
  n - idx st <= f1 -> n - idx st <= f2 ->
  while_loop body n f1 st = while_loop body n f2 st.
Proof.
  induction f1 as [|f1 IH]; intros f2 st H1 H2.
  - destruct f2; simpl; destruct (idx st <? n) eqn:E; trivial;
      apply Nat.ltb_lt in E; lia.
  - destruct f2; simpl; destruct (idx st <? n) eqn:E; trivial.
    + apply Nat.ltb_lt in E; lia.
    + apply Nat.ltb_lt in E.
      destruct (body st) as [st'| |] eqn:Hb; trivial. simpl.
      pose proof (body_progresses _ _ E Hb). apply IH; lia.
Qed.

Lemma exec_unfold st :
  exec body n st
  = if idx st <? n then st' ← body st ; exec body n st' else Done st.
Proof.
  unfold exec. destruct (idx st <? n) eqn:E.
  - apply Nat.ltb_lt in E.
    destruct (n - idx st) as [|f] eqn:Hf; [lia|]. simpl.
    apply Nat.ltb_lt in E. rewrite E. apply Nat.ltb_lt in E.
    destruct (body st) as [st'| |] eqn:Hb; trivial. simpl.
    pose proof (body_progresses _ _ E Hb). apply while_loop_fuel; lia.
  - destruct (n - idx st); simpl; now rewrite E.
Qed.

Lemma exec_step st st' :
  idx st < n -> body st = Done st' -> exec body n st = exec body n st'.
Proof.
  intros Hlt Hb. rewrite exec_unfold.
  apply Nat.ltb_lt in Hlt. now rewrite Hlt, Hb.
Qed.

Lemma exec_raise st :
  idx st < n -> body st = IndexError -> exec body n st = IndexError.
Proof.
  intros Hlt Hb. rewrite exec_unfold.
  apply Nat.ltb_lt in Hlt. now rewrite Hlt, Hb.
Qed.

Lemma exec_stop st : n <= idx st -> exec body n st = Done st.
Proof.
  intros Hge. rewrite exec_unfold.
  apply Nat.ltb_ge in Hge. now rewrite Hge.
Qed.

(** The budget [main] gives the loop is enough. *)
Lemma exec_terminates :
  (forall st, idx st < n -> body st <> OutOfFuel) ->
  forall d st, n - idx st <= d -> exec body n st <> OutOfFuel.
Proof.
  intros Hbody. induction d as [|d IH]; intros st Hd.
  - rewrite exec_stop by lia. discriminate.
  - destruct (Nat.lt_ge_cases (idx st) n) as [Hlt|Hge].
    + destruct (body st) as [st'| |] eqn:Hb.
      * rewrite (exec_step _ _ Hlt Hb).
        pose proof (body_progresses _ _ Hlt Hb). apply IH. lia.
      * rewrite (exec_raise _ Hlt Hb). discriminate.
      * now apply Hbody in Hb.
    + rewrite exec_stop by lia. discriminate.
Qed.

(** A body that never raises gives a loop that never raises. *)
Lemma exec_total :
  (forall st, idx st < n -> exists st', body st = Done st') ->
  forall d st, n - idx st <= d -> exists st', exec body n st = Done st'.
Proof.
  intros Hbody. induction d as [|d IH]; intros st Hd.
  - rewrite exec_stop by lia. eauto.
  - destruct (Nat.lt_ge_cases (idx st) n) as [Hlt|Hge].
    + destruct (Hbody st Hlt) as [st' Hb].
      rewrite (exec_step _ _ Hlt Hb).
      pose proof (body_progresses _ _ Hlt Hb). apply IH. lia.
    + rewrite exec_stop by lia. eauto.
Qed.

End Loop.

Lemma exec_copy body lines :
  progresses body (length lines) ->
  forall d i k out,
    i + d = k -> k <= length lines ->
    (forall j, i <= j < k -> copies body lines j) ->
    exec body (length lines) (State i out)
    = exec body (length lines) (State k (out ++ slice lines i k)).
Proof.
  intros Hp. induction d as [|d IH]; intros i k out Hd Hk Hc.
  - replace k with i by lia. now rewrite slice_nil, app_nil_r.
  - destruct (lookup_lt_is_Some_2 lines i) as [l Hl]; [lia|].
    rewrite (exec_step body (length lines) Hp (State i out)
               (State (i + 1) (out ++ [l]))).
    + rewrite (IH (i + 1) k) by (try lia; intros; apply Hc; lia).
      rewrite (slice_cons lines i k l) by (trivial; lia).
      rewrite <- app_assoc. simpl. now rewrite Nat.add_1_r.
    + simpl. lia.
    + apply Hc; [lia | exact Hl].
Qed.

(** ** The forward scan [skip_past] *)

Section SkipPast.

Variable pat : string.
Variable lines : list string.

Lemma skip_past_found j l : forall fuel i,
  i < j -> lines !! j = Some l -> contains pat l = true ->
  none_between pat lines i j -> length lines - i <= fuel ->
  skip_past pat lines fuel i = Done (j + 1).
Proof.
  intros fuel. induction fuel as [|fuel IH]; intros i Hij Hl Hp Hnone Hf.
  - apply lookup_lt_Some in Hl. lia.
  - pose proof (lookup_lt_Some _ _ _ Hl) as Hj. simpl.
    destruct (i <? length lines) eqn:E; [|apply Nat.ltb_ge in E; lia].
    destruct (Nat.eq_dec (i + 1) j) as [->|Hne].
    + rewrite (index_Some _ _ _ Hl). simpl. now rewrite Hp.
    + destruct (lookup_lt_is_Some_2 lines (i + 1)) as [l' Hl']; [lia|].
      rewrite (index_Some _ _ _ Hl'). simpl.
      rewrite (Hnone (i + 1) l') by (trivial; lia).
      apply IH; trivial; try lia.
      intros k l'' Hk. apply Hnone. lia.
Qed.

Lemma skip_past_missing : forall fuel i,
  i < length lines -> none_after pat lines i -> length lines - i <= fuel ->
  skip_past pat lines fuel i = IndexError.
Proof.
  intros fuel. induction fuel as [|fuel IH]; intros i Hi Hnone Hf; [lia|].
  simpl. apply Nat.ltb_lt in Hi. rewrite Hi. apply Nat.ltb_lt in Hi.
  destruct (Nat.eq_dec (i + 1) (length lines)) as [He|Hne].
  - now rewrite index_None by lia.
  - destruct (lookup_lt_is_Some_2 lines (i + 1)) as [l' Hl']; [lia|].
    rewrite (index_Some _ _ _ Hl'). simpl.
    rewrite (Hnone (i + 1) l') by (trivial; lia).
    apply IH; try lia. intros k l'' Hk. apply Hnone. lia.
Qed.

Lemma skip_past_progress : forall fuel i i',
  i < length lines -> skip_past pat lines fuel i = Done i' -> i < i'.
Proof.
  intros fuel. induction fuel as [|fuel IH]; intros i i' Hi H; simpl in H;
    apply Nat.ltb_lt in Hi; rewrite Hi in H; [discriminate|].
  apply Nat.ltb_lt in Hi.
  destruct (index lines (i + 1)) as [l| |] eqn:Hx; try discriminate.
  simpl in H. destruct (contains pat l).
  - injection H as <-. lia.
  - unfold index in Hx. destruct (lines !! (i + 1)) eqn:Hl; [|discriminate].
    apply lookup_lt_Some in Hl. apply IH in H; lia.
Qed.

Lemma skip_past_idle fuel i :
  length lines <= i -> skip_past pat lines fuel i = Done i.
Proof.
  intros H. apply Nat.ltb_ge in H. destruct fuel; simpl; now rewrite H.
Qed.

Lemma skip_past_fuel : forall fuel i,
  length lines - i <= fuel -> skip_past pat lines fuel i <> OutOfFuel.
Proof.
  intros fuel. induction fuel as [|fuel IH]; intros i Hf; simpl;
    destruct (i <? length lines) eqn:E; try discriminate.
  - apply Nat.ltb_lt in E. lia.
  - unfold index. destruct (lines !! (i + 1)) as [l|]; simpl;
      try discriminate.
    destruct (contains pat l); [discriminate|]. apply IH. lia.
Qed.

End SkipPast.

Lemma forallb_drop {A} (P : A -> bool) (ls : list A) a :
  forallb P (drop a ls) = true ->
  forall k x, a <= k -> ls !! k = Some x -> P x = true.
Proof.
  intros H k x Hk Hx. rewrite forallb_forall in H. apply H.
  apply list_elem_of_In, list_elem_of_lookup. exists (k - a).
  rewrite lookup_drop. now replace (a + (k - a)) with k by lia.
Qed.

Lemma no_later_none_after pat lines i :
  no_later pat lines i = true -> none_after pat lines i.
Proof.
  intros H k l Hk Hl. apply negb_true_iff.
  apply (forallb_drop _ lines (i + 1) H k l); [lia | exact Hl].
Qed.

Lemma no_match_between_none pat lines i j :
  no_match_between pat lines i j = true -> none_between pat lines i j.
Proof.
  intros H k l Hk Hl. apply negb_true_iff.
  apply (forallb_drop _ (take j lines) (i + 1) H k l); [lia|].
  rewrite lookup_take_lt by lia. exact Hl.
Qed.

Lemma exec_extends body n :
  progresses body n -> appends body n ->
  forall d st st', n - idx st <= d -> exec body n st = Done st' ->
    exists extra, new_lines st' = new_lines st ++ extra.
Proof.
  intros Hp Ha. induction d as [|d IH]; intros st st' Hd He.
  - rewrite (exec_stop body n Hp) in He by lia. injection He as <-.
    exists []. now rewrite app_nil_r.
  - destruct (Nat.lt_ge_cases (idx st) n) as [Hlt|Hge].
    + destruct (body st) as [st1| |] eqn:Hb.
      * rewrite (exec_step body n Hp _ _ Hlt Hb) in He.
        pose proof (Hp _ _ Hlt Hb).
        destruct (Ha _ _ Hlt Hb) as [e1 H1].
        destruct (IH st1 st' ltac:(lia) He) as [e2 H2].
        exists (e1 ++ e2). now rewrite H2, H1, app_assoc.
      * rewrite (exec_raise body n Hp _ Hlt Hb) in He. discriminate.
      * rewrite (exec_unfold body n Hp) in He.
        apply Nat.ltb_lt in Hlt. rewrite Hlt, Hb in He. discriminate.
    + rewrite (exec_stop body n Hp) in He by lia. injection He as <-.
      exists []. now rewrite app_nil_r.
Qed.

(** A run that copies [pre], passes over [blk] in one iteration and
    copies [post]. *)
Lemma exec_removes_block body (pre blk post : list string) :
  progresses body (length (pre ++ blk ++ post)) ->
  0 < length blk ->
  (forall j, j < length pre -> copies body (pre ++ blk ++ post) j) ->
  (forall out, body (State (length pre) out)
               = Done (State (length pre + length blk) out)) ->
  (forall j, length pre + length blk <= j < length (pre ++ blk ++ post) ->
             copies body (pre ++ blk ++ post) j) ->
  exec body (length (pre ++ blk ++ post)) init
  = Done (State (length (pre ++ blk ++ post)) (pre ++ post)).
Proof.
  set (lines := pre ++ blk ++ post). intros Hp Hblk Hpre Hstep Hpost.
  assert (length lines = length pre + length blk + length post) as Hlen.
  { unfold lines. rewrite !length_app. lia. }
  unfold init.
  rewrite (exec_copy body lines Hp (length pre) 0 (length pre) []);
    [|lia|lia|intros; apply Hpre; lia].
  assert (slice lines 0 (length pre) = pre) as ->.
  { unfold slice, lines. now rewrite take_app_length. }
  rewrite (exec_step body (length lines) Hp (State (length pre) ([] ++ pre))
             (State (length pre + length blk) ([] ++ pre)));
    [|simpl; lia|apply Hstep].
  rewrite (exec_copy body lines Hp (length post) (length pre + length blk)
             (length lines)); [|lia|lia|intros; apply Hpost; lia].
  assert (slice lines (length pre + length blk) (length lines) = post) as ->.
  { unfold slice. rewrite firstn_all. unfold lines. rewrite app_assoc.
    rewrite <- length_app. now rewrite drop_app_length. }
  now rewrite (exec_stop body _ Hp) by (simpl; lia).
Qed.

Lemma reaches_exec body n :
  progresses body n ->
  forall st, reaches body n st -> exec body n init = exec body n st.
Proof.
  intros Hp st H. induction H as [|st st' _ IH Hlt Hb]; trivial.
  rewrite IH. now apply exec_step.
Qed.

(** ** extract_git.py: what one iteration does *)

Module ExtractGitFacts.
Import ExtractGit.

Lemma register_after_eq lines line j st :
  j < length lines ->
  register_after lines line j st
  = Done (if is_listener lines j
          then State (idx st + 1) (new_lines st ++ registration line)
          else st).
Proof.
  intros Hj. destruct (lookup_lt_is_Some_2 lines j Hj) as [l Hl].
  unfold register_after, is_listener. rewrite (index_Some _ _ _ Hl), Hl.
  simpl. now destruct (contains _ l).
Qed.

Lemma for_range_register lines line : forall js st,
  Forall (fun j => j < length lines) js ->
  for_range js (register_after lines line) st
  = Done (State (idx st + hits lines js)
            (new_lines st
               ++ mjoin (replicate (hits lines js) (registration line)))).
Proof.
  induction js as [|j js IH]; intros [i out] Hjs.
  - simpl. unfold hits. simpl. now rewrite Nat.add_0_r, app_nil_r.
  - inversion Hjs as [|? ? Hj Hjs']; subst.
    cbn [for_range]. rewrite register_after_eq by trivial.
    cbn [mbind outcome_bind]. rewrite IH by trivial.
    unfold hits. cbn [List.filter].
    destruct (is_listener lines j); cbn [idx new_lines length replicate].
    + f_equal. f_equal; [lia|]. cbn [mjoin list_join].
      now rewrite <- !app_assoc.
    + reflexivity.
Qed.

Lemma step4 lines i out line :
  i <= length lines ->
  (if closes_listener lines i line
   then for_range (range (max 0 (i - 20)) i) (register_after lines line)
          (State i out)
   else Done (State i out))
  = Done (State (i + fired lines i line)
            (out ++ mjoin (replicate (fired lines i line)
                             (registration line)))).
Proof.
  intros Hi. unfold fired. destruct (closes_listener lines i line).
  - rewrite for_range_register; trivial.
    eapply Forall_impl; [apply range_lt|]. simpl. intros; lia.
  - simpl. now rewrite Nat.add_0_r, app_nil_r.
Qed.

(** The iteration at a line that steps 1-3 leave alone. *)
Lemma body_past_step3 lines i out line :
  lines !! i = Some line -> past_step3 i line = true ->
  body lines (State i out)
  = let k := fired lines i line in
    let out' := out ++ mjoin (replicate k (registration line)) in
    if contains "// Clean up all git watchers" line then
      i' ← skip_past "gitWatchers.clear()" lines (length lines) (i + k) ;
      Done (State i' (out' ++ [cleanup_comment; cleanup_call]))
    else Done (State (i + k + 1) (out' ++ [line])).
Proof.
  intros Hl Hp. unfold past_step3 in Hp.
  apply andb_true_iff in Hp as [Hp H3]. apply andb_true_iff in Hp as [H1 H2].
  apply negb_true_iff in H1, H2, H3.
  unfold body. cbn [idx new_lines]. rewrite (index_Some _ _ _ Hl).
  cbn [mbind outcome_bind]. rewrite H1, H2, H3.
  rewrite step4 by (apply lookup_lt_Some in Hl; lia).
  reflexivity.
Qed.

Lemma skip_handlers_progress lines : forall fuel i i',
  i < length lines -> skip_handlers lines fuel i = Done i' -> i < i'.
Proof.
  induction fuel as [|fuel IH]; intros i i' Hi H; simpl in H;
    apply Nat.ltb_lt in Hi; rewrite Hi in H; [discriminate|].
  apply Nat.ltb_lt in Hi.
  destruct (length lines <=? i + 1) eqn:E.
  - injection H as <-. lia.
  - apply Nat.leb_gt in E. unfold index in H.
    destruct (lines !! (i + 1)) as [l|]; [|discriminate]. simpl in H.
    destruct (contains "ipcMain.handle(" l && negb (contains "'git:pull'" l)).
    + injection H as <-. lia.
    + destruct (contains "// File system IPC handlers" l).
      * injection H as <-. lia.
      * apply IH in H; lia.
Qed.

Lemma skip_handlers_fuel lines : forall fuel i,
  length lines - i <= fuel -> skip_handlers lines fuel i <> OutOfFuel.
Proof.
  induction fuel as [|fuel IH]; intros i Hf; simpl;
    destruct (i <? length lines) eqn:E; try discriminate.
  - apply Nat.ltb_lt in E. lia.
  - destruct (length lines <=? i + 1); [discriminate|].
    unfold index. destruct (lines !! (i + 1)) as [l|]; simpl;
      try discriminate.
    destruct (contains "ipcMain.handle(" l && negb (contains "'git:pull'" l));
      [discriminate|].
    destruct (contains "// File system IPC handlers" l); [discriminate|].
    apply IH. lia.
Qed.

Lemma past_step3_intro i line :
  (i =? 16) && contains "generateFileId" line = false ->
  contains "interface GitWatcherSet" line = false ->
  contains "ipcMain.handle('git:get-info'" line = false ->
  past_step3 i line = true.
Proof. unfold past_step3. now intros -> -> ->. Qed.

Lemma eg_body_progresses lines : progresses (body lines) (length lines).
Proof.
  intros [i out] st' Hi H. cbn [idx] in *.
  destruct (lookup_lt_is_Some_2 lines i Hi) as [line Hl].
  destruct ((i =? 16) && contains "generateFileId" line) eqn:H1;
    [|destruct (contains "interface GitWatcherSet" line) eqn:H2;
      [|destruct (contains "ipcMain.handle('git:get-info'" line) eqn:H3]].
  - unfold body in H. cbn [idx new_lines] in H.
    rewrite (index_Some _ _ _ Hl) in H. cbn [mbind outcome_bind] in H.
    rewrite H1 in H. injection H as <-. simpl. lia.
  - unfold body in H. cbn [idx new_lines] in H.
    rewrite (index_Some _ _ _ Hl) in H. cbn [mbind outcome_bind] in H.
    rewrite H1, H2 in H.
    destruct (skip_past _ lines (length lines) i) as [i'| |] eqn:Hs;
      try discriminate.
    injection H as <-. simpl. eapply skip_past_progress; eauto.
  - unfold body in H. cbn [idx new_lines] in H.
    rewrite (index_Some _ _ _ Hl) in H. cbn [mbind outcome_bind] in H.
    rewrite H1, H2, H3 in H.
    destruct (skip_handlers lines (length lines) i) as [i'| |] eqn:Hs;
      try discriminate.
    injection H as <-. simpl. eapply skip_handlers_progress; eauto.
  - rewrite (body_past_step3 lines i out line Hl) in H
      by now apply past_step3_intro.
    cbv zeta in H. destruct (contains "// Clean up all git watchers" line).
    + destruct (skip_past _ lines (length lines) (i + fired lines i line))
        as [i'| |] eqn:Hs; try discriminate.
      injection H as <-. simpl.
      destruct (Nat.lt_ge_cases (i + fired lines i line) (length lines)).
      * apply skip_past_progress in Hs; lia.
      * rewrite skip_past_idle in Hs by trivial. injection Hs as <-. lia.
    + injection H as <-. simpl. lia.
Qed.

Lemma eg_body_fuel lines st :
  idx st < length lines -> body lines st <> OutOfFuel.
Proof.
  destruct st as [i out]. cbn [idx]. intros Hi.
  destruct (lookup_lt_is_Some_2 lines i Hi) as [line Hl].
  destruct ((i =? 16) && contains "generateFileId" line) eqn:H1;
    [|destruct (contains "interface GitWatcherSet" line) eqn:H2;
      [|destruct (contains "ipcMain.handle('git:get-info'" line) eqn:H3]].
  - unfold body. cbn [idx new_lines].
    rewrite (index_Some _ _ _ Hl). cbn [mbind outcome_bind].
    now rewrite H1.
  - unfold body. cbn [idx new_lines].
    rewrite (index_Some _ _ _ Hl). cbn [mbind outcome_bind].
    rewrite H1, H2.
    pose proof (skip_past_fuel "const GIT_DEBOUNCE_MS" lines
                  (length lines) i ltac:(lia)).
    now destruct (skip_past _ lines (length lines) i).
  - unfold body. cbn [idx new_lines].
    rewrite (index_Some _ _ _ Hl). cbn [mbind outcome_bind].
    rewrite H1, H2, H3.
    pose proof (skip_handlers_fuel lines (length lines) i ltac:(lia)).
    now destruct (skip_handlers lines (length lines) i).
  - rewrite (body_past_step3 lines i out line Hl)
      by now apply past_step3_intro.
    cbv zeta. destruct (contains "// Clean up all git watchers" line);
      [|discriminate].
    pose proof (skip_past_fuel "gitWatchers.clear()" lines (length lines)
                  (i + fired lines i line) ltac:(lia)).
    now destruct (skip_past _ lines (length lines) _).
Qed.

(** [main] is the loop run from [init], whatever the budget. *)
Lemma eg_main_exec lines :
  main lines
  = st ← exec (body lines) (length lines) init ; Done (new_lines st).
Proof.
  unfold main, exec. simpl. now rewrite Nat.sub_0_r.
Qed.

Lemma eg_main_terminates lines : main lines <> OutOfFuel.
Proof.
  rewrite eg_main_exec.
  pose proof (exec_terminates (body lines) (length lines)
                (eg_body_progresses lines) (eg_body_fuel lines)
                (length lines) init ltac:(simpl; lia)).
  now destruct (exec _ _ init).
Qed.

Lemma eg_quiet_copies lines i :
  fires lines i = false -> copies (body lines) lines i.
Proof.
  intros Hq out l Hl. unfold fires in Hq. rewrite Hl in Hq.
  apply orb_false_iff in Hq as [Hq H5]. apply orb_false_iff in Hq as [Hp Hk].
  apply negb_false_iff in Hp, Hk. apply Nat.eqb_eq in Hk.
  rewrite (body_past_step3 lines i out l Hl Hp). cbv zeta.
  rewrite H5, Hk. simpl. now rewrite Nat.add_0_r, app_nil_r.
Qed.

(** With no edit applying anywhere, the run returns the lines it read. *)
Lemma eg_quiet_run lines :
  (forall i, i < length lines -> fires lines i = false) ->
  main lines = Done lines.
Proof.
  intros Hq. rewrite eg_main_exec. unfold init.
  rewrite (exec_copy (body lines) lines (eg_body_progresses lines)
             (length lines) 0 (length lines) []); trivial.
  - rewrite (exec_stop _ _ (eg_body_progresses lines)) by (simpl; lia).
    simpl. now rewrite slice_all.
  - intros j Hj. apply eg_quiet_copies, Hq. lia.
Qed.

Lemma eg_body_interface lines i out line :
  lines !! i = Some line -> starts_interface i line = true ->
  body lines (State i out)
  = i' ← skip_past "const GIT_DEBOUNCE_MS" lines (length lines) i ;
    Done (State i' out).
Proof.
  intros Hl Hs. unfold starts_interface in Hs.
  apply andb_true_iff in Hs as [H1 H2]. apply negb_true_iff in H1.
  unfold body. cbn [idx new_lines]. rewrite (index_Some _ _ _ Hl).
  cbn [mbind outcome_bind]. now rewrite H1, H2.
Qed.

Lemma eg_body_cleanup lines i out line :
  lines !! i = Some line -> starts_cleanup lines i line = true ->
  body lines (State i out)
  = i' ← skip_past "gitWatchers.clear()" lines (length lines) i ;
    Done (State i' (out ++ [cleanup_comment; cleanup_call])).
Proof.
  intros Hl Hs. unfold starts_cleanup in Hs.
  apply andb_true_iff in Hs as [Hs H5]. apply andb_true_iff in Hs as [Hp Hk].
  apply Nat.eqb_eq in Hk.
  rewrite (body_past_step3 lines i out line Hl Hp). cbv zeta.
  rewrite H5, Hk. simpl. now rewrite Nat.add_0_r, app_nil_r.
Qed.

Lemma eg_body_registers lines i out line :
  lines !! i = Some line -> registers lines i line = true ->
  contains "// Clean up all git watchers" line = false ->
  body lines (State i out)
  = Done (State (i + listeners lines i + 1)
            (out ++ mjoin (replicate (listeners lines i) (registration line))
                 ++ [line])).
Proof.
  intros Hl Hr H5. unfold registers in Hr.
  apply andb_true_iff in Hr as [Hr _]. apply andb_true_iff in Hr as [Hp Hc].
  rewrite (body_past_step3 lines i out line Hl Hp). cbv zeta.
  unfold fired. rewrite H5, Hc. now rewrite <- app_assoc.
Qed.

Lemma eg_body_appends lines : appends (body lines) (length lines).
Proof.
  intros [i out] st' Hi H. cbn [idx new_lines] in *.
  destruct (lookup_lt_is_Some_2 lines i Hi) as [line Hl].
  destruct ((i =? 16) && contains "generateFileId" line) eqn:H1;
    [|destruct (contains "interface GitWatcherSet" line) eqn:H2;
      [|destruct (contains "ipcMain.handle('git:get-info'" line) eqn:H3]].
  - unfold body in H. cbn [idx new_lines] in H.
    rewrite (index_Some _ _ _ Hl) in H. cbn [mbind outcome_bind] in H.
    rewrite H1 in H. injection H as <-. simpl. eauto.
  - unfold body in H. cbn [idx new_lines] in H.
    rewrite (index_Some _ _ _ Hl) in H. cbn [mbind outcome_bind] in H.
    rewrite H1, H2 in H.
    destruct (skip_past _ lines (length lines) i); try discriminate.
    injection H as <-. exists []. simpl. now rewrite app_nil_r.
  - unfold body in H. cbn [idx new_lines] in H.
    rewrite (index_Some _ _ _ Hl) in H. cbn [mbind outcome_bind] in H.
    rewrite H1, H2, H3 in H.
    destruct (skip_handlers lines (length lines) i); try discriminate.
    injection H as <-. exists []. simpl. now rewrite app_nil_r.
  - rewrite (body_past_step3 lines i out line Hl) in H
      by now apply past_step3_intro.
    cbv zeta in H. destruct (contains "// Clean up all git watchers" line).
    + destruct (skip_past _ lines (length lines) _); try discriminate.
      injection H as <-. simpl. rewrite <- app_assoc. eauto.
    + injection H as <-. simpl. rewrite <- app_assoc. eauto.
Qed.

(** From a state the loop passes through, [main] is the rest of the
    loop. *)
Lemma eg_main_from lines st :
  reaches (body lines) (length lines) st ->
  main lines
  = st' ← exec (body lines) (length lines) st ; Done (new_lines st').
Proof.
  intros Hr. rewrite eg_main_exec.
  now rewrite (reaches_exec _ _ (eg_body_progresses lines) st Hr).
Qed.

Lemma eg_main_raises lines st :
  reaches (body lines) (length lines) st -> idx st < length lines ->
  body lines st = IndexError -> main lines = IndexError.
Proof.
  intros Hr Hi Hb. rewrite (eg_main_from lines st Hr).
  now rewrite (exec_raise _ _ (eg_body_progresses lines) st Hi Hb).
Qed.

(** What the loop has appended stays in the output. *)
Lemma eg_main_extends lines st final :
  reaches (body lines) (length lines) st -> main lines = Done final ->
  exists rest, final = new_lines st ++ rest.
Proof.
  intros Hr Hm. rewrite (eg_main_from lines st Hr) in Hm.
  destruct (exec (body lines) (length lines) st) as [st'| |] eqn:He;
    try discriminate.
  injection Hm as <-.
  exact (exec_extends _ _ (eg_body_progresses lines) (eg_body_appends lines)
           (length lines) st st' ltac:(lia) He).
Qed.

End ExtractGitFacts.

(** Case analysis on the guards of an iteration. *)
Ltac split_guards H :=
  repeat match type of H with
         | context [if ?b then _ else _] => destruct b eqn:?
         end.

Ltac split_goal_guards :=
  repeat match goal with
         | |- context [if ?b then _ else _] => destruct b eqn:?
         end.

(** ** modify_main.py: what one iteration does *)

Module ModifyMainFacts.
Import ModifyMain.

Lemma mm_body_eq lines i out line :
  lines !! i = Some line ->
  body lines (State i out)
  = Done
      (if after_import lines i then State (i + 1) (out ++ [import_line; line])
       else if (i + 1 =? 434) && contains "interface GitWatcherSet" line
       then State (i + 10) out
       else if (i + 1 =? 492) && closes_listener lines i line
       then State (i + 1)
              (out ++ [line; blank_line; register_comment; register_call])
       else if (i + 1 =? 978) && contains "ipcMain.handle('git:get-info'" line
       then State (i + 701) out
       else if (i + 1 =? 507) && contains "// Clean up all git watchers" line
       then State (i + 13) (out ++ [cleanup_comment; cleanup_call])
       else State (i + 1) (out ++ [line])).
Proof.
  intros Hl. unfold body, after_import. cbn [idx new_lines].
  rewrite (index_Some _ _ _ Hl). cbn [mbind outcome_bind].
  destruct (i + 1 =? 17) eqn:E17.
  - destruct (lookup_lt_is_Some_2 lines (i - 1)) as [prev Hprev].
    { apply lookup_lt_Some in Hl. lia. }
    rewrite (index_Some _ _ _ Hprev), Hprev. cbn [mbind outcome_bind andb].
    split_goal_guards; reflexivity.
  - cbn [mbind outcome_bind andb]. split_goal_guards; reflexivity.
Qed.

Lemma mm_body_progresses lines : progresses (body lines) (length lines).
Proof.
  intros [i out] st' Hi H. cbn [idx] in *.
  destruct (lookup_lt_is_Some_2 lines i Hi) as [line Hl].
  rewrite (mm_body_eq lines i out line Hl) in H. injection H as <-.
  split_goal_guards; simpl; lia.
Qed.

Lemma mm_body_total lines st :
  idx st < length lines -> exists st', body lines st = Done st'.
Proof.
  destruct st as [i out]. cbn [idx]. intros Hi.
  destruct (lookup_lt_is_Some_2 lines i Hi) as [line Hl].
  rewrite (mm_body_eq lines i out line Hl). eauto.
Qed.

Lemma mm_main_exec lines :
  main lines
  = st ← exec (body lines) (length lines) init ; Done (new_lines st).
Proof.
  unfold main, exec. simpl. now rewrite Nat.sub_0_r.
Qed.

Lemma mm_fires_hard_coded lines i :
  fires lines i = true -> hard_coded (i + 1) = true.
Proof.
  unfold fires, after_import, hard_coded. cbn [existsb].
  destruct (lines !! i) as [line|]; [|discriminate].
  destruct (i + 1 =? 17), (i + 1 =? 434), (i + 1 =? 492), (i + 1 =? 978),
    (i + 1 =? 507); simpl; trivial; discriminate.
Qed.

Lemma mm_quiet_copies lines i :
  fires lines i = false -> copies (body lines) lines i.
Proof.
  intros Hq out l Hl. unfold fires in Hq. rewrite Hl in Hq.
  repeat (apply orb_false_iff in Hq as [Hq ?]).
  rewrite (mm_body_eq lines i out l Hl).
  repeat match goal with H : _ = false |- _ => rewrite H; clear H end.
  reflexivity.
Qed.

Lemma mm_quiet_run lines :
  (forall i, i < length lines -> fires lines i = false) ->
  main lines = Done lines.
Proof.
  intros Hq. rewrite mm_main_exec. unfold init.
  rewrite (exec_copy (body lines) lines (mm_body_progresses lines)
             (length lines) 0 (length lines) []); trivial.
  - rewrite (exec_stop _ _ (mm_body_progresses lines)) by (simpl; lia).
    simpl. now rewrite slice_all.
  - intros j Hj. apply mm_quiet_copies, Hq. lia.
Qed.

(** The script never raises: every lookup it makes is in range. *)
Lemma mm_main_total lines : exists new, main lines = Done new.
Proof.
  rewrite mm_main_exec.
  destruct (exec_total (body lines) (length lines) (mm_body_progresses lines)
              (mm_body_total lines) (length lines) init ltac:(simpl; lia))
    as [st' ->].
  simpl. eauto.
Qed.

Lemma mm_inert_weaken line : inert line = true -> inert_but_handler line = true.
Proof.
  unfold inert, inert_but_handler. intros H.
  repeat (apply andb_true_iff in H as [H ?]).
  repeat (apply andb_true_iff; split); trivial.
Qed.

(** A line without the interface, closing and cleanup patterns, not at
    line 978 or without the handler pattern, in a file with no
    [generateFileId] import line, is copied. *)
Lemma mm_line_quiet lines i line :
  (forall k x, lines !! k = Some x -> inert_but_handler x = true) ->
  lines !! i = Some line ->
  (i + 1 =? 978) && contains "ipcMain.handle('git:get-info'" line = false ->
  fires lines i = false.
Proof.
  intros Hall Hl H4. pose proof (Hall i line Hl) as Hi.
  unfold inert_but_handler in Hi.
  repeat (apply andb_true_iff in Hi as [Hi ?]).
  repeat match goal with H : negb _ = true |- _ =>
    apply negb_true_iff in H end.
  assert (after_import lines i = false) as Himp.
  { unfold after_import. destruct (lines !! (i - 1)) as [prev|] eqn:Hprev;
      [|apply andb_false_r].
    apply Hall in Hprev. unfold inert_but_handler in Hprev.
    repeat (apply andb_true_iff in Hprev as [Hprev ?]).
    apply negb_true_iff in Hprev. rewrite Hprev. apply andb_false_r. }
  unfold fires, closes_listener. rewrite Hl, Himp, H4.
  repeat match goal with H : _ = false |- _ => rewrite H; clear H end.
  simpl. now rewrite !andb_false_r.
Qed.

Lemma mm_body_handlers lines out line :
  (forall k x, lines !! k = Some x -> inert_but_handler x = true) ->
  lines !! 977 = Some line ->
  contains "ipcMain.handle('git:get-info'" line = true ->
  body lines (State 977 out) = Done (State (977 + 701) out).
Proof.
  intros Hall Hl Hc. pose proof (Hall 977 line Hl) as Hi.
  unfold inert_but_handler in Hi.
  repeat (apply andb_true_iff in Hi as [Hi ?]).
  repeat match goal with H : negb _ = true |- _ =>
    apply negb_true_iff in H end.
  rewrite (mm_body_eq lines 977 out line Hl).
  unfold after_import, closes_listener.
  change (977 + 1 =? 17) with false. change (977 + 1 =? 434) with false.
  change (977 + 1 =? 492) with false. change (977 + 1 =? 978) with true.
  cbn [andb]. now rewrite Hc.
Qed.

End ModifyMainFacts.

(** ** modify_main_final.py: what one iteration does *)

Module ModifyMainFinalFacts.
Import ModifyMainFinal.

Lemma mf_body_past_step4 lines i out line :
  lines !! i = Some line -> past_step4 lines i line = true ->
  body lines (State i out)
  = if cleanup_guard i line then
      i' ← skip_past "gitWatchers.clear()" lines (length lines) i ;
      Done (State i' (out ++ [cleanup_comment; cleanup_call]))
    else Done (State (i + 1) (out ++ [line])).
Proof.
  intros Hl Hp. unfold past_step4, registers in Hp.
  repeat (apply andb_true_iff in Hp as [Hp ?]).
  repeat match goal with H : negb _ = true |- _ =>
    apply negb_true_iff in H end.
  unfold body, cleanup_guard. cbn [idx new_lines].
  rewrite (index_Some _ _ _ Hl). cbn [mbind outcome_bind].
  repeat match goal with H : _ = false |- _ => rewrite H; clear H end.
  reflexivity.
Qed.

Lemma mf_body_progresses lines : progresses (body lines) (length lines).
Proof.
  intros [i out] st' Hi H. cbn [idx] in *.
  destruct (lookup_lt_is_Some_2 lines i Hi) as [line Hl].
  unfold body in H. cbn [idx new_lines] in H.
  rewrite (index_Some _ _ _ Hl) in H. cbn [mbind outcome_bind] in H.
  split_guards H;
    try (injection H as <-; simpl; lia).
  destruct (skip_past _ lines (length lines) i) as [i'| |] eqn:Hs;
    try discriminate.
  injection H as <-. simpl. eapply skip_past_progress; eauto.
Qed.

Lemma mf_body_fuel lines st :
  idx st < length lines -> body lines st <> OutOfFuel.
Proof.
  destruct st as [i out]. cbn [idx]. intros Hi.
  destruct (lookup_lt_is_Some_2 lines i Hi) as [line Hl].
  unfold body. cbn [idx new_lines].
  rewrite (index_Some _ _ _ Hl). cbn [mbind outcome_bind].
  split_goal_guards; try discriminate.
  pose proof (skip_past_fuel "gitWatchers.clear()" lines (length lines) i
                ltac:(lia)).
  now destruct (skip_past _ lines (length lines) i).
Qed.

Lemma mf_main_exec lines :
  main lines
  = st ← exec (body lines) (length lines) init ; Done (new_lines st).
Proof.
  unfold main, exec. simpl. now rewrite Nat.sub_0_r.
Qed.

Lemma mf_main_terminates lines : main lines <> OutOfFuel.
Proof.
  rewrite mf_main_exec.
  pose proof (exec_terminates (body lines) (length lines)
                (mf_body_progresses lines) (mf_body_fuel lines)
                (length lines) init ltac:(simpl; lia)).
  now destruct (exec _ _ init).
Qed.

Lemma mf_fires_hard_coded lines i :
  fires lines i = true -> hard_coded (i + 1) = true.
Proof.
  unfold fires, past_step4, registers, cleanup_guard, hard_coded.
  cbn [existsb].
  destruct (lines !! i) as [line|]; [|discriminate].
  destruct (i + 1 =? 16), (i + 1 =? 434), (i + 1 =? 1277),
    (540 <? i + 1), (i + 1 <? 550), (500 <? i + 1), (i + 1 <? 600);
    cbn [andb orb]; trivial;
    repeat match goal with
           | |- context [contains ?a line] => destruct (contains a line)
           end;
    destruct (closes_listener lines i); cbn; trivial.
Qed.

Lemma mf_quiet_copies lines i :
  fires lines i = false -> copies (body lines) lines i.
Proof.
  intros Hq out l Hl. unfold fires in Hq. rewrite Hl in Hq.
  apply orb_false_iff in Hq as [Hp H5]. apply negb_false_iff in Hp.
  rewrite (mf_body_past_step4 lines i out l Hl Hp). now rewrite H5.
Qed.

Lemma mf_quiet_run lines :
  (forall i, i < length lines -> fires lines i = false) ->
  main lines = Done lines.
Proof.
  intros Hq. rewrite mf_main_exec. unfold init.
  rewrite (exec_copy (body lines) lines (mf_body_progresses lines)
             (length lines) 0 (length lines) []); trivial.
  - rewrite (exec_stop _ _ (mf_body_progresses lines)) by (simpl; lia).
    simpl. now rewrite slice_all.
  - intros j Hj. apply mf_quiet_copies, Hq. lia.
Qed.

Lemma mf_main_from lines st :
  reaches (body lines) (length lines) st ->
  main lines
  = st' ← exec (body lines) (length lines) st ; Done (new_lines st').
Proof.
  intros Hr. rewrite mf_main_exec.
  now rewrite (reaches_exec _ _ (mf_body_progresses lines) st Hr).
Qed.

Lemma mf_main_raises lines st :
  reaches (body lines) (length lines) st -> idx st < length lines ->
  body lines st = IndexError -> main lines = IndexError.
Proof.
  intros Hr Hi Hb. rewrite (mf_main_from lines st Hr).
  now rewrite (exec_raise _ _ (mf_body_progresses lines) st Hi Hb).
Qed.

Lemma mf_body_cleanup lines i out line :
  lines !! i = Some line -> starts_cleanup lines i line = true ->
  body lines (State i out)
  = i' ← skip_past "gitWatchers.clear()" lines (length lines) i ;
    Done (State i' (out ++ [cleanup_comment; cleanup_call])).
Proof.
  intros Hl Hs. unfold starts_cleanup in Hs.
  apply andb_true_iff in Hs as [Hp H5].
  rewrite (mf_body_past_step4 lines i out line Hl Hp). now rewrite H5.
Qed.

Lemma mf_inert_quiet lines i line :
  lines !! i = Some line -> inert line = true -> fires lines i = false.
Proof.
  intros Hl Hi. unfold inert in Hi.
  repeat (apply andb_true_iff in Hi as [Hi ?]).
  repeat match goal with H : negb _ = true |- _ =>
    apply negb_true_iff in H end.
  unfold fires, past_step4, registers, cleanup_guard. rewrite Hl.
  repeat match goal with H : _ = false |- _ => rewrite H; clear H end.
  simpl. now rewrite !andb_false_r.
Qed.

Lemma mf_other_line_quiet lines i line :
  lines !! i = Some line -> inert_but_interface line = true ->
  i + 1 <> 434 -> fires lines i = false.
Proof.
  intros Hl Hi Hne. unfold inert_but_interface in Hi.
  repeat (apply andb_true_iff in Hi as [Hi ?]).
  repeat match goal with H : negb _ = true |- _ =>
    apply negb_true_iff in H end.
  apply Nat.eqb_neq in Hne.
  unfold fires, past_step4, registers, cleanup_guard. rewrite Hl.
  repeat match goal with H : _ = false |- _ => rewrite H; clear H end.
  simpl. now rewrite !andb_false_r.
Qed.

Lemma mf_body_interface lines out line :
  lines !! 433 = Some line -> contains "interface GitWatcherSet" line = true ->
  body lines (State 433 out) = Done (State 443 out).
Proof.
  intros Hl Hc. unfold body. cbn [idx new_lines].
  rewrite (index_Some _ _ _ Hl). cbn [mbind outcome_bind].
  change (433 + 1 =? 16) with false. change (433 + 1 =? 434) with true.
  cbn [andb]. now rewrite Hc.
Qed.

End ModifyMainFinalFacts.

(** ** modify_main_v2.py: what one iteration does *)

Module ModifyMainV2Facts.
Import ModifyMainV2.

Lemma v2_fires_hard_coded lines i :
  fires lines i = true -> hard_coded (i + 1) = true.
Proof.
  unfold fires, hard_coded. cbn [existsb].
  destruct (lines !! i) as [line|]; [|discriminate].
  destruct (i + 1 =? 16), (i + 1 =? 439), (i + 1 =? 497), (i + 1 =? 947),
    (500 <? i + 1); cbn [andb orb]; trivial;
    repeat match goal with
           | |- context [contains ?a line] => destruct (contains a line)
           end; cbn; trivial.
Qed.

(** The first line among [js] that contains [gitWatchers.clear()]
    decides where skipping ends. *)
Lemma find_clear_first lines skip : forall js1 j js2 l,
  Forall (fun k => exists l', lines !! k = Some l'
                   /\ contains "gitWatchers.clear()" l' = false) js1 ->
  lines !! j = Some l -> contains "gitWatchers.clear()" l = true ->
  find_clear lines (js1 ++ j :: js2) skip = Done (Some (j + 1)).
Proof.
  induction js1 as [|k js1 IH]; intros j js2 l Hjs Hl Hc.
  - simpl. rewrite (index_Some _ _ _ Hl). simpl. now rewrite Hc.
  - inversion Hjs as [|? ? (l' & Hl' & Hc') Hjs']; subst.
    simpl. rewrite (index_Some _ _ _ Hl'). simpl. rewrite Hc'. eauto.
Qed.

Lemma find_clear_total lines : forall js skip,
  Forall (fun j => j < length lines) js ->
  exists r, find_clear lines js skip = Done r.
Proof.
  induction js as [|j js IH]; intros skip Hjs; simpl; eauto.
  inversion Hjs as [|? ? Hj Hjs']; subst.
  destruct (lookup_lt_is_Some_2 lines j Hj) as [l Hl].
  rewrite (index_Some _ _ _ Hl). simpl.
  destruct (contains "gitWatchers.clear()" l); eauto.
Qed.

Lemma v2_steps_total lines i line out :
  exists st', steps lines i line out = Done st'.
Proof.
  unfold steps. split_goal_guards; eauto.
  destruct (find_clear_total lines (range (i + 1) (length lines)) None
              (range_lt _ _)) as [r ->].
  simpl. eauto.
Qed.

Lemma v2_body_total lines i line st :
  exists st', body lines i line st = Done st'.
Proof.
  unfold body. destruct (skip_until_line st) as [until|].
  - destruct (until <? i + 1); eauto using v2_steps_total.
  - apply v2_steps_total.
Qed.

Lemma for_enumerate_total lines : forall ls i st,
  exists st', for_enumerate (body lines) i ls st = Done st'.
Proof.
  induction ls as [|line ls IH]; intros i st; simpl; eauto.
  destruct (v2_body_total lines i line st) as [st' ->]. simpl. apply IH.
Qed.

(** The script never raises: every lookup it makes is in range. *)
Lemma v2_main_total lines : exists new, main lines = Done new.
Proof.
  unfold main.
  destruct (for_enumerate_total lines lines 0 vinit) as [st' ->].
  simpl. eauto.
Qed.

Lemma v2_steps_quiet lines i line out :
  lines !! i = Some line -> fires lines i = false ->
  steps lines i line out = Done (VState None (out ++ [line])).
Proof.
  intros Hl Hq. unfold fires in Hq. rewrite Hl in Hq.
  repeat (apply orb_false_iff in Hq as [Hq ?]).
  unfold steps.
  repeat match goal with H : _ = false |- _ => rewrite H; clear H end.
  reflexivity.
Qed.

Lemma for_enumerate_quiet lines : forall ls i out,
  (forall k l, ls !! k = Some l -> lines !! (i + k) = Some l) ->
  (forall k, k < length ls -> fires lines (i + k) = false) ->
  for_enumerate (body lines) i ls (VState None out)
  = Done (VState None (out ++ ls)).
Proof.
  induction ls as [|line ls IH]; intros i out Hls Hq; simpl.
  - now rewrite app_nil_r.
  - change (body lines i line (VState None out))
      with (steps lines i line out).
    rewrite v2_steps_quiet.
    + simpl. rewrite IH.
      * now rewrite <- app_assoc.
      * intros k l Hk. replace (S i + k) with (i + S k) by lia.
        now apply Hls.
      * intros k Hk. replace (S i + k) with (i + S k) by lia.
        apply Hq. simpl. lia.
    + rewrite <- (Nat.add_0_r i). now apply Hls.
    + rewrite <- (Nat.add_0_r i). apply Hq. simpl. lia.
Qed.

(** With no edit applying anywhere, the run returns the lines it read. *)
Lemma v2_quiet_run lines :
  (forall i, i < length lines -> fires lines i = false) ->
  main lines = Done lines.
Proof.
  intros Hq. unfold main, vinit. now rewrite for_enumerate_quiet.
Qed.

Lemma range_split i j n :
  i < j -> j < n -> range (i + 1) n = range (i + 1) j ++ j :: range (j + 1) n.
Proof.
  intros Hij Hjn. unfold range.
  replace (n - (i + 1)) with ((j - (i + 1)) + S (n - (j + 1))) by lia.
  rewrite seq_app. cbn [seq]. do 3 f_equal; lia.
Qed.

Lemma v2_steps_cleanup lines i line out j l :
  starts_cleanup lines i line = true ->
  i < j -> lines !! j = Some l -> contains "gitWatchers.clear()" l = true ->
  none_between "gitWatchers.clear()" lines i j ->
  steps lines i line out
  = Done (VState (Some (j + 1)) (out ++ [cleanup_comment; cleanup_call])).
Proof.
  intros Hs Hij Hl Hc Hnone. unfold starts_cleanup in Hs.
  repeat (apply andb_true_iff in Hs as [Hs ?]).
  repeat match goal with H : negb _ = true |- _ =>
    apply negb_true_iff in H end.
  unfold steps.
  repeat match goal with H : _ = false |- _ => rewrite H; clear H end.
  repeat match goal with H : _ = true |- _ => rewrite H; clear H end.
  cbn [andb].
  rewrite (range_split i j (length lines)) by
    (trivial; now apply lookup_lt_Some in Hl).
  rewrite (find_clear_first lines None (range (i + 1) j) j _ l); trivial.
  apply Forall_forall. intros k Hk.
  apply list_elem_of_In, in_seq in Hk.
  destruct (lookup_lt_is_Some_2 lines k) as [l' Hl'].
  { apply lookup_lt_Some in Hl. lia. }
  exists l'. split; [exact Hl'|]. apply (Hnone k l'); trivial. lia.
Qed.

End ModifyMainV2Facts.

(** ** Ranges consumed by a run *)

Lemma increasing_weaken rs : forall lo lo',
  lo' <= lo -> increasing lo rs -> increasing lo' rs.
Proof.
  destruct rs as [|[a b] rs]; simpl; trivial.
  intros lo lo' Hle (H1 & H2 & H3). repeat split; trivial. lia.
Qed.

Lemma increasing_lookup rs : forall lo q r,
  increasing lo rs -> rs !! q = Some r -> lo <= fst r /\ fst r < snd r.
Proof.
  induction rs as [|[a b] rs IH]; intros lo q r H Hq; [discriminate|].
  destruct H as (Ha & Hb & Hrest). destruct q as [|q]; simpl in Hq.
  - injection Hq as <-. simpl. lia.
  - destruct (IH b q r Hrest Hq). lia.
Qed.

(** Increasing ranges are pairwise disjoint: a later range starts at or
    after the end of an earlier one. *)
Lemma increasing_pairwise rs : forall lo p q r1 r2,
  increasing lo rs -> p < q -> rs !! p = Some r1 -> rs !! q = Some r2 ->
  snd r1 <= fst r2.
Proof.
  induction rs as [|[a b] rs IH]; intros lo p q r1 r2 H Hpq Hp Hq;
    [discriminate|].
  destruct H as (Ha & Hb & Hrest).
  destruct q as [|q]; [lia|]. simpl in Hq. destruct p as [|p]; simpl in Hp.
  - injection Hp as <-. simpl.
    destruct (increasing_lookup rs b q r2 Hrest Hq). lia.
  - apply (IH b p q r1 r2 Hrest); trivial. lia.
Qed.

Lemma consumed_increasing body fires n :
  progresses body n ->
  forall fuel st lo, lo <= idx st ->
    increasing lo (consumed body fires n fuel st).
Proof.
  intros Hp. induction fuel as [|fuel IH]; intros st lo Hlo; simpl;
    destruct (idx st <? n) eqn:E; simpl; trivial.
  apply Nat.ltb_lt in E.
  destruct (body st) as [st'| |] eqn:Hb; simpl; trivial.
  pose proof (Hp _ _ E Hb) as Hlt.
  destruct (fires (idx st)); simpl.
  - repeat split; trivial. apply IH. lia.
  - apply IH. lia.
Qed.

(** ** The write-back *)

Section WriteBack.
Import IO.

Lemma run_write_lines p : forall new acc (fs : gmap string (list string)),
  run_ops (<[p := acc]> fs) (map (WriteLine p) new) = <[p := acc ++ new]> fs.
Proof.
  induction new as [|l new IH]; intros acc fs; simpl.
  - now rewrite app_nil_r.
  - rewrite lookup_insert_eq. simpl. rewrite insert_insert_eq.
    rewrite IH. now rewrite <- app_assoc.
Qed.

Lemma run_write_back new (fs : gmap string (list string)) :
  run_ops fs (write_back new) = <[main_ts := new]> fs.
Proof.
  unfold write_back. simpl. apply (run_write_lines main_ts new []).
Qed.

Lemma run_write_back_prefix new k (fs : gmap string (list string)) :
  run_ops fs (take (S k) (write_back new)) = <[main_ts := take k new]> fs.
Proof.
  unfold write_back. simpl.
  rewrite firstn_map.
  apply (run_write_lines main_ts (take k new) []).
Qed.

Lemma script_done main (fs : gmap string (list string)) lines new :
  fs !! main_ts = Some lines -> main lines = Done new ->
  script main fs = write_back new.
Proof. unfold script. now intros -> ->. Qed.

Lemma script_raise main (fs : gmap string (list string)) lines :
  fs !! main_ts = Some lines -> main lines = IndexError ->
  script main fs = [].
Proof. unfold script. now intros -> ->. Qed.

Lemma run_done main (fs : gmap string (list string)) lines new :
  fs !! main_ts = Some lines -> main lines = Done new ->
  run main fs = <[main_ts := new]> fs.
Proof.
  intros Hf Hm. unfold run. rewrite (script_done _ _ _ _ Hf Hm).
  apply run_write_back.
Qed.

Lemma interrupted_raise main (fs : gmap string (list string)) lines k :
  fs !! main_ts = Some lines -> main lines = IndexError ->
  interrupted main fs k = fs.
Proof.
  intros Hf Hm. unfold interrupted. rewrite (script_raise _ _ _ Hf Hm).
  now rewrite take_nil.
Qed.

Lemma write_back_in_place main (fs : gmap string (list string)) lines new :
  fs !! main_ts = Some lines -> main lines = Done new ->
  writes_in_place main fs new.
Proof.
  intros Hf Hm. unfold writes_in_place, interrupted.
  rewrite (script_done _ _ _ _ Hf Hm). repeat split.
  - intros k. apply run_write_back_prefix.
  - unfold write_back. constructor; [reflexivity|].
    apply Forall_forall. intros op Hop.
    apply list_elem_of_In, in_map_iff in Hop as (l & <- & _). reflexivity.
  - now apply (run_done main fs lines).
Qed.

End WriteBack.

(** * The claims *)

Import Samples.

(** ** C4: how the result reaches the file *)

(** C4, as stated, fails: modify_main.py opens [electron/main.ts] itself
    for writing, which empties it; stopped right after that open, the
    file is empty and its former text is lost. *)
Lemma C4_interrupted_write_loses_the_file :
  ({[IO.main_ts := only_import]} : gmap string (list string)) !! IO.main_ts
  = Some only_import
  /\ IO.interrupted ModifyMain.main {[IO.main_ts := only_import]} 1
       !! IO.main_ts = Some []
  /\ only_import <> [].
Proof.
  split; [apply lookup_singleton_eq|]. split; [|discriminate].
  destruct (ModifyMainFacts.mm_main_total only_import) as [new Hm].
  destruct (write_back_in_place ModifyMain.main
              {[IO.main_ts := only_import]} only_import new
              (lookup_singleton_eq _ _) Hm) as (_ & H & _).
  rewrite (H 0). apply lookup_insert_eq.
Qed.

(** C4, amended: the scripts build [new_lines] completely in memory and
    then write it straight to the original path, opened in truncating
    write mode; there is no temporary path and no rename. Stopped before
    that open the file is unchanged (also when the loop raises); from the
    open on it holds a prefix of the new text, not the old text; only the
    original path is touched. *)
Theorem C4_write_back_is_in_place
    (fs : gmap string (list string)) (lines : list string) :
  fs !! IO.main_ts = Some lines ->
  (exists new, ModifyMain.main lines = Done new
     /\ writes_in_place ModifyMain.main fs new)
  /\ (forall new, ExtractGit.main lines = Done new ->
        writes_in_place ExtractGit.main fs new)
  /\ (ExtractGit.main lines = IndexError ->
        forall k, IO.interrupted ExtractGit.main fs k = fs).
Proof.
  intros Hf. split; [|split].
  - destruct (ModifyMainFacts.mm_main_total lines) as [new Hm].
    exists new. split; [exact Hm|]. now apply (write_back_in_place _ _ lines).
  - intros new Hm. now apply (write_back_in_place _ _ lines).
  - intros Hm k. now apply (interrupted_raise _ _ lines).
Qed.

Lemma C4_write_back_witness :
  writes_in_place ExtractGit.main {[IO.main_ts := pad 2]} (pad 2).
Proof.
  apply (C4_write_back_is_in_place {[IO.main_ts := pad 2]} (pad 2)).
  - reflexivity.
  - vm_compute. reflexivity.
Defined.

(** ** C1: what decides where an edit applies *)

(** C1, as stated, fails: in a file that has the interface block on
    lines 1-10 and the git handler on line 11 the content patterns match,
    yet modify_main.py, modify_main_v2.py and modify_main_final.py apply
    no edit and return the file as it is; the same lines moved down so
    that the block starts on line 434 are removed by modify_main.py. *)
Lemma C1_pattern_away_from_its_line_number :
  (exists l, patterns_at_top !! 0 = Some l
     /\ contains "interface GitWatcherSet" l = true)
  /\ (exists l, patterns_at_top !! 10 = Some l
        /\ contains "ipcMain.handle('git:get-info'" l = true)
  /\ ModifyMain.main patterns_at_top = Done patterns_at_top
  /\ ModifyMainV2.main patterns_at_top = Done patterns_at_top
  /\ ModifyMainFinal.main patterns_at_top = Done patterns_at_top
  /\ ModifyMain.main (pad 433 ++ patterns_at_top)
     = Done (pad 433 ++ [handler_open] ++ pad 2).
Proof.
  split; [eexists; split; [reflexivity|vm_compute; reflexivity]|].
  split; [eexists; split; [reflexivity|vm_compute; reflexivity]|].
  repeat split; vm_compute; reflexivity.
Qed.

(** C1, amended: in modify_main.py, modify_main_v2.py and
    modify_main_final.py an edit can apply only at a line whose number is
    written into the script (lines 17, 434, 492, 507, 978; lines 16, 439,
    497, 947 and the lines after 500; lines 16, 434, 1277 and the windows
    541-549 and 501-599), the content pattern being a check made at that
    line; when no such line passes its check the script returns the file
    unchanged, wherever else the patterns occur. *)
Theorem C1_edits_are_tied_to_line_numbers (lines : list string) :
  ((forall i, ModifyMain.fires lines i = true ->
              ModifyMain.hard_coded (i + 1) = true)
   /\ ((forall i, ModifyMain.hard_coded (i + 1) = true ->
                  ModifyMain.fires lines i = false) ->
       ModifyMain.main lines = Done lines))
  /\ ((forall i, ModifyMainV2.fires lines i = true ->
                 ModifyMainV2.hard_coded (i + 1) = true)
      /\ ((forall i, ModifyMainV2.hard_coded (i + 1) = true ->
                     ModifyMainV2.fires lines i = false) ->
          ModifyMainV2.main lines = Done lines))
  /\ ((forall i, ModifyMainFinal.fires lines i = true ->
                 ModifyMainFinal.hard_coded (i + 1) = true)
      /\ ((forall i, ModifyMainFinal.hard_coded (i + 1) = true ->
                     ModifyMainFinal.fires lines i = false) ->
          ModifyMainFinal.main lines = Done lines)).
Proof.
  split; [|split]; (split; [intros i; first
    [ apply ModifyMainFacts.mm_fires_hard_coded
    | apply ModifyMainV2Facts.v2_fires_hard_coded
    | apply ModifyMainFinalFacts.mf_fires_hard_coded ]|]); intros Hq.
  - apply ModifyMainFacts.mm_quiet_run. intros i _.
    destruct (ModifyMain.fires lines i) eqn:E; trivial.
    pose proof (Hq i (ModifyMainFacts.mm_fires_hard_coded _ _ E)). congruence.
  - apply ModifyMainV2Facts.v2_quiet_run. intros i _.
    destruct (ModifyMainV2.fires lines i) eqn:E; trivial.
    pose proof (Hq i (ModifyMainV2Facts.v2_fires_hard_coded _ _ E)). congruence.
  - apply ModifyMainFinalFacts.mf_quiet_run. intros i _.
    destruct (ModifyMainFinal.fires lines i) eqn:E; trivial.
    pose proof (Hq i (ModifyMainFinalFacts.mf_fires_hard_coded _ _ E)).
    congruence.
Qed.

Lemma C1_line_numbers_witness :
  ModifyMain.main patterns_at_top = Done patterns_at_top
  /\ ModifyMainV2.main patterns_at_top = Done patterns_at_top
  /\ ModifyMainFinal.main patterns_at_top = Done patterns_at_top.
Proof.
  split; [|split].
  - apply (proj2 (proj1 (C1_edits_are_tied_to_line_numbers patterns_at_top))).
    intros i H.
    do 13 (destruct i as [|i]; [vm_compute in H; discriminate H|]).
    reflexivity.
  - apply (proj2 (proj1 (proj2
             (C1_edits_are_tied_to_line_numbers patterns_at_top)))).
    intros i H.
    do 13 (destruct i as [|i]; [vm_compute in H; discriminate H|]).
    reflexivity.
  - apply (proj2 (proj2 (proj2
             (C1_edits_are_tied_to_line_numbers patterns_at_top)))).
    intros i H.
    do 13 (destruct i as [|i]; [vm_compute in H; discriminate H|]).
    reflexivity.
Defined.

(** ** C9: a block start without its terminator *)

(** C9, as stated, fails: a line with a block-start marker that the loop
    never examines starts no scan. In extract_git.py the interface marker
    inside the region that step 3 skips is passed over and the run
    finishes; in modify_main_final.py the cleanup comment outside lines
    501-599 is copied and the run finishes. Neither file holds the
    terminator. *)
Lemma C9_marker_not_examined_no_error :
  (exists l, [handler_open; ln "interface GitWatcherSet {"] !! 1 = Some l
     /\ contains "interface GitWatcherSet" l = true)
  /\ no_later "const GIT_DEBOUNCE_MS"
       [handler_open; ln "interface GitWatcherSet {"] 1 = true
  /\ ExtractGit.main [handler_open; ln "interface GitWatcherSet {"] = Done []
  /\ no_later "gitWatchers.clear()"
       [ln "    // Clean up all git watchers"; ln "}"] 0 = true
  /\ ModifyMainFinal.main [ln "    // Clean up all git watchers"; ln "}"]
     = Done [ln "    // Clean up all git watchers"; ln "}"].
Proof.
  split; [eexists; split; [reflexivity|vm_compute; reflexivity]|].
  repeat split; vm_compute; reflexivity.
Qed.

(** C9, amended: when the main loop is at a line on which a block-start
    step fires (extract_git.py step 2 on [interface GitWatcherSet], its
    step 5 on [// Clean up all git watchers] with the index still at that
    line, modify_main_final.py step 5 on the same comment between lines
    501 and 599) and no later line contains the step's terminator, the
    skip loop indexes the line list past its end and the run ends with
    IndexError. *)
Theorem C9_scan_without_terminator_raises
    (lines : list string) (i : nat) (out : list string) (line : string) :
  lines !! i = Some line ->
  (reaches (ExtractGit.body lines) (length lines) (State i out) ->
   ExtractGit.starts_interface i line = true ->
   no_later "const GIT_DEBOUNCE_MS" lines i = true ->
   ExtractGit.body lines (State i out) = IndexError
   /\ ExtractGit.main lines = IndexError)
  /\ (reaches (ExtractGit.body lines) (length lines) (State i out) ->
      ExtractGit.starts_cleanup lines i line = true ->
      no_later "gitWatchers.clear()" lines i = true ->
      ExtractGit.body lines (State i out) = IndexError
      /\ ExtractGit.main lines = IndexError)
  /\ (reaches (ModifyMainFinal.body lines) (length lines) (State i out) ->
      ModifyMainFinal.starts_cleanup lines i line = true ->
      no_later "gitWatchers.clear()" lines i = true ->
      ModifyMainFinal.body lines (State i out) = IndexError
      /\ ModifyMainFinal.main lines = IndexError).
Proof.
  intros Hl. pose proof (lookup_lt_Some _ _ _ Hl) as Hi.
  split; [|split]; intros Hr Hs Hn; apply no_later_none_after in Hn.
  - assert (ExtractGit.body lines (State i out) = IndexError) as Hb.
    { rewrite (ExtractGitFacts.eg_body_interface lines i out line Hl Hs).
      now rewrite skip_past_missing by (trivial; lia). }
    split; [exact Hb|].
    now apply (ExtractGitFacts.eg_main_raises lines (State i out)).
  - assert (ExtractGit.body lines (State i out) = IndexError) as Hb.
    { rewrite (ExtractGitFacts.eg_body_cleanup lines i out line Hl Hs).
      now rewrite skip_past_missing by (trivial; lia). }
    split; [exact Hb|].
    now apply (ExtractGitFacts.eg_main_raises lines (State i out)).
  - assert (ModifyMainFinal.body lines (State i out) = IndexError) as Hb.
    { rewrite (ModifyMainFinalFacts.mf_body_cleanup lines i out line Hl Hs).
      now rewrite skip_past_missing by (trivial; lia). }
    split; [exact Hb|].
    now apply (ModifyMainFinalFacts.mf_main_raises lines (State i out)).
Qed.

Lemma C9_scan_witness :
  ExtractGit.body [ln "interface GitWatcherSet {"; ln "}"] (State 0 [])
  = IndexError
  /\ ExtractGit.main [ln "interface GitWatcherSet {"; ln "}"] = IndexError.
Proof.
  apply (proj1 (C9_scan_without_terminator_raises
                  [ln "interface GitWatcherSet {"; ln "}"] 0 []
                  (ln "interface GitWatcherSet {") eq_refl)).
  - apply reaches_init.
  - vm_compute. reflexivity.
  - vm_compute. reflexivity.
Defined.

(** ** C10: the registration step of extract_git.py *)

(** C10, as stated, fails: when two of the 20 lines before the closing
    line open the status-change listener, the inner loop fires twice; the
    output holds the closing line three times and the two input lines
    after it are dropped. *)
Lemma C10_two_listeners_three_copies :
  ExtractGit.registers
    [listener_open; listener_open; listener_close; ln "a"; ln "b"; ln "c"]
    2 listener_close = true
  /\ reaches
       (ExtractGit.body
          [listener_open; listener_open; listener_close;
           ln "a"; ln "b"; ln "c"])
       6 (State 2 [listener_open; listener_open])
  /\ ExtractGit.body
       [listener_open; listener_open; listener_close; ln "a"; ln "b"; ln "c"]
       (State 2 [listener_open; listener_open])
     = Done (State 5
               [listener_open; listener_open;
                listener_close; blank_line; register_comment; register_call;
                listener_close; blank_line; register_comment; register_call;
                listener_close])
  /\ ExtractGit.main
       [listener_open; listener_open; listener_close; ln "a"; ln "b"; ln "c"]
     = Done [listener_open; listener_open;
             listener_close; blank_line; register_comment; register_call;
             listener_close; blank_line; register_comment; register_call;
             listener_close; ln "c"].
Proof.
  split; [vm_compute; reflexivity|]. split.
  - eapply reaches_step; [eapply reaches_step; [apply reaches_init|..]|..];
      try (vm_compute; reflexivity); simpl; lia.
  - split; vm_compute; reflexivity.
Qed.

(** C10, amended: when the registration step of extract_git.py fires at
    a closing line that does not also carry the cleanup comment, and [k]
    of the 20 lines before it contain [sshManager.on('status-change'],
    the iteration appends the closing line followed by the three
    registration lines [k] times, then the closing line once more, and
    moves the index [k + 1] lines on: the [k] input lines after the
    closing line are never copied. For [k = 1] the closing line stands
    once before and once after the registration lines and the one input
    line after it is dropped. *)
Theorem C10_registration_repeats_and_skips
    (lines : list string) (i : nat) (out : list string) (line : string) :
  lines !! i = Some line ->
  ExtractGit.registers lines i line = true ->
  contains "// Clean up all git watchers" line = false ->
  let k := ExtractGit.listeners lines i in
  let out' := out ++ mjoin (replicate k (ExtractGit.registration line))
                  ++ [line] in
  0 < k
  /\ ExtractGit.body lines (State i out) = Done (State (i + k + 1) out')
  /\ (k = 1 ->
      ExtractGit.body lines (State i out)
      = Done (State (i + 2)
                (out ++ [line; blank_line; register_comment; register_call;
                         line])))
  /\ (reaches (ExtractGit.body lines) (length lines) (State i out) ->
      forall final, ExtractGit.main lines = Done final ->
        exists rest, final = out' ++ rest).
Proof.
  intros Hl Hr H5 k out'.
  pose proof (ExtractGitFacts.eg_body_registers lines i out line Hl Hr H5)
    as Hb.
  split; [|split; [exact Hb|split]].
  - unfold ExtractGit.registers in Hr.
    apply andb_true_iff in Hr as [_ Hk]. now apply Nat.ltb_lt in Hk.
  - intros Hk. rewrite Hb. fold k. rewrite Hk. simpl.
    now replace (i + 1 + 1) with (i + 2) by lia.
  - intros Hreach final Hm.
    apply (ExtractGitFacts.eg_main_extends lines (State (i + k + 1) out'));
      trivial.
    eapply reaches_step; [exact Hreach| |exact Hb].
    simpl. now apply lookup_lt_Some in Hl.
Qed.

Lemma C10_registration_witness :
  ExtractGit.body [listener_open; listener_close; after_listener]
    (State 1 [listener_open])
  = Done (State 3
            [listener_open; listener_close; blank_line; register_comment;
             register_call; listener_close]).
Proof.
  apply (C10_registration_repeats_and_skips
           [listener_open; listener_close; after_listener] 1
           [listener_open] listener_close).
  - reflexivity.
  - vm_compute. reflexivity.
  - vm_compute. reflexivity.
  - vm_compute. reflexivity.
Defined.

(** ** C8: lines outside every edit *)

(** C8 at the input on which extract_git.py departs from it: the line
    after the listener's closing line belongs to no edit, yet it is
    missing from the output and the closing line is there twice.
    modify_main.py, given the same three lines at lines 491-493, keeps
    the line after the registration. *)
Theorem C8_line_after_registration_is_lost :
  ExtractGit.main [listener_open; listener_close; after_listener]
  = Done [listener_open; listener_close; blank_line; register_comment;
          register_call; listener_close]
  /\ ModifyMain.main
       (pad 490 ++ [listener_open; listener_close; after_listener])
     = Done (pad 490 ++ [listener_open; listener_close; blank_line;
                         register_comment; register_call; after_listener]).
Proof. split; vm_compute; reflexivity. Qed.

(** ** C5: unrelated lines inserted earlier in the file *)

(** C5, as stated, fails: modify_main_final.py removes the interface
    block that starts on line 434; with one unrelated line inserted at
    the top of the same file the block starts on line 435 and the script
    removes nothing. *)
Lemma C5_shifted_block_is_kept :
  ModifyMainFinal.main block_at_434 = Done (pad 433 ++ pad 2)
  /\ ModifyMainFinal.main (ln "// a new first line" :: block_at_434)
     = Done (ln "// a new first line" :: block_at_434).
Proof. split; vm_compute; reflexivity. Qed.

(** C5, amended: the edits of modify_main_final.py and modify_main.py
    follow the absolute line numbers written into them, not the content.
    For a file made of 433 lines, a ten-line block that opens with
    [interface GitWatcherSet] and further lines, none of them holding
    another of the script's patterns, modify_main_final.py removes the
    block; for a file made of 977 such lines, a 701-line block that opens
    with the [git:get-info] handler and further such lines,
    modify_main.py removes the block. When lines that hold none of the
    patterns are inserted before it, each script removes nothing and
    returns the shifted file as it is. *)
Theorem C5_edit_follows_line_number_not_content
    (u pre blk post : list string) :
  0 < length u ->
  (length pre = 433 -> length blk = 10 ->
   forallb ModifyMainFinal.inert (u ++ pre ++ post) = true ->
   forallb ModifyMainFinal.inert_but_interface blk = true ->
   ModifyMainFinal.opens_interface blk = true ->
   ModifyMainFinal.main (pre ++ blk ++ post) = Done (pre ++ post)
   /\ ModifyMainFinal.main (u ++ pre ++ blk ++ post)
      = Done (u ++ pre ++ blk ++ post))
  /\ (length pre = 977 -> length blk = 701 ->
      forallb ModifyMain.inert (u ++ pre ++ post) = true ->
      forallb ModifyMain.inert_but_handler blk = true ->
      ModifyMain.opens_handlers blk = true ->
      ModifyMain.main (pre ++ blk ++ post) = Done (pre ++ post)
      /\ ModifyMain.main (u ++ pre ++ blk ++ post)
         = Done (u ++ pre ++ blk ++ post)).
Proof.
  intros Hu.
  assert (forall (ls : list string) k x, ls !! k = Some x -> In x ls) as Hin.
  { intros ls k x Hx. apply list_elem_of_In, list_elem_of_lookup. eauto. }
  split; intros Hpre Hblk Hinert Hblki Hopen;
    rewrite !forallb_app in Hinert;
    apply andb_true_iff in Hinert as [Hiu Hinert];
    apply andb_true_iff in Hinert as [Hipre Hipost];
    rewrite forallb_forall in Hiu, Hipre, Hipost, Hblki.
  - split.
    + destruct blk as [|first blk'] eqn:Eblk; [discriminate|].
      assert (contains "interface GitWatcherSet" first = true) as Hfirst
        by exact Hopen.
      rewrite <- Eblk in *.
      rewrite ModifyMainFinalFacts.mf_main_exec.
      rewrite (exec_removes_block (ModifyMainFinal.body _) pre blk post);
        trivial.
      * apply ModifyMainFinalFacts.mf_body_progresses.
      * lia.
      * intros j Hj. apply ModifyMainFinalFacts.mf_quiet_copies.
        destruct (lookup_lt_is_Some_2 pre j Hj) as [x Hx].
        apply (ModifyMainFinalFacts.mf_inert_quiet _ j x).
        -- now rewrite lookup_app_l by lia.
        -- apply Hipre. now apply (Hin pre j).
      * intros out. rewrite Hpre, Hblk.
        apply (ModifyMainFinalFacts.mf_body_interface _ _ first); trivial.
        rewrite lookup_app_r by lia.
        replace (433 - length pre) with 0 by lia. now rewrite Eblk.
      * intros j Hj. apply ModifyMainFinalFacts.mf_quiet_copies.
        destruct (lookup_lt_is_Some_2 _ j (proj2 Hj)) as [x Hx].
        apply (ModifyMainFinalFacts.mf_inert_quiet _ j x Hx).
        apply Hipost. apply (Hin post (j - length pre - length blk)).
        rewrite lookup_app_r in Hx by lia.
        now rewrite lookup_app_r in Hx by lia.
    + apply ModifyMainFinalFacts.mf_quiet_run. intros i Hi.
      destruct (lookup_lt_is_Some_2 _ i Hi) as [x Hx].
      pose proof Hx as Hx'.
      apply lookup_app_Some in Hx' as [Hx'|[Hge Hx']].
      { apply (ModifyMainFinalFacts.mf_inert_quiet _ i x Hx).
        apply Hiu. now apply (Hin u i). }
      apply lookup_app_Some in Hx' as [Hx'|[Hge' Hx']].
      { apply (ModifyMainFinalFacts.mf_inert_quiet _ i x Hx).
        apply Hipre. now apply (Hin pre (i - length u)). }
      apply lookup_app_Some in Hx' as [Hx'|[Hge'' Hx']].
      * apply (ModifyMainFinalFacts.mf_other_line_quiet _ i x Hx); [|lia].
        apply Hblki. now apply (Hin blk (i - length u - length pre)).
      * apply (ModifyMainFinalFacts.mf_inert_quiet _ i x Hx).
        apply Hipost. eapply Hin. exact Hx'.
  - assert (forall w k x, (w ++ pre ++ blk ++ post) !! k = Some x ->
              forallb ModifyMain.inert w = true ->
              ModifyMain.inert_but_handler x = true) as Hall.
    { intros w k x Hx Hw. rewrite forallb_forall in Hw.
      apply lookup_app_Some in Hx as [Hx|[_ Hx]].
      { apply ModifyMainFacts.mm_inert_weaken, Hw. now apply (Hin w k). }
      apply lookup_app_Some in Hx as [Hx|[_ Hx]].
      { apply ModifyMainFacts.mm_inert_weaken, Hipre. eapply Hin, Hx. }
      apply lookup_app_Some in Hx as [Hx|[_ Hx]].
      - apply Hblki. eapply Hin, Hx.
      - apply ModifyMainFacts.mm_inert_weaken, Hipost. eapply Hin, Hx. }
    assert (forall (w : list string) k x, w !! k = Some x ->
              forallb ModifyMain.inert w = true ->
              contains "ipcMain.handle('git:get-info'" x = false) as Hnoh.
    { intros w k x Hx Hw. rewrite forallb_forall in Hw.
      apply (Hin w k) in Hx. apply Hw in Hx. unfold ModifyMain.inert in Hx.
      apply andb_true_iff in Hx as [Hx _].
      apply andb_true_iff in Hx as [_ Hx]. now apply negb_true_iff in Hx. }
    assert (forallb ModifyMain.inert pre = true) as Hbpre
      by now apply forallb_forall.
    assert (forallb ModifyMain.inert post = true) as Hbpost
      by now apply forallb_forall.
    assert (forallb ModifyMain.inert u = true) as Hbu
      by now apply forallb_forall.
    split.
    + destruct blk as [|first blk'] eqn:Eblk; [discriminate|].
      assert (contains "ipcMain.handle('git:get-info'" first = true)
        as Hfirst by exact Hopen.
      rewrite <- Eblk in *.
      pose proof (fun k x H => Hall [] k x H eq_refl) as Hall0.
      cbn [app] in Hall0.
      rewrite ModifyMainFacts.mm_main_exec.
      rewrite (exec_removes_block (ModifyMain.body _) pre blk post);
        trivial.
      * apply ModifyMainFacts.mm_body_progresses.
      * lia.
      * intros j Hj. apply ModifyMainFacts.mm_quiet_copies.
        destruct (lookup_lt_is_Some_2 pre j Hj) as [x Hx].
        apply (ModifyMainFacts.mm_line_quiet _ j x); trivial.
        -- now rewrite lookup_app_l by lia.
        -- rewrite (Hnoh pre j x Hx Hbpre). apply andb_false_r.
      * intros out. rewrite Hpre, Hblk.
        apply (ModifyMainFacts.mm_body_handlers _ _ first); trivial.
        rewrite lookup_app_r by lia.
        replace (977 - length pre) with 0 by lia. now rewrite Eblk.
      * intros j Hj. apply ModifyMainFacts.mm_quiet_copies.
        destruct (lookup_lt_is_Some_2 _ j (proj2 Hj)) as [x Hx].
        apply (ModifyMainFacts.mm_line_quiet _ j x Hall0 Hx).
        rewrite lookup_app_r in Hx by lia.
        rewrite lookup_app_r in Hx by lia.
        rewrite (Hnoh post _ x Hx Hbpost). apply andb_false_r.
    + apply ModifyMainFacts.mm_quiet_run. intros i Hi.
      destruct (lookup_lt_is_Some_2 _ i Hi) as [x Hx].
      apply (ModifyMainFacts.mm_line_quiet _ i x); trivial.
      { intros k y Hy. exact (Hall u k y Hy Hbu). }
      apply lookup_app_Some in Hx as [Hx|[Hge Hx]].
      { rewrite (Hnoh u i x Hx Hbu). apply andb_false_r. }
      apply lookup_app_Some in Hx as [Hx|[Hge' Hx]].
      { rewrite (Hnoh pre _ x Hx Hbpre). apply andb_false_r. }
      apply lookup_app_Some in Hx as [Hx|[Hge'' Hx]].
      * apply andb_false_iff. left. apply Nat.eqb_neq. lia.
      * rewrite (Hnoh post _ x Hx Hbpost). apply andb_false_r.
Qed.

Lemma C5_line_number_witness :
  (ModifyMainFinal.main (pad 433 ++ interface_block ++ pad 2)
   = Done (pad 433 ++ pad 2)
   /\ ModifyMainFinal.main
        ([ln "// a new first line"] ++ pad 433 ++ interface_block ++ pad 2)
      = Done ([ln "// a new first line"] ++ pad 433 ++ interface_block
                ++ pad 2))
  /\ (ModifyMain.main (pad 977 ++ (handler_open :: pad 700) ++ pad 2)
      = Done (pad 977 ++ pad 2)
      /\ ModifyMain.main
           ([ln "// a new first line"] ++ pad 977
              ++ (handler_open :: pad 700) ++ pad 2)
         = Done ([ln "// a new first line"] ++ pad 977
                   ++ (handler_open :: pad 700) ++ pad 2)).
Proof.
  split.
  - apply (proj1 (C5_edit_follows_line_number_not_content
                    [ln "// a new first line"] (pad 433) interface_block
                    (pad 2) ltac:(simpl; lia)));
      vm_compute; reflexivity.
  - apply (proj2 (C5_edit_follows_line_number_not_content
                    [ln "// a new first line"] (pad 977)
                    (handler_open :: pad 700) (pad 2) ltac:(simpl; lia)));
      vm_compute; reflexivity.
Defined.

(** * Further properties of the scripts *)

(** ** More on the loops and the scans *)

(** A run that copies [pre], replaces [blk] by [ins] in one iteration
    and copies [post]. *)
Lemma exec_replaces_block body (pre blk ins post : list string) :
  progresses body (length (pre ++ blk ++ post)) ->
  0 < length blk ->
  (forall j, j < length pre -> copies body (pre ++ blk ++ post) j) ->
  (forall out, body (State (length pre) out)
               = Done (State (length pre + length blk) (out ++ ins))) ->
  (forall j, length pre + length blk <= j < length (pre ++ blk ++ post) ->
             copies body (pre ++ blk ++ post) j) ->
  exec body (length (pre ++ blk ++ post)) init
  = Done (State (length (pre ++ blk ++ post)) (pre ++ ins ++ post)).
Proof.
  set (lines := pre ++ blk ++ post). intros Hp Hblk Hpre Hstep Hpost.
  assert (length lines = length pre + length blk + length post) as Hlen.
  { unfold lines. rewrite !length_app. lia. }
  unfold init.
  rewrite (exec_copy body lines Hp (length pre) 0 (length pre) []);
    [|lia|lia|intros; apply Hpre; lia].
  assert (slice lines 0 (length pre) = pre) as ->.
  { unfold slice, lines. now rewrite take_app_length. }
  rewrite (exec_step body (length lines) Hp (State (length pre) ([] ++ pre))
             (State (length pre + length blk) (([] ++ pre) ++ ins)));
    [|simpl; lia|apply Hstep].
  rewrite (exec_copy body lines Hp (length post) (length pre + length blk)
             (length lines)); [|lia|lia|intros; apply Hpost; lia].
  assert (slice lines (length pre + length blk) (length lines) = post) as ->.
  { unfold slice. rewrite firstn_all. unfold lines. rewrite app_assoc.
    rewrite <- length_app. now rewrite drop_app_length. }
  rewrite (exec_stop body _ Hp) by (simpl; lia).
  simpl. now rewrite <- app_assoc.
Qed.

(** A loop that raises does so in the iteration at a state it reaches. *)
Lemma exec_raise_inv body n :
  progresses body n ->
  forall d st, n - idx st <= d -> reaches body n st ->
    exec body n st = IndexError ->
    exists st', reaches body n st' /\ idx st' < n /\ body st' = IndexError.
Proof.
  intros Hp. induction d as [|d IH]; intros st Hd Hr He.
  - rewrite (exec_stop body n Hp) in He by lia. discriminate.
  - destruct (Nat.lt_ge_cases (idx st) n) as [Hlt|Hge].
    + destruct (body st) as [st1| |] eqn:Hb.
      * rewrite (exec_step body n Hp _ _ Hlt Hb) in He.
        pose proof (Hp _ _ Hlt Hb).
        apply (IH st1); [lia| |exact He].
        now apply (reaches_step body n st st1).
      * eauto.
      * rewrite (exec_unfold body n Hp) in He.
        apply Nat.ltb_lt in Hlt. rewrite Hlt, Hb in He. discriminate.
    + rewrite (exec_stop body n Hp) in He by lia. discriminate.
Qed.

Lemma none_after_no_later pat lines i :
  none_after pat lines i -> no_later pat lines i = true.
Proof.
  intros H. unfold no_later. apply forallb_forall. intros x Hx.
  apply list_elem_of_In, list_elem_of_lookup in Hx as [k Hk].
  rewrite lookup_drop in Hk. apply negb_true_iff.
  apply (H (i + 1 + k) x); [lia | exact Hk].
Qed.

(** The scan raises only when no later line holds the pattern. *)
Lemma skip_past_raise_inv pat lines : forall fuel i,
  skip_past pat lines fuel i = IndexError ->
  i < length lines /\ none_after pat lines i.
Proof.
  induction fuel as [|fuel IH]; intros i H; simpl in H;
    destruct (i <? length lines) eqn:E; try discriminate.
  apply Nat.ltb_lt in E. split; [exact E|].
  unfold index in H. destruct (lines !! (i + 1)) as [l|] eqn:Hl.
  - simpl in H. destruct (contains pat l) eqn:Hc; [discriminate|].
    apply IH in H as [_ H]. intros k l' Hk Hl'.
    destruct (Nat.eq_dec k (i + 1)) as [->|Hne].
    + congruence.
    + apply (H k l'); [lia | exact Hl'].
  - intros k l' Hk Hl'. apply lookup_ge_None in Hl.
    apply lookup_lt_Some in Hl'. lia.
Qed.

Lemma skip_past_raises_iff pat lines i :
  skip_past pat lines (length lines) i = IndexError
  <-> (i <? length lines) && no_later pat lines i = true.
Proof.
  split.
  - intros H. apply skip_past_raise_inv in H as [Hi Hn].
    apply andb_true_iff. split; [now apply Nat.ltb_lt|].
    now apply none_after_no_later.
  - intros H. apply andb_true_iff in H as [Hi Hn]. apply Nat.ltb_lt in Hi.
    apply skip_past_missing; [exact Hi| |lia].
    now apply no_later_none_after.
Qed.

(** ** extract_git.py: the scan over the git handlers *)

(** The scan of step 3 ends at [j] when no line between is one it stops
    at and [j] is such a line or the end of the file. *)
Lemma skip_handlers_spec lines j : forall fuel i,
  i < j -> j <= length lines ->
  (forall k l, i < k < j -> lines !! k = Some l ->
               ExtractGit.stops_handlers l = false) ->
  (j < length lines ->
   exists l, lines !! j = Some l /\ ExtractGit.stops_handlers l = true) ->
  length lines - i <= fuel ->
  ExtractGit.skip_handlers lines fuel i = Done j.
Proof.
  induction fuel as [|fuel IH]; intros i Hij Hj Hnone Hstop Hf; [lia|].
  simpl. destruct (i <? length lines) eqn:E;
    [|apply Nat.ltb_ge in E; lia].
  destruct (length lines <=? i + 1) eqn:E1.
  - apply Nat.leb_le in E1. f_equal. lia.
  - apply Nat.leb_gt in E1.
    destruct (lookup_lt_is_Some_2 lines (i + 1) E1) as [l Hl].
    rewrite (index_Some _ _ _ Hl). simpl.
    destruct (Nat.eq_dec (i + 1) j) as [<-|Hne].
    + destruct (Hstop E1) as (l' & Hl' & Hs).
      assert (l' = l) as -> by congruence.
      unfold ExtractGit.stops_handlers in Hs.
      destruct (contains "ipcMain.handle(" l
                && negb (contains "'git:pull'" l)); trivial.
      simpl in Hs. now rewrite Hs.
    + pose proof (Hnone (i + 1) l ltac:(lia) Hl) as Hs.
      unfold ExtractGit.stops_handlers in Hs.
      apply orb_false_iff in Hs as [-> ->].
      apply IH; trivial; try lia.
      intros k l' Hk. apply Hnone. lia.
Qed.

(** X1. The scan over the git handlers never raises: started below the
    end of the file it ends at a later index [j], at most the length of
    the file; no line it passed over is one it stops at (another handler
    than [git:pull], or the file-system heading), and [j] is such a line
    unless it is the end of the file. *)
Theorem extract_git_handler_scan_ends (lines : list string) (i : nat) :
  i < length lines ->
  exists j,
    ExtractGit.skip_handlers lines (length lines) i = Done j
    /\ i < j <= length lines
    /\ (forall k l, i < k < j -> lines !! k = Some l ->
                    ExtractGit.stops_handlers l = false)
    /\ (j < length lines ->
        exists l, lines !! j = Some l
                  /\ ExtractGit.stops_handlers l = true).
Proof.
  intros Hi.
  assert (forall d i, length lines - i <= d -> i < length lines ->
            exists j, i < j <= length lines
              /\ (forall k l, i < k < j -> lines !! k = Some l ->
                              ExtractGit.stops_handlers l = false)
              /\ (j < length lines ->
                  exists l, lines !! j = Some l
                            /\ ExtractGit.stops_handlers l = true)) as Hex.
  { clear i Hi. induction d as [|d IH]; intros i Hd Hi; [lia|].
    destruct (Nat.eq_dec (i + 1) (length lines)) as [He|Hne].
    - exists (length lines). split; [lia|]. split; [|lia].
      intros k l Hk Hl. lia.
    - destruct (lookup_lt_is_Some_2 lines (i + 1) ltac:(lia)) as [l Hl].
      destruct (ExtractGit.stops_handlers l) eqn:Hs.
      + exists (i + 1). split; [lia|]. split; [intros k l' Hk; lia|].
        intros _. eauto.
      + destruct (IH (i + 1) ltac:(lia) ltac:(lia)) as (j & Hj & Hn & Hst).
        exists j. split; [lia|]. split; [|exact Hst].
        intros k l' Hk Hl'.
        destruct (Nat.eq_dec k (i + 1)) as [->|Hk'].
        * congruence.
        * apply (Hn k l'); [lia | exact Hl']. }
  destruct (Hex (length lines) i ltac:(lia) Hi) as (j & Hj & Hn & Hst).
  exists j. split; [|auto].
  apply skip_handlers_spec; trivial; lia.
Qed.

Lemma extract_git_handler_scan_witness :
  exists j,
    ExtractGit.skip_handlers
      [Samples.handler_open; Samples.ln "ipcMain.handle('git:pull', f)";
       Samples.ln "// File system IPC handlers"] 3 0 = Done j
    /\ 0 < j <= 3.
Proof.
  destruct (extract_git_handler_scan_ends
              [Samples.handler_open; Samples.ln "ipcMain.handle('git:pull', f)";
               Samples.ln "// File system IPC handlers"] 0
              ltac:(simpl; lia)) as (j & H1 & H2 & _).
  exists j. split; [exact H1 | exact H2].
Defined.

(** ** extract_git.py: when the run raises *)

Lemma skip_handlers_no_raise lines : forall fuel i,
  ExtractGit.skip_handlers lines fuel i <> IndexError.
Proof.
  induction fuel as [|fuel IH]; intros i; simpl;
    destruct (i <? length lines); try discriminate.
  destruct (length lines <=? i + 1) eqn:E; [discriminate|].
  apply Nat.leb_gt in E.
  destruct (lookup_lt_is_Some_2 lines (i + 1) E) as [l Hl].
  rewrite (index_Some _ _ _ Hl). simpl.
  destruct (contains "ipcMain.handle(" l && negb (contains "'git:pull'" l));
    [discriminate|].
  destruct (contains "// File system IPC handlers" l); [discriminate|].
  apply IH.
Qed.

(** The iteration at [line] raises exactly when a scan it starts finds
    no terminator. *)
Lemma extract_git_body_raises_iff lines i out line :
  lines !! i = Some line ->
  ExtractGit.body lines (State i out) = IndexError
  <-> extract_git_scan_fails lines i line = true.
Proof.
  intros Hl. unfold extract_git_scan_fails.
  destruct (ExtractGit.starts_interface i line) eqn:Hs.
  - rewrite (ExtractGitFacts.eg_body_interface lines i out line Hl Hs).
    assert (ExtractGit.past_step3 i line = false) as ->.
    { unfold ExtractGit.starts_interface in Hs.
      apply andb_true_iff in Hs as [_ Hs]. unfold ExtractGit.past_step3.
      rewrite Hs. simpl. now rewrite andb_false_r. }
    cbn [andb orb]. rewrite orb_false_r.
    pose proof (skip_past_raises_iff "const GIT_DEBOUNCE_MS" lines i) as Hiff.
    rewrite (proj2 (Nat.ltb_lt _ _) (lookup_lt_Some _ _ _ Hl)) in Hiff.
    cbn [andb] in Hiff. rewrite <- Hiff.
    destruct (skip_past _ lines (length lines) i); simpl;
      split; congruence.
  - cbn [andb orb].
    destruct (ExtractGit.past_step3 i line) eqn:Hp.
    + rewrite (ExtractGitFacts.body_past_step3 lines i out line Hl Hp).
      cbv zeta.
      destruct (contains "// Clean up all git watchers" line);
        [|cbn; split; discriminate].
      cbn [andb].
      rewrite <- (skip_past_raises_iff "gitWatchers.clear()" lines).
      destruct (skip_past _ lines (length lines) _); simpl;
        split; congruence.
    + cbn [andb]. split; [|discriminate]. intros H. exfalso.
      unfold ExtractGit.starts_interface in Hs.
      unfold ExtractGit.past_step3 in Hp.
      unfold ExtractGit.body in H. cbn [idx new_lines] in H.
      rewrite (index_Some _ _ _ Hl) in H. cbn [mbind outcome_bind] in H.
      destruct ((i =? 16) && contains "generateFileId" line);
        [discriminate|].
      cbn [negb andb] in Hs, Hp. rewrite Hs in H, Hp. cbn [negb andb] in Hp.
      apply negb_false_iff in Hp. rewrite Hp in H.
      pose proof (skip_handlers_no_raise lines (length lines) i).
      destruct (ExtractGit.skip_handlers lines (length lines) i);
        simpl in H; congruence.
Qed.

(** X2. extract_git.py ends with IndexError exactly when its loop comes
    to a line at which a scan without terminator starts: the interface
    marker with no later [const GIT_DEBOUNCE_MS], or the cleanup comment,
    with the index that step 4 left still inside the file, with no later
    [gitWatchers.clear()]. Nothing else in the script raises. *)
Theorem extract_git_raises_iff (lines : list string) :
  ExtractGit.main lines = IndexError
  <-> exists i out line,
        reaches (ExtractGit.body lines) (length lines) (State i out)
        /\ lines !! i = Some line
        /\ extract_git_scan_fails lines i line = true.
Proof.
  split.
  - intros Hm. rewrite ExtractGitFacts.eg_main_exec in Hm.
    destruct (exec (ExtractGit.body lines) (length lines) init)
      as [st| |] eqn:He; try discriminate.
    destruct (exec_raise_inv _ _ (ExtractGitFacts.eg_body_progresses lines)
                (length lines) init ltac:(simpl; lia)
                (reaches_init _ _) He) as ([i out] & Hr & Hi & Hb).
    cbn [idx] in Hi.
    destruct (lookup_lt_is_Some_2 lines i Hi) as [line Hl].
    exists i, out, line. split; [exact Hr|]. split; [exact Hl|].
    now apply (extract_git_body_raises_iff lines i out line Hl).
  - intros (i & out & line & Hr & Hl & Hs).
    apply (ExtractGitFacts.eg_main_raises lines (State i out) Hr).
    + simpl. now apply lookup_lt_Some in Hl.
    + now apply (extract_git_body_raises_iff lines i out line Hl).
Qed.

Lemma extract_git_raises_witness :
  ExtractGit.main
    [Samples.ln "    // Clean up all git watchers"; Samples.ln "}"]
  = IndexError.
Proof.
  apply (proj2 (extract_git_raises_iff
                  [Samples.ln "    // Clean up all git watchers";
                   Samples.ln "}"])).
  exists 0, [], (Samples.ln "    // Clean up all git watchers").
  split; [apply reaches_init|]. split; [reflexivity|].
  vm_compute. reflexivity.
Defined.

(** ** modify_main_final.py: when the run raises *)

Lemma modify_main_final_body_raises_iff lines i out line :
  lines !! i = Some line ->
  ModifyMainFinal.body lines (State i out) = IndexError
  <-> ModifyMainFinal.starts_cleanup lines i line
      && no_later "gitWatchers.clear()" lines i = true.
Proof.
  intros Hl. unfold ModifyMainFinal.starts_cleanup.
  destruct (ModifyMainFinal.past_step4 lines i line) eqn:Hp.
  - rewrite (ModifyMainFinalFacts.mf_body_past_step4 lines i out line Hl Hp).
    cbn [andb].
    destruct (ModifyMainFinal.cleanup_guard i line);
      [|cbn; split; discriminate].
    cbn [andb].
    pose proof (skip_past_raises_iff "gitWatchers.clear()" lines i) as Hiff.
    rewrite (proj2 (Nat.ltb_lt _ _) (lookup_lt_Some _ _ _ Hl)) in Hiff.
    cbn [andb] in Hiff. rewrite <- Hiff.
    destruct (skip_past _ lines (length lines) i); simpl;
      split; congruence.
  - cbn [andb]. split; [|discriminate]. intros H. exfalso.
    unfold ModifyMainFinal.past_step4, ModifyMainFinal.registers in Hp.
    unfold ModifyMainFinal.body in H. cbn [idx new_lines] in H.
    rewrite (index_Some _ _ _ Hl) in H. cbn [mbind outcome_bind] in H.
    destruct ((i + 1 =? 16) && contains "generateFileId" line);
      [discriminate|].
    destruct ((i + 1 =? 434) && contains "interface GitWatcherSet" line);
      [discriminate|].
    destruct (contains "  })" line && (540 <? i + 1) && (i + 1 <? 550)
              && ModifyMainFinal.closes_listener lines i);
      [discriminate|].
    destruct ((i + 1 =? 1277)
              && contains "ipcMain.handle('git:get-info'" line);
      [discriminate|].
    discriminate Hp.
Qed.

(** X3. modify_main_final.py ends with IndexError exactly when its loop
    comes to a line, numbered between 501 and 599, that holds the cleanup
    comment, is taken by none of steps 1-4, and is followed by no line
    with [gitWatchers.clear()]. Nothing else in the script raises. *)
Theorem modify_main_final_raises_iff (lines : list string) :
  ModifyMainFinal.main lines = IndexError
  <-> exists i out line,
        reaches (ModifyMainFinal.body lines) (length lines) (State i out)
        /\ lines !! i = Some line
        /\ ModifyMainFinal.starts_cleanup lines i line
           && no_later "gitWatchers.clear()" lines i = true.
Proof.
  split.
  - intros Hm. rewrite ModifyMainFinalFacts.mf_main_exec in Hm.
    destruct (exec (ModifyMainFinal.body lines) (length lines) init)
      as [st| |] eqn:He; try discriminate.
    destruct (exec_raise_inv _ _
                (ModifyMainFinalFacts.mf_body_progresses lines)
                (length lines) init ltac:(simpl; lia)
                (reaches_init _ _) He) as ([i out] & Hr & Hi & Hb).
    cbn [idx] in Hi.
    destruct (lookup_lt_is_Some_2 lines i Hi) as [line Hl].
    exists i, out, line. split; [exact Hr|]. split; [exact Hl|].
    now apply (modify_main_final_body_raises_iff lines i out line Hl).
  - intros (i & out & line & Hr & Hl & Hs).
    apply (ModifyMainFinalFacts.mf_main_raises lines (State i out) Hr).
    + simpl. now apply lookup_lt_Some in Hl.
    + now apply (modify_main_final_body_raises_iff lines i out line Hl).
Qed.

Lemma modify_main_final_raises_witness :
  exists i out line,
    reaches
      (ModifyMainFinal.body
         (Samples.pad 500
            ++ [Samples.ln "    // Clean up all git watchers";
                Samples.ln "}"]))
      (length
         (Samples.pad 500
            ++ [Samples.ln "    // Clean up all git watchers";
                Samples.ln "}"]))
      (State i out)
    /\ (Samples.pad 500
          ++ [Samples.ln "    // Clean up all git watchers";
              Samples.ln "}"]) !! i = Some line
    /\ ModifyMainFinal.starts_cleanup
         (Samples.pad 500
            ++ [Samples.ln "    // Clean up all git watchers";
                Samples.ln "}"]) i line
       && no_later "gitWatchers.clear()"
            (Samples.pad 500
               ++ [Samples.ln "    // Clean up all git watchers";
                   Samples.ln "}"]) i = true.
Proof.
  apply (proj1 (modify_main_final_raises_iff
                  (Samples.pad 500
                     ++ [Samples.ln "    // Clean up all git watchers";
                         Samples.ln "}"]))).
  vm_compute. reflexivity.
Defined.

(** ** extract_git.py: whole runs *)

Lemma extract_git_inert_quiet lines i line :
  lines !! i = Some line -> ExtractGit.inert line = true ->
  ExtractGit.fires lines i = false.
Proof.
  intros Hl Hi. unfold ExtractGit.inert in Hi.
  repeat (apply andb_true_iff in Hi as [Hi ?]).
  repeat match goal with H : negb _ = true |- _ =>
    apply negb_true_iff in H end.
  unfold ExtractGit.fires, ExtractGit.past_step3, ExtractGit.fired,
    ExtractGit.closes_listener.
  rewrite Hl.
  repeat match goal with H : _ = false |- _ => rewrite H; clear H end.
  now rewrite !andb_false_r.
Qed.

Lemma forallb_lookup {A} (P : A -> bool) (ls : list A) k x :
  forallb P ls = true -> ls !! k = Some x -> P x = true.
Proof.
  intros H Hx. rewrite forallb_forall in H. apply H.
  apply list_elem_of_In, list_elem_of_lookup. eauto.
Qed.

(** Around a block, the lines of an inert prefix and suffix are copied. *)
Lemma extract_git_copies_around (pre blk post : list string) :
  forallb ExtractGit.inert (pre ++ post) = true ->
  (forall j, j < length pre ->
     copies (ExtractGit.body (pre ++ blk ++ post)) (pre ++ blk ++ post) j)
  /\ (forall j, length pre + length blk <= j < length (pre ++ blk ++ post) ->
        copies (ExtractGit.body (pre ++ blk ++ post))
          (pre ++ blk ++ post) j).
Proof.
  intros Hi. rewrite forallb_app in Hi.
  apply andb_true_iff in Hi as [Hpre Hpost].
  split; intros j Hj; apply ExtractGitFacts.eg_quiet_copies.
  - destruct (lookup_lt_is_Some_2 pre j Hj) as [x Hx].
    apply (extract_git_inert_quiet _ j x).
    + now rewrite lookup_app_l by lia.
    + exact (forallb_lookup _ pre j x Hpre Hx).
  - destruct (lookup_lt_is_Some_2 _ j (proj2 Hj)) as [x Hx].
    apply (extract_git_inert_quiet _ j x Hx).
    rewrite lookup_app_r in Hx by lia.
    rewrite lookup_app_r in Hx by lia.
    exact (forallb_lookup _ post _ x Hpost Hx).
Qed.

Lemma extract_git_inert_run lines :
  forallb ExtractGit.inert lines = true -> ExtractGit.main lines = Done lines.
Proof.
  intros Hi. apply ExtractGitFacts.eg_quiet_run. intros i Hlt.
  destruct (lookup_lt_is_Some_2 lines i Hlt) as [x Hx].
  apply (extract_git_inert_quiet lines i x Hx).
  exact (forallb_lookup _ lines i x Hi Hx).
Qed.

(** In [pre ++ (start :: mid ++ [term]) ++ post] the scan from [start]
    for a pattern that [term] holds and no line of [mid] holds ends after
    [term]. *)
Lemma skip_past_block pat (pre mid post : list string) (start term : string) :
  forallb (fun l => negb (contains pat l)) mid = true ->
  contains pat term = true ->
  skip_past pat (pre ++ (start :: mid ++ [term]) ++ post)
    (length (pre ++ (start :: mid ++ [term]) ++ post)) (length pre)
  = Done (length pre + length (start :: mid ++ [term])).
Proof.
  intros Hmid Hterm.
  rewrite (skip_past_found pat _ (length pre + S (length mid)) term).
  - f_equal. cbn [length]. rewrite length_app. simpl. lia.
  - lia.
  - rewrite lookup_app_r by lia.
    replace (length pre + S (length mid) - length pre) with (S (length mid))
      by lia.
    cbn [app]. rewrite lookup_cons_ne_0 by lia. simpl.
    rewrite <- app_assoc. now apply list_lookup_middle.
  - exact Hterm.
  - intros k l Hk Hl. rewrite lookup_app_r in Hl by lia.
    destruct (k - length pre) as [|k'] eqn:Ek; [lia|].
    cbn [app] in Hl. simpl in Hl. rewrite <- app_assoc in Hl.
    rewrite lookup_app_l in Hl by lia.
    apply negb_true_iff. exact (forallb_lookup _ mid k' l Hmid Hl).
  - lia.
Qed.

(** X4. Wherever it stands in a file whose other lines hold none of the
    script's patterns, extract_git.py removes the interface block: the
    line with [interface GitWatcherSet], the lines after it and the first
    line with [const GIT_DEBOUNCE_MS]. Run again on that output, it
    returns it unchanged. *)
Theorem extract_git_removes_interface_block
    (pre mid post : list string) (start term : string) :
  forallb ExtractGit.inert (pre ++ post) = true ->
  ExtractGit.starts_interface (length pre) start = true ->
  forallb (fun l => negb (contains "const GIT_DEBOUNCE_MS" l)) mid = true ->
  contains "const GIT_DEBOUNCE_MS" term = true ->
  ExtractGit.main (pre ++ (start :: mid ++ [term]) ++ post)
  = Done (pre ++ post)
  /\ ExtractGit.main (pre ++ post) = Done (pre ++ post).
Proof.
  intros Hi Hs Hmid Hterm. split; [|now apply extract_git_inert_run].
  destruct (extract_git_copies_around pre (start :: mid ++ [term]) post Hi)
    as [Hpre Hpost].
  rewrite ExtractGitFacts.eg_main_exec.
  rewrite (exec_removes_block _ pre (start :: mid ++ [term]) post); trivial.
  - apply ExtractGitFacts.eg_body_progresses.
  - simpl. lia.
  - intros out.
    rewrite (ExtractGitFacts.eg_body_interface _ _ out start); trivial.
    + now rewrite (skip_past_block _ pre mid post start term).
    + rewrite lookup_app_r by lia. now rewrite Nat.sub_diag.
Qed.

Lemma extract_git_removes_interface_witness :
  ExtractGit.main
    (Samples.pad 3 ++ Samples.interface_block ++ Samples.pad 2)
  = Done (Samples.pad 3 ++ Samples.pad 2)
  /\ ExtractGit.main (Samples.pad 3 ++ Samples.pad 2)
     = Done (Samples.pad 3 ++ Samples.pad 2).
Proof.
  apply (extract_git_removes_interface_block (Samples.pad 3)
           (take 8 (drop 1 Samples.interface_block)) (Samples.pad 2)
           (Samples.ln "interface GitWatcherSet {")
           (Samples.ln "const GIT_DEBOUNCE_MS = 300"));
    vm_compute; reflexivity.
Defined.

Lemma extract_git_body_handlers lines i out line :
  lines !! i = Some line -> ExtractGit.starts_handlers i line = true ->
  ExtractGit.body lines (State i out)
  = i' ← ExtractGit.skip_handlers lines (length lines) i ;
    Done (State i' out).
Proof.
  intros Hl Hs. unfold ExtractGit.starts_handlers in Hs.
  apply andb_true_iff in Hs as [Hs H3]. apply andb_true_iff in Hs as [H1 H2].
  apply negb_true_iff in H1, H2.
  unfold ExtractGit.body. cbn [idx new_lines].
  rewrite (index_Some _ _ _ Hl). cbn [mbind outcome_bind].
  now rewrite H1, H2, H3.
Qed.

(** X5. In a file whose other lines hold none of the script's patterns,
    extract_git.py removes the git handlers from the line with
    [ipcMain.handle('git:get-info'] up to, not including, the first later
    line that opens another handler than [git:pull] or is the
    file-system heading; when no such line follows, it removes
    everything to the end of the file, without any error. *)
Theorem extract_git_removes_handlers
    (pre mid post : list string) (start : string) :
  forallb ExtractGit.inert (pre ++ post) = true ->
  ExtractGit.starts_handlers (length pre) start = true ->
  forallb (fun l => negb (ExtractGit.stops_handlers l)) mid = true ->
  ExtractGit.handlers_end post = true ->
  ExtractGit.main (pre ++ (start :: mid) ++ post) = Done (pre ++ post).
Proof.
  intros Hi Hs Hmid Hend.
  destruct (extract_git_copies_around pre (start :: mid) post Hi)
    as [Hpre Hpost].
  rewrite ExtractGitFacts.eg_main_exec.
  rewrite (exec_removes_block _ pre (start :: mid) post); trivial.
  - apply ExtractGitFacts.eg_body_progresses.
  - simpl. lia.
  - intros out.
    rewrite (extract_git_body_handlers _ _ out start); trivial.
    + rewrite (skip_handlers_spec _ (length pre + length (start :: mid)));
        trivial.
      * simpl. lia.
      * rewrite !length_app. lia.
      * intros k l Hk Hl. rewrite lookup_app_r in Hl by lia.
        destruct (k - length pre) as [|k'] eqn:Ek; [lia|].
        cbn [app] in Hl. simpl in Hl.
        rewrite lookup_app_l in Hl by (simpl in Hk; lia).
        apply negb_true_iff. exact (forallb_lookup _ mid k' l Hmid Hl).
      * intros Hlt. rewrite app_assoc, lookup_app_r
          by (rewrite length_app; lia).
        rewrite length_app, Nat.sub_diag.
        destruct post as [|l post'].
        -- rewrite !length_app in Hlt. simpl in Hlt. lia.
        -- exists l. split; [reflexivity | exact Hend].
      * lia.
    + rewrite lookup_app_r by lia. now rewrite Nat.sub_diag.
Qed.

Lemma extract_git_removes_handlers_witness :
  ExtractGit.main
    (Samples.pad 2
       ++ [Samples.handler_open; Samples.ln "})";
           Samples.ln "ipcMain.handle('git:pull', async () => {";
           Samples.ln "})"])
  = Done (Samples.pad 2).
Proof.
  rewrite <- (app_nil_r (Samples.pad 2)) at 2.
  rewrite <- (app_nil_r [Samples.handler_open; _; _; _]).
  apply (extract_git_removes_handlers (Samples.pad 2)
           [Samples.ln "})";
            Samples.ln "ipcMain.handle('git:pull', async () => {";
            Samples.ln "})"] [] Samples.handler_open);
    vm_compute; reflexivity.
Defined.

(** X6. In a file whose other lines hold none of the script's patterns,
    extract_git.py replaces the cleanup block, from the line with
    [// Clean up all git watchers] through the first later line with
    [gitWatchers.clear()], by the comment and the call to
    [cleanupGitWatchers]. The comment it writes is the marker it looks
    for: run again on that output, with no [gitWatchers.clear()] left
    after the comment, the script ends with IndexError. *)
Theorem extract_git_replaces_cleanup
    (pre mid post : list string) (start term : string) :
  forallb ExtractGit.inert (pre ++ post) = true ->
  ExtractGit.plain_cleanup (length pre) start = true ->
  forallb (fun l => negb (contains "gitWatchers.clear()" l)) mid = true ->
  contains "gitWatchers.clear()" term = true ->
  ExtractGit.main (pre ++ (start :: mid ++ [term]) ++ post)
  = Done (pre ++ [cleanup_comment; cleanup_call] ++ post)
  /\ (forallb (fun l => negb (contains "gitWatchers.clear()" l)) post = true ->
      ExtractGit.main (pre ++ [cleanup_comment; cleanup_call] ++ post)
      = IndexError).
Proof.
  intros Hi Hs Hmid Hterm. split.
  - destruct (extract_git_copies_around pre (start :: mid ++ [term]) post Hi)
      as [Hpre Hpost].
    rewrite ExtractGitFacts.eg_main_exec.
    rewrite (exec_replaces_block _ pre (start :: mid ++ [term])
               [cleanup_comment; cleanup_call] post); trivial.
    + apply ExtractGitFacts.eg_body_progresses.
    + simpl. lia.
    + intros out.
      rewrite (ExtractGitFacts.eg_body_cleanup _ _ out start).
      * now rewrite (skip_past_block _ pre mid post start term).
      * rewrite lookup_app_r by lia. now rewrite Nat.sub_diag.
      * unfold ExtractGit.plain_cleanup in Hs.
        apply andb_true_iff in Hs as [Hs H5].
        apply andb_true_iff in Hs as [Hp Hc]. apply negb_true_iff in Hc.
        unfold ExtractGit.starts_cleanup, ExtractGit.fired,
          ExtractGit.closes_listener.
        rewrite Hp, H5, Hc. now rewrite andb_false_r.
  - intros Hnone.
    set (lines := pre ++ [cleanup_comment; cleanup_call] ++ post).
    assert (lines !! length pre = Some cleanup_comment) as Hl.
    { unfold lines. rewrite lookup_app_r by lia. now rewrite Nat.sub_diag. }
    rewrite ExtractGitFacts.eg_main_exec. unfold init.
    rewrite (exec_copy _ lines (ExtractGitFacts.eg_body_progresses lines)
               (length pre) 0 (length pre) []);
      [|lia|apply lookup_lt_Some in Hl; lia|].
    + rewrite (exec_raise _ _ (ExtractGitFacts.eg_body_progresses lines));
        trivial.
      * simpl. now apply lookup_lt_Some in Hl.
      * apply (extract_git_body_raises_iff lines _ _ cleanup_comment Hl).
        unfold extract_git_scan_fails.
        assert (ExtractGit.past_step3 (length pre) cleanup_comment = true)
          as ->.
        { unfold ExtractGit.past_step3.
          change (contains "generateFileId" cleanup_comment) with false.
          now rewrite andb_false_r. }
        assert (ExtractGit.fired lines (length pre) cleanup_comment = 0)
          as ->.
        { unfold ExtractGit.fired, ExtractGit.closes_listener.
          change (contains "  })" cleanup_comment) with false.
          now rewrite andb_false_r. }
        rewrite Nat.add_0_r.
        rewrite (proj2 (Nat.ltb_lt _ _) (lookup_lt_Some _ _ _ Hl)).
        assert (no_later "gitWatchers.clear()" lines (length pre) = true)
          as ->.
        { unfold no_later, lines. rewrite drop_app_ge by lia.
          replace (length pre + 1 - length pre) with 1 by lia.
          cbn [drop app]. cbn [forallb]. rewrite Hnone. reflexivity. }
        apply orb_true_r.
    + intros j Hj.
      apply (proj1 (extract_git_copies_around pre
                      [cleanup_comment; cleanup_call] post Hi)).
      lia.
Qed.

Lemma extract_git_replaces_cleanup_witness :
  ExtractGit.main
    (Samples.pad 2
       ++ [Samples.ln "    // Clean up all git watchers";
           Samples.ln "    for (const w of gitWatchers.values()) w.close()";
           Samples.ln "    gitWatchers.clear()"]
       ++ Samples.pad 1)
  = Done (Samples.pad 2 ++ [cleanup_comment; cleanup_call] ++ Samples.pad 1)
  /\ ExtractGit.main
       (Samples.pad 2 ++ [cleanup_comment; cleanup_call] ++ Samples.pad 1)
     = IndexError.
Proof.
  destruct (extract_git_replaces_cleanup (Samples.pad 2)
              [Samples.ln "    for (const w of gitWatchers.values()) w.close()"]
              (Samples.pad 1)
              (Samples.ln "    // Clean up all git watchers")
              (Samples.ln "    gitWatchers.clear()")) as [H1 H2];
    try (vm_compute; reflexivity).
  split; [exact H1|]. apply H2. vm_compute. reflexivity.
Defined.

(** X7. In a file whose other lines hold none of the script's patterns
    and whose line at index 16 contains [generateFileId], extract_git.py
    inserts the git-service import directly after that line; every
    further run inserts the import once more. *)
Theorem extract_git_inserts_import (pre post : list string) (g : string) :
  length pre = 16 ->
  forallb ExtractGit.inert (pre ++ post) = true ->
  contains "generateFileId" g = true ->
  ExtractGit.main (pre ++ [g] ++ post)
  = Done (pre ++ [g; import_line] ++ post)
  /\ ExtractGit.main (pre ++ [g; import_line] ++ post)
     = Done (pre ++ [g; import_line; import_line] ++ post).
Proof.
  assert (forall post', length pre = 16 ->
            forallb ExtractGit.inert (pre ++ post') = true ->
            contains "generateFileId" g = true ->
            ExtractGit.main (pre ++ [g] ++ post')
            = Done (pre ++ [g; import_line] ++ post')) as Hone.
  { intros post' Hlen Hi Hg.
    destruct (extract_git_copies_around pre [g] post' Hi) as [Hpre Hpost].
    rewrite ExtractGitFacts.eg_main_exec.
    rewrite (exec_replaces_block _ pre [g] [g; import_line] post'); trivial.
    - apply ExtractGitFacts.eg_body_progresses.
    - simpl. lia.
    - intros out. unfold ExtractGit.body. cbn [idx new_lines].
      rewrite (index_Some _ _ g)
        by (rewrite lookup_app_r by lia; now rewrite Nat.sub_diag).
      cbn [mbind outcome_bind]. rewrite Hlen, Hg. reflexivity. }
  intros Hlen Hi Hg. split; [now apply Hone|].
  apply (Hone (import_line :: post)); trivial.
  rewrite forallb_app in Hi. apply andb_true_iff in Hi as [Hpre Hpost].
  rewrite forallb_app, Hpre. cbn [forallb andb]. now rewrite Hpost.
Qed.

Lemma extract_git_inserts_import_witness :
  ExtractGit.main
    (Samples.pad 16 ++ [Samples.generate_import] ++ Samples.pad 2)
  = Done (Samples.pad 16 ++ [Samples.generate_import; import_line]
            ++ Samples.pad 2)
  /\ ExtractGit.main
       (Samples.pad 16 ++ [Samples.generate_import; import_line]
          ++ Samples.pad 2)
     = Done (Samples.pad 16
               ++ [Samples.generate_import; import_line; import_line]
               ++ Samples.pad 2).
Proof.
  apply (extract_git_inserts_import (Samples.pad 16) (Samples.pad 2)
           Samples.generate_import); vm_compute; reflexivity.
Defined.

(** ** modify_main_v2.py: whole runs *)

Lemma for_enumerate_app body : forall (a b : list string) i st,
  ModifyMainV2.for_enumerate body i (a ++ b) st
  = st' ← ModifyMainV2.for_enumerate body i a st ;
    ModifyMainV2.for_enumerate body (i + length a) b st'.
Proof.
  induction a as [|x a IH]; intros b i st; simpl.
  - now rewrite Nat.add_0_r.
  - destruct (body i x st) as [st'| |]; simpl; trivial.
    rewrite IH. now replace (S i + length a) with (i + S (length a)) by lia.
Qed.

Lemma modify_main_v2_inert_quiet lines i line :
  lines !! i = Some line -> ModifyMainV2.inert line = true ->
  ModifyMainV2.fires lines i = false.
Proof.
  intros Hl Hi. unfold ModifyMainV2.inert in Hi.
  repeat (apply andb_true_iff in Hi as [Hi ?]).
  repeat match goal with H : negb _ = true |- _ =>
    apply negb_true_iff in H end.
  unfold ModifyMainV2.fires. rewrite Hl.
  repeat match goal with H : _ = false |- _ => rewrite H; clear H end.
  simpl. now rewrite !andb_false_r.
Qed.

(** Inert lines met while nothing is skipped are copied. *)
Lemma modify_main_v2_copies lines : forall ls i skip out,
  (forall k l, ls !! k = Some l -> lines !! (i + k) = Some l) ->
  forallb ModifyMainV2.inert ls = true ->
  ModifyMainV2.idle i skip ->
  exists skip',
    ModifyMainV2.for_enumerate (ModifyMainV2.body lines) i ls
      (ModifyMainV2.VState skip out)
    = Done (ModifyMainV2.VState skip' (out ++ ls))
    /\ ModifyMainV2.idle (i + length ls) skip'.
Proof.
  induction ls as [|line ls IH]; intros i skip out Hls Hinert Hidle.
  - exists skip. simpl. rewrite app_nil_r. split; trivial.
    destruct skip; simpl in *; trivial; lia.
  - cbn [forallb] in Hinert. apply andb_true_iff in Hinert as [Hline Hrest].
    assert (ModifyMainV2.body lines i line (ModifyMainV2.VState skip out)
            = Done (ModifyMainV2.VState None (out ++ [line]))) as Hb.
    { assert (ModifyMainV2.steps lines i line out
              = Done (ModifyMainV2.VState None (out ++ [line]))) as Hs.
      { apply ModifyMainV2Facts.v2_steps_quiet.
        - rewrite <- (Nat.add_0_r i). now apply Hls.
        - apply (modify_main_v2_inert_quiet lines i line); trivial.
          rewrite <- (Nat.add_0_r i). now apply Hls. }
      unfold ModifyMainV2.body. cbn [ModifyMainV2.skip_until_line
                                      ModifyMainV2.out_lines].
      destruct skip as [u|]; trivial. simpl in Hidle.
      now rewrite (proj2 (Nat.ltb_lt u (i + 1)) ltac:(lia)). }
    cbn [ModifyMainV2.for_enumerate]. rewrite Hb. cbn [mbind outcome_bind].
    destruct (IH (S i) None (out ++ [line])) as (sk & He & Hi'); trivial.
    + intros k l Hk. replace (S i + k) with (i + S k) by lia. now apply Hls.
    + simpl. trivial.
    + exists sk. rewrite He. rewrite <- app_assoc. split; trivial.
      simpl. now replace (i + S (length ls)) with (S i + length ls) by lia.
Qed.

(** Lines numbered up to [skip_until_line] are passed over. *)
Lemma modify_main_v2_skips lines until : forall ls i out,
  i + length ls <= until ->
  ModifyMainV2.for_enumerate (ModifyMainV2.body lines) i ls
    (ModifyMainV2.VState (Some until) out)
  = Done (ModifyMainV2.VState (Some until) out).
Proof.
  induction ls as [|line ls IH]; intros i out Hle; simpl; trivial.
  simpl in Hle.
  assert (ModifyMainV2.body lines i line
            (ModifyMainV2.VState (Some until) out)
          = Done (ModifyMainV2.VState (Some until) out)) as ->.
  { unfold ModifyMainV2.body. cbn [ModifyMainV2.skip_until_line].
    now rewrite (proj2 (Nat.ltb_ge until (i + 1)) ltac:(lia)). }
  cbn [mbind outcome_bind]. apply IH. lia.
Qed.

Lemma find_clear_none lines skip : forall js,
  Forall (fun k => exists l, lines !! k = Some l
                   /\ contains "gitWatchers.clear()" l = false) js ->
  ModifyMainV2.find_clear lines js skip = Done skip.
Proof.
  induction js as [|k js IH]; intros Hjs; simpl; trivial.
  inversion Hjs as [|? ? (l & Hl & Hc) Hjs']; subst.
  rewrite (index_Some _ _ _ Hl). simpl. rewrite Hc. auto.
Qed.

Lemma modify_main_v2_starts_cleanup lines i line :
  500 <= i -> contains "// Clean up all git watchers" line = true ->
  contains "ipcMain.handle('git:get-info'" line = false ->
  ModifyMainV2.starts_cleanup lines i line = true.
Proof.
  intros Hi H5 H4. unfold ModifyMainV2.starts_cleanup.
  rewrite (proj2 (Nat.eqb_neq (i + 1) 16)) by lia.
  rewrite (proj2 (Nat.eqb_neq (i + 1) 439)) by lia.
  rewrite (proj2 (Nat.eqb_neq (i + 1) 497)) by lia.
  rewrite H4, H5, andb_false_r.
  now rewrite (proj2 (Nat.ltb_lt 500 (i + 1))) by lia.
Qed.

Lemma modify_main_v2_cleanup_found lines (pre mid post : list string)
    (start term : string) :
  lines = pre ++ start :: (mid ++ [term]) ++ post ->
  500 <= length pre ->
  forallb ModifyMainV2.inert (pre ++ post) = true ->
  contains "// Clean up all git watchers" start = true ->
  contains "ipcMain.handle('git:get-info'" start = false ->
  forallb (fun l => negb (contains "gitWatchers.clear()" l)) mid = true ->
  contains "gitWatchers.clear()" term = true ->
  ModifyMainV2.main lines
  = Done (pre ++ [cleanup_comment; cleanup_call] ++ post).
Proof.
  intros Hlines Hlen Hi H5 H4 Hmid Hterm.
  rewrite forallb_app in Hi. apply andb_true_iff in Hi as [Hpre Hpost].
  unfold ModifyMainV2.main.
  assert (forall ls, ls = lines ->
            exists sk,
              ModifyMainV2.for_enumerate (ModifyMainV2.body lines) 0 ls
                ModifyMainV2.vinit
              = Done (ModifyMainV2.VState sk
                        (pre ++ [cleanup_comment; cleanup_call] ++ post)))
    as Hrun.
  { intros ls Hls. rewrite Hlines in Hls. subst ls.
    assert (forall k l, pre !! k = Some l -> lines !! k = Some l) as Hlpre.
    { intros k l Hk. rewrite Hlines. rewrite lookup_app_l; trivial.
      now apply lookup_lt_Some in Hk. }
    assert (lines !! length pre = Some start) as Hstart.
    { rewrite Hlines, lookup_app_r by lia. now rewrite Nat.sub_diag. }
    assert (lines !! (length pre + 1 + length mid) = Some term) as Hlterm.
    { rewrite Hlines, lookup_app_r by lia.
      replace (length pre + 1 + length mid - length pre)
        with (S (length mid)) by lia.
      simpl. rewrite <- app_assoc. now apply list_lookup_middle. }
    rewrite for_enumerate_app. unfold ModifyMainV2.vinit.
    rewrite (ModifyMainV2Facts.for_enumerate_quiet lines pre 0 []); trivial.
    2:{ intros k Hk. destruct (lookup_lt_is_Some_2 pre k Hk) as [x Hx].
        apply (modify_main_v2_inert_quiet lines k x); [now apply Hlpre|].
        exact (forallb_lookup _ pre k x Hpre Hx). }
    cbn [mbind outcome_bind app Nat.add ModifyMainV2.for_enumerate].
    change (ModifyMainV2.body lines (length pre) start
              (ModifyMainV2.VState None pre))
      with (ModifyMainV2.steps lines (length pre) start pre).
    rewrite (ModifyMainV2Facts.v2_steps_cleanup lines (length pre) start pre
               (length pre + 1 + length mid) term); trivial.
    - cbn [mbind outcome_bind]. rewrite for_enumerate_app.
      rewrite modify_main_v2_skips
        by (rewrite length_app; simpl; lia).
      cbn [mbind outcome_bind].
      destruct (modify_main_v2_copies lines post
                  (S (length pre) + length (mid ++ [term]))
                  (Some (length pre + 1 + length mid + 1))
                  (pre ++ [cleanup_comment; cleanup_call]))
        as (sk & He & _); trivial.
      + intros k l Hk. rewrite Hlines.
        rewrite lookup_app_r by lia. rewrite length_app. simpl.
        replace (S (length pre + (length mid + 1) + k) - length pre)
          with (S (length (mid ++ [term]) + k))
          by (rewrite length_app; simpl; lia).
        simpl. rewrite lookup_app_r by lia.
        now replace (length (mid ++ [term]) + k - length (mid ++ [term]))
          with k by lia.
      + simpl. rewrite length_app. simpl. lia.
      + exists sk. rewrite He. now rewrite <- app_assoc.
    - now apply modify_main_v2_starts_cleanup.
    - lia.
    - intros k l Hk Hl. rewrite Hlines in Hl.
      rewrite lookup_app_r in Hl by lia.
      destruct (k - length pre) as [|k'] eqn:Ek; [lia|].
      simpl in Hl. rewrite <- app_assoc in Hl.
      rewrite lookup_app_l in Hl by lia.
      apply negb_true_iff. exact (forallb_lookup _ mid k' l Hmid Hl). }
  destruct (Hrun lines eq_refl) as [sk ->]. reflexivity.
Qed.

Lemma modify_main_v2_cleanup_missing lines (pre post : list string)
    (start : string) :
  lines = pre ++ start :: post ->
  500 <= length pre ->
  forallb ModifyMainV2.inert (pre ++ post) = true ->
  contains "// Clean up all git watchers" start = true ->
  contains "ipcMain.handle('git:get-info'" start = false ->
  forallb (fun l => negb (contains "gitWatchers.clear()" l)) post = true ->
  ModifyMainV2.main lines
  = Done (pre ++ [cleanup_comment; cleanup_call] ++ post).
Proof.
  intros Hlines Hlen Hi H5 H4 Hnone.
  rewrite forallb_app in Hi. apply andb_true_iff in Hi as [Hpre Hpost].
  unfold ModifyMainV2.main.
  assert (forall ls, ls = lines ->
            exists sk,
              ModifyMainV2.for_enumerate (ModifyMainV2.body lines) 0 ls
                ModifyMainV2.vinit
              = Done (ModifyMainV2.VState sk
                        (pre ++ [cleanup_comment; cleanup_call] ++ post)))
    as Hrun.
  { intros ls Hls. rewrite Hlines in Hls. subst ls.
    assert (forall k l, pre !! k = Some l -> lines !! k = Some l) as Hlpre.
    { intros k l Hk. rewrite Hlines. rewrite lookup_app_l; trivial.
      now apply lookup_lt_Some in Hk. }
    assert (forall k l, post !! k = Some l ->
              lines !! (S (length pre) + k) = Some l) as Hlpost.
    { intros k l Hk. rewrite Hlines, lookup_app_r by lia.
      now replace (S (length pre) + k - length pre) with (S k) by lia. }
    assert (length lines = length pre + S (length post)) as Hlen'.
    { rewrite Hlines, length_app. reflexivity. }
    rewrite for_enumerate_app. unfold ModifyMainV2.vinit.
    rewrite (ModifyMainV2Facts.for_enumerate_quiet lines pre 0 []); trivial.
    2:{ intros k Hk. destruct (lookup_lt_is_Some_2 pre k Hk) as [x Hx].
        apply (modify_main_v2_inert_quiet lines k x); [now apply Hlpre|].
        exact (forallb_lookup _ pre k x Hpre Hx). }
    cbn [mbind outcome_bind app Nat.add ModifyMainV2.for_enumerate].
    change (ModifyMainV2.body lines (length pre) start
              (ModifyMainV2.VState None pre))
      with (ModifyMainV2.steps lines (length pre) start pre).
    assert (ModifyMainV2.steps lines (length pre) start pre
            = Done (ModifyMainV2.VState None
                      (pre ++ [cleanup_comment; cleanup_call]))) as ->.
    { pose proof (modify_main_v2_starts_cleanup lines (length pre) start
                    Hlen H5 H4) as Hs.
      unfold ModifyMainV2.starts_cleanup in Hs.
      repeat (apply andb_true_iff in Hs as [Hs ?]).
      repeat match goal with H : negb _ = true |- _ =>
        apply negb_true_iff in H end.
      unfold ModifyMainV2.steps.
      repeat match goal with H : _ = false |- _ => rewrite H; clear H end.
      repeat match goal with H : _ = true |- _ => rewrite H; clear H end.
      cbn [andb]. rewrite find_clear_none; [reflexivity|].
      apply Forall_forall. intros k Hk.
      apply list_elem_of_In, in_seq in Hk.
      destruct (lookup_lt_is_Some_2 post (k - S (length pre)) ltac:(lia))
        as [l Hl].
      exists l. split.
      - replace k with (S (length pre) + (k - S (length pre))) by lia.
        now apply Hlpost.
      - apply negb_true_iff. exact (forallb_lookup _ post _ l Hnone Hl). }
    cbn [mbind outcome_bind].
    destruct (modify_main_v2_copies lines post (S (length pre)) None
                (pre ++ [cleanup_comment; cleanup_call]))
      as (sk & He & _); trivial.
    - simpl. trivial.
    - exists sk. rewrite He. now rewrite <- app_assoc. }
  destruct (Hrun lines eq_refl) as [sk ->]. reflexivity.
Qed.

(** X8. modify_main_v2.py, in a file whose other lines hold none of its
    patterns, at a cleanup comment after line 500: when a later line
    holds [gitWatchers.clear()], the block through the first such line is
    replaced by the comment and the call to [cleanupGitWatchers]; when
    none does, the script raises nothing, replaces the comment line alone
    by the comment and the call, and keeps every line after it. *)
Theorem modify_main_v2_cleanup
    (pre mid post : list string) (start term : string) :
  500 <= length pre ->
  forallb ModifyMainV2.inert (pre ++ post) = true ->
  contains "// Clean up all git watchers" start = true ->
  contains "ipcMain.handle('git:get-info'" start = false ->
  (forallb (fun l => negb (contains "gitWatchers.clear()" l)) mid = true ->
   contains "gitWatchers.clear()" term = true ->
   ModifyMainV2.main (pre ++ (start :: mid ++ [term]) ++ post)
   = Done (pre ++ [cleanup_comment; cleanup_call] ++ post))
  /\ (forallb (fun l => negb (contains "gitWatchers.clear()" l)) post = true ->
      ModifyMainV2.main (pre ++ [start] ++ post)
      = Done (pre ++ [cleanup_comment; cleanup_call] ++ post)).
Proof.
  intros Hlen Hi H5 H4. split.
  - intros Hmid Hterm.
    now apply (modify_main_v2_cleanup_found _ pre mid post start term).
  - intros Hnone.
    now apply (modify_main_v2_cleanup_missing _ pre post start).
Qed.

Lemma modify_main_v2_cleanup_witness :
  ModifyMainV2.main
    (Samples.pad 500
       ++ [Samples.ln "    // Clean up all git watchers"] ++ Samples.pad 2)
  = Done (Samples.pad 500 ++ [cleanup_comment; cleanup_call]
            ++ Samples.pad 2).
Proof.
  apply (proj2 (modify_main_v2_cleanup (Samples.pad 500) [] (Samples.pad 2)
                  (Samples.ln "    // Clean up all git watchers") ""
                  ltac:(vm_compute; lia) ltac:(vm_compute; reflexivity)
                  ltac:(vm_compute; reflexivity)
                  ltac:(vm_compute; reflexivity))).
  vm_compute. reflexivity.
Defined.

(** ** Substrings *)

Lemma string_append_assoc (a b c : string) :
  (a +:+ b) +:+ c = a +:+ (b +:+ c).
Proof.
  induction a as [|x a IH]; [reflexivity|].
  change (String x ((a +:+ b) +:+ c) = String x (a +:+ (b +:+ c))).
  now f_equal.
Qed.

Lemma prefix_append p : forall s,
  String.prefix p s = true -> exists t, s = p +:+ t.
Proof.
  induction p as [|x p IH]; intros s H.
  - exists s. reflexivity.
  - destruct s as [|y s]; [discriminate|]. simpl in H.
    destruct (ascii_dec x y) as [->|]; [|discriminate].
    destruct (IH s H) as [t ->]. exists t. reflexivity.
Qed.

Lemma prefix_of_append p t : String.prefix p (p +:+ t) = true.
Proof.
  induction p as [|x p IH]; simpl; [now destruct t|].
  destruct (ascii_dec x x); [exact IH | congruence].
Qed.

Lemma contains_unfold pat s :
  contains pat s
  = String.prefix pat s
    || match s with
       | EmptyString => false
       | String _ s' => contains pat s'
       end.
Proof. destruct s; reflexivity. Qed.

(** A string that holds [pat] somewhere contains it. *)
Lemma contains_inside pat b : forall a,
  contains pat (a +:+ (pat +:+ b)) = true.
Proof.
  induction a as [|x a IH].
  - change ("" +:+ (pat +:+ b)) with (pat +:+ b).
    rewrite contains_unfold, prefix_of_append. reflexivity.
  - change (String x a +:+ (pat +:+ b)) with (String x (a +:+ (pat +:+ b))).
    rewrite contains_unfold, IH. apply orb_true_r.
Qed.

Lemma lstrip_suffix s : exists w, s = w +:+ lstrip s.
Proof.
  induction s as [|x s [w Hw]].
  - exists "". reflexivity.
  - cbn [lstrip]. destruct (isspace x).
    + exists (String x w).
      change (String x s = String x (w +:+ lstrip s)). now f_equal.
    + exists "". reflexivity.
Qed.

Lemma rstrip_prefix s : exists w, s = rstrip s +:+ w.
Proof.
  induction s as [|x s [w Hw]].
  - exists "". reflexivity.
  - cbn [rstrip]. destruct (rstrip s) as [|y r] eqn:E.
    + change ("" +:+ w) with w in Hw. destruct (isspace x).
      * exists (String x s). reflexivity.
      * exists w. change (String x s = String x w). now f_equal.
    + exists w.
      change (String x s = String x (String y r +:+ w)). now f_equal.
Qed.

(** A line that, stripped, opens with the [generateFileId] import
    contains [generateFileId]. *)
Lemma import_prefix_contains g :
  startswith "import { generateFileId" (strip g) = true ->
  contains "generateFileId" g = true.
Proof.
  intros H. apply prefix_append in H as [t Ht].
  destruct (lstrip_suffix g) as [w1 H1].
  destruct (rstrip_prefix (lstrip g)) as [w2 H2].
  fold (strip g) in H2. rewrite Ht in H2. rewrite H2 in H1.
  rewrite H1.
  change "import { generateFileId" with ("import { " +:+ "generateFileId").
  rewrite !string_append_assoc.
  rewrite <- (string_append_assoc w1 "import { ").
  apply contains_inside.
Qed.

(** ** The import step across the scripts *)

Lemma modify_main_quiet_off_17 lines j line :
  lines !! j = Some line -> j + 1 <> 17 ->
  ModifyMainFinal.inert line = true ->
  ModifyMain.fires lines j = false.
Proof.
  intros Hl Hne Hi. unfold ModifyMainFinal.inert in Hi.
  repeat (apply andb_true_iff in Hi as [Hi ?]).
  repeat match goal with H : negb _ = true |- _ =>
    apply negb_true_iff in H end.
  unfold ModifyMain.fires, ModifyMain.after_import,
    ModifyMain.closes_listener.
  rewrite Hl. rewrite (proj2 (Nat.eqb_neq (j + 1) 17) Hne).
  repeat match goal with H : _ = false |- _ => rewrite H; clear H end.
  simpl. now rewrite !andb_false_r.
Qed.

Lemma modify_main_quiet_top lines j :
  j + 1 < 17 -> ModifyMain.fires lines j = false.
Proof.
  intros Hj. destruct (ModifyMain.fires lines j) eqn:E; trivial.
  apply ModifyMainFacts.mm_fires_hard_coded in E.
  unfold ModifyMain.hard_coded in E. cbn [existsb] in E.
  rewrite !(proj2 (Nat.eqb_neq (j + 1) _)) in E by lia. discriminate.
Qed.

Lemma modify_main_v2_quiet_top lines j :
  j + 1 < 16 -> ModifyMainV2.fires lines j = false.
Proof.
  intros Hj. destruct (ModifyMainV2.fires lines j) eqn:E; trivial.
  apply ModifyMainV2Facts.v2_fires_hard_coded in E.
  unfold ModifyMainV2.hard_coded in E. cbn [existsb] in E.
  rewrite !(proj2 (Nat.eqb_neq (j + 1) _)) in E by lia.
  rewrite (proj2 (Nat.ltb_ge 500 (j + 1))) in E by lia. discriminate.
Qed.

Lemma modify_main_final_quiet_top lines j :
  j + 1 < 16 -> ModifyMainFinal.fires lines j = false.
Proof.
  intros Hj. destruct (ModifyMainFinal.fires lines j) eqn:E; trivial.
  apply ModifyMainFinalFacts.mf_fires_hard_coded in E.
  unfold ModifyMainFinal.hard_coded in E. cbn [existsb] in E.
  rewrite !(proj2 (Nat.eqb_neq (j + 1) _)) in E by lia.
  rewrite (proj2 (Nat.ltb_ge 540 (j + 1))) in E by lia.
  rewrite (proj2 (Nat.ltb_ge 500 (j + 1))) in E by lia. discriminate.
Qed.

Lemma modify_main_final_import_run (pre post : list string) (g : string) :
  length pre = 15 -> contains "generateFileId" g = true ->
  forallb ModifyMainFinal.inert post = true ->
  ModifyMainFinal.main (pre ++ [g] ++ post)
  = Done (pre ++ [g; import_line] ++ post).
Proof.
  intros Hlen Hg Hpost.
  rewrite ModifyMainFinalFacts.mf_main_exec.
  rewrite (exec_replaces_block _ pre [g] [g; import_line] post); trivial.
  - apply ModifyMainFinalFacts.mf_body_progresses.
  - simpl. lia.
  - intros j Hj. apply ModifyMainFinalFacts.mf_quiet_copies.
    apply modify_main_final_quiet_top. lia.
  - intros out. unfold ModifyMainFinal.body. cbn [idx new_lines].
    rewrite (index_Some _ _ g)
      by (rewrite lookup_app_r by lia; now rewrite Nat.sub_diag).
    cbn [mbind outcome_bind]. rewrite Hlen, Hg. reflexivity.
  - intros j Hj. apply ModifyMainFinalFacts.mf_quiet_copies.
    destruct (lookup_lt_is_Some_2 _ j (proj2 Hj)) as [x Hx].
    apply (ModifyMainFinalFacts.mf_inert_quiet _ j x Hx).
    rewrite lookup_app_r in Hx by lia.
    rewrite lookup_app_r in Hx by lia.
    exact (forallb_lookup _ post _ x Hpost Hx).
Qed.

Lemma modify_main_v2_import_run lines (pre post : list string) (g : string) :
  lines = pre ++ g :: post ->
  length pre = 15 -> contains "generateFileId" g = true ->
  forallb ModifyMainV2.inert post = true ->
  ModifyMainV2.main lines = Done (pre ++ [g; import_line] ++ post).
Proof.
  intros Hlines Hlen Hg Hpost. unfold ModifyMainV2.main.
  assert (forall ls, ls = lines ->
            exists sk,
              ModifyMainV2.for_enumerate (ModifyMainV2.body lines) 0 ls
                ModifyMainV2.vinit
              = Done (ModifyMainV2.VState sk
                        (pre ++ [g; import_line] ++ post))) as Hrun.
  { intros ls Hls. rewrite Hlines in Hls. subst ls.
    rewrite for_enumerate_app. unfold ModifyMainV2.vinit.
    rewrite (ModifyMainV2Facts.for_enumerate_quiet lines pre 0 []).
    2:{ intros k l Hk. rewrite Hlines. rewrite lookup_app_l; trivial.
        now apply lookup_lt_Some in Hk. }
    2:{ intros k Hk. apply modify_main_v2_quiet_top. simpl. lia. }
    cbn [mbind outcome_bind app Nat.add ModifyMainV2.for_enumerate].
    change (ModifyMainV2.body lines (length pre) g
              (ModifyMainV2.VState None pre))
      with (ModifyMainV2.steps lines (length pre) g pre).
    assert (ModifyMainV2.steps lines (length pre) g pre
            = Done (ModifyMainV2.VState None (pre ++ [g; import_line])))
      as ->.
    { unfold ModifyMainV2.steps. rewrite Hlen, Hg. reflexivity. }
    cbn [mbind outcome_bind].
    destruct (modify_main_v2_copies lines post (S (length pre)) None
                (pre ++ [g; import_line])) as (sk & He & _); trivial.
    - intros k l Hk. rewrite Hlines, lookup_app_r by lia.
      now replace (S (length pre) + k - length pre) with (S k) by lia.
    - simpl. trivial.
    - exists sk. rewrite He. now rewrite <- app_assoc. }
  destruct (Hrun lines eq_refl) as [sk ->]. reflexivity.
Qed.

Lemma modify_main_import_run (pre rest : list string) (g p0 : string) :
  length pre = 15 ->
  startswith "import { generateFileId" (strip g) = true ->
  forallb ModifyMainFinal.inert rest = true ->
  ModifyMain.main ((pre ++ [g]) ++ [p0] ++ rest)
  = Done ((pre ++ [g]) ++ [import_line; p0] ++ rest).
Proof.
  intros Hlen Hg Hrest.
  assert (length (pre ++ [g]) = 16) as Hlen'
    by (rewrite length_app; simpl; lia).
  rewrite ModifyMainFacts.mm_main_exec.
  rewrite (exec_replaces_block _ (pre ++ [g]) [p0] [import_line; p0] rest);
    trivial.
  - apply ModifyMainFacts.mm_body_progresses.
  - simpl. lia.
  - intros j Hj. apply ModifyMainFacts.mm_quiet_copies.
    apply modify_main_quiet_top. lia.
  - intros out. rewrite Hlen'.
    rewrite (ModifyMainFacts.mm_body_eq _ 16 out p0)
      by (rewrite lookup_app_r by lia; now rewrite Hlen').
    unfold ModifyMain.after_import.
    assert (((pre ++ [g]) ++ [p0] ++ rest) !! (16 - 1) = Some g) as ->.
    { rewrite lookup_app_l by lia. rewrite lookup_app_r by (simpl; lia).
      now replace (16 - 1 - length pre) with 0 by lia. }
    rewrite Hg. reflexivity.
  - intros j Hj. apply ModifyMainFacts.mm_quiet_copies.
    destruct (lookup_lt_is_Some_2 _ j (proj2 Hj)) as [x Hx].
    apply (modify_main_quiet_off_17 _ j x Hx); [simpl in Hj; lia|].
    rewrite lookup_app_r in Hx by lia.
    rewrite lookup_app_r in Hx by (simpl in *; lia).
    exact (forallb_lookup _ rest _ x Hrest Hx).
Qed.

(** X9. On a file whose line 16 is the [generateFileId] import, with any
    15 lines before it and, after it, lines that hold none of the
    patterns, modify_main_v2.py and modify_main_final.py both insert the
    git-service import directly after line 16. modify_main.py does the
    same when a line 17 exists, since it makes the insertion while at
    line 17; when the import is the last line of the file it inserts
    nothing. *)
Theorem import_step_across_scripts (pre post : list string) (g : string) :
  length pre = 15 ->
  startswith "import { generateFileId" (strip g) = true ->
  forallb ModifyMainFinal.inert post = true ->
  ModifyMainV2.main (pre ++ [g] ++ post)
  = Done (pre ++ [g; import_line] ++ post)
  /\ ModifyMainFinal.main (pre ++ [g] ++ post)
     = Done (pre ++ [g; import_line] ++ post)
  /\ ModifyMain.main (pre ++ [g] ++ post)
     = Done (match post with
             | [] => pre ++ [g]
             | _ :: _ => pre ++ [g; import_line] ++ post
             end).
Proof.
  intros Hlen Hg Hpost.
  pose proof (import_prefix_contains g Hg) as Hc.
  split; [|split].
  - now apply (modify_main_v2_import_run _ pre post g).
  - now apply modify_main_final_import_run.
  - destruct post as [|p0 rest].
    + apply ModifyMainFacts.mm_quiet_run. intros i Hi.
      apply modify_main_quiet_top. rewrite length_app in Hi.
      simpl in Hi. lia.
    + cbn [forallb] in Hpost. apply andb_true_iff in Hpost as [_ Hrest].
      pose proof (modify_main_import_run pre rest g p0 Hlen Hg Hrest) as H.
      rewrite <- !app_assoc in H. exact H.
Qed.

Lemma import_step_across_scripts_witness :
  ModifyMainV2.main
    (Samples.pad 15 ++ [Samples.generate_import] ++ Samples.pad 2)
  = Done (Samples.pad 15 ++ [Samples.generate_import; import_line]
            ++ Samples.pad 2).
Proof.
  apply (import_step_across_scripts (Samples.pad 15) (Samples.pad 2)
           Samples.generate_import); vm_compute; reflexivity.
Defined.

(** ** The registration step of the sibling scripts *)

Lemma modify_main_inert_quiet lines j line :
  lines !! j = Some line -> ModifyMainFinal.inert line = true ->
  (forall prev, lines !! (j - 1) = Some prev ->
                ModifyMainFinal.inert prev = true) ->
  ModifyMain.fires lines j = false.
Proof.
  intros Hl Hi Hprev.
  destruct (Nat.eq_dec (j + 1) 17) as [He|Hne];
    [|now apply (modify_main_quiet_off_17 lines j line)].
  assert (ModifyMain.after_import lines j = false) as Himp.
  { unfold ModifyMain.after_import.
    destruct (lines !! (j - 1)) as [prev|] eqn:Hp; [|apply andb_false_r].
    destruct (startswith "import { generateFileId" (strip prev)) eqn:Hs;
      [|apply andb_false_r].
    apply import_prefix_contains in Hs.
    pose proof (Hprev prev eq_refl) as Hin. unfold ModifyMainFinal.inert in Hin.
    repeat (apply andb_true_iff in Hin as [Hin ?]).
    apply negb_true_iff in Hin. congruence. }
  unfold ModifyMainFinal.inert in Hi.
  repeat (apply andb_true_iff in Hi as [Hi ?]).
  repeat match goal with H : negb _ = true |- _ =>
    apply negb_true_iff in H end.
  unfold ModifyMain.fires, ModifyMain.closes_listener. rewrite Hl, Himp.
  repeat match goal with H : _ = false |- _ => rewrite H; clear H end.
  simpl. now rewrite !andb_false_r.
Qed.

(** X10. modify_main_final.py and modify_main.py insert the registration
    after the line that closes the status-change listener and go on with
    the next line: in a file whose other lines hold none of the patterns,
    the output is the input with the blank line, the comment and the call
    to [registerGitHandlers] added after the closing line, and every line
    after it kept. *)
Theorem registration_keeps_following_lines
    (pre post : list string) (close : string) :
  forallb ModifyMainFinal.inert (pre ++ post) = true ->
  (ModifyMainFinal.registers (pre ++ [close] ++ post) (length pre) close
   = true ->
   ModifyMainFinal.main (pre ++ [close] ++ post)
   = Done (pre ++ [close; blank_line; register_comment; register_call]
             ++ post))
  /\ (length pre = 491 ->
      ModifyMain.closes_listener (pre ++ [close] ++ post) (length pre) close
      = true ->
      ModifyMain.main (pre ++ [close] ++ post)
      = Done (pre ++ [close; blank_line; register_comment; register_call]
                ++ post)).
Proof.
  intros Hi. rewrite forallb_app in Hi.
  apply andb_true_iff in Hi as [Hpre Hpost]. split.
  - intros Hr. rewrite ModifyMainFinalFacts.mf_main_exec.
    rewrite (exec_replaces_block _ pre [close]
               [close; blank_line; register_comment; register_call] post);
      trivial.
    + apply ModifyMainFinalFacts.mf_body_progresses.
    + simpl. lia.
    + intros j Hj. apply ModifyMainFinalFacts.mf_quiet_copies.
      destruct (lookup_lt_is_Some_2 pre j Hj) as [x Hx].
      apply (ModifyMainFinalFacts.mf_inert_quiet _ j x).
      * now rewrite lookup_app_l by lia.
      * exact (forallb_lookup _ pre j x Hpre Hx).
    + intros out. unfold ModifyMainFinal.body. cbn [idx new_lines].
      rewrite (index_Some _ _ close)
        by (rewrite lookup_app_r by lia; now rewrite Nat.sub_diag).
      cbn [mbind outcome_bind].
      unfold ModifyMainFinal.registers in Hr. rewrite Hr.
      repeat (apply andb_true_iff in Hr as [Hr ?]).
      match goal with H : (540 <? _) = true |- _ =>
        apply Nat.ltb_lt in H end.
      match goal with H : (_ <? 550) = true |- _ =>
        apply Nat.ltb_lt in H end.
      rewrite (proj2 (Nat.eqb_neq (length pre + 1) 16)) by lia.
      rewrite (proj2 (Nat.eqb_neq (length pre + 1) 434)) by lia.
      reflexivity.
    + intros j Hj. apply ModifyMainFinalFacts.mf_quiet_copies.
      destruct (lookup_lt_is_Some_2 _ j (proj2 Hj)) as [x Hx].
      apply (ModifyMainFinalFacts.mf_inert_quiet _ j x Hx).
      rewrite lookup_app_r in Hx by lia.
      rewrite lookup_app_r in Hx by lia.
      exact (forallb_lookup _ post _ x Hpost Hx).
  - intros Hlen Hc. rewrite ModifyMainFacts.mm_main_exec.
    assert (forall k x, k < length pre ->
              (pre ++ [close] ++ post) !! k = Some x ->
              ModifyMainFinal.inert x = true) as Hinpre.
    { intros k x Hk Hx. rewrite lookup_app_l in Hx by lia.
      exact (forallb_lookup _ pre k x Hpre Hx). }
    assert (forall k x, length pre < k ->
              (pre ++ [close] ++ post) !! k = Some x ->
              ModifyMainFinal.inert x = true) as Hinpost.
    { intros k x Hk Hx. rewrite lookup_app_r in Hx by lia.
      rewrite lookup_app_r in Hx by (simpl; lia).
      exact (forallb_lookup _ post _ x Hpost Hx). }
    rewrite (exec_replaces_block _ pre [close]
               [close; blank_line; register_comment; register_call] post);
      trivial.
    + apply ModifyMainFacts.mm_body_progresses.
    + simpl. lia.
    + intros j Hj. apply ModifyMainFacts.mm_quiet_copies.
      destruct (lookup_lt_is_Some_2 (pre ++ [close] ++ post) j) as [x Hx].
      { rewrite length_app. lia. }
      apply (modify_main_inert_quiet _ j x Hx); [now apply (Hinpre j)|].
      intros prev Hp. apply (Hinpre (j - 1)); [lia | exact Hp].
    + intros out.
      rewrite (ModifyMainFacts.mm_body_eq _ (length pre) out close)
        by (rewrite lookup_app_r by lia; now rewrite Nat.sub_diag).
      unfold ModifyMain.after_import. rewrite Hc. rewrite Hlen.
      reflexivity.
    + intros j Hj. apply ModifyMainFacts.mm_quiet_copies.
      destruct (lookup_lt_is_Some_2 _ j (proj2 Hj)) as [x Hx].
      simpl in Hj.
      apply (modify_main_quiet_off_17 _ j x Hx); [lia|].
      apply (Hinpost j x); [lia | exact Hx].
Qed.

Lemma registration_keeps_following_lines_witness :
  ModifyMain.main
    ((Samples.pad 490 ++ [Samples.listener_open])
       ++ [Samples.listener_close] ++ [Samples.after_listener])
  = Done ((Samples.pad 490 ++ [Samples.listener_open])
            ++ [Samples.listener_close; blank_line; register_comment;
                register_call]
            ++ [Samples.after_listener]).
Proof.
  apply (proj2 (registration_keeps_following_lines
                  (Samples.pad 490 ++ [Samples.listener_open])
                  [Samples.after_listener] Samples.listener_close
                  ltac:(vm_compute; reflexivity)));
    vm_compute; reflexivity.
Defined.

(** ** A block that runs into the end of the file *)

(** A run that copies [pre] and then moves the index to or past the end
    of the file in one iteration. *)
Lemma exec_drops_tail body (pre blk : list string) k :
  progresses body (length (pre ++ blk)) ->
  0 < length blk -> length (pre ++ blk) <= k ->
  (forall j, j < length pre -> copies body (pre ++ blk) j) ->
  (forall out, body (State (length pre) out) = Done (State k out)) ->
  exec body (length (pre ++ blk)) init = Done (State k pre).
Proof.
  set (lines := pre ++ blk). intros Hp Hblk Hk Hpre Hstep.
  assert (length lines = length pre + length blk) as Hlen.
  { unfold lines. now rewrite length_app. }
  unfold init.
  rewrite (exec_copy body lines Hp (length pre) 0 (length pre) []);
    [|lia|lia|intros; apply Hpre; lia].
  assert (slice lines 0 (length pre) = pre) as ->.
  { unfold slice, lines. now rewrite take_app_length. }
  rewrite (exec_step body (length lines) Hp (State (length pre) ([] ++ pre))
             (State k ([] ++ pre))); [|simpl; lia|apply Hstep].
  now rewrite (exec_stop body _ Hp) by (simpl; lia).
Qed.

(** X11. When the file ends inside the block that a script skips by
    count, nothing is raised and the file is cut at the block start:
    modify_main.py and modify_main_final.py at the interface marker on
    line 434, modify_main_v2.py at the marker on line 439, with at most
    ten lines from the marker to the end of the file, return the lines
    before the marker. *)
Theorem block_cut_at_end_of_file (pre blk : list string) :
  forallb ModifyMainFinal.inert pre = true ->
  ModifyMainFinal.opens_interface blk = true ->
  length blk <= 10 ->
  (length pre = 433 ->
   ModifyMainFinal.main (pre ++ blk) = Done pre
   /\ ModifyMain.main (pre ++ blk) = Done pre)
  /\ (length pre = 438 -> ModifyMainV2.main (pre ++ blk) = Done pre).
Proof.
  intros Hpre Hopen Hblk.
  destruct blk as [|first blk'] eqn:Eblk; [discriminate|].
  assert (contains "interface GitWatcherSet" first = true) as Hfirst
    by exact Hopen.
  rewrite <- Eblk in *.
  assert (0 < length blk) as Hpos by (rewrite Eblk; simpl; lia).
  assert (forall k x, k < length pre -> (pre ++ blk) !! k = Some x ->
            ModifyMainFinal.inert x = true) as Hinpre.
  { intros k x Hk Hx. rewrite lookup_app_l in Hx by lia.
    exact (forallb_lookup _ pre k x Hpre Hx). }
  assert ((pre ++ blk) !! length pre = Some first) as Hl.
  { rewrite lookup_app_r by lia. rewrite Nat.sub_diag. now rewrite Eblk. }
  split; [intros Hlen; split|intros Hlen].
  - rewrite ModifyMainFinalFacts.mf_main_exec.
    rewrite (exec_drops_tail _ pre blk 443); trivial.
    + apply ModifyMainFinalFacts.mf_body_progresses.
    + rewrite length_app. lia.
    + intros j Hj. apply ModifyMainFinalFacts.mf_quiet_copies.
      destruct (lookup_lt_is_Some_2 (pre ++ blk) j) as [x Hx].
      { rewrite length_app. lia. }
      apply (ModifyMainFinalFacts.mf_inert_quiet _ j x Hx).
      now apply (Hinpre j).
    + intros out. rewrite Hlen in *.
      now apply (ModifyMainFinalFacts.mf_body_interface _ out first).
  - rewrite ModifyMainFacts.mm_main_exec.
    rewrite (exec_drops_tail _ pre blk 443); trivial.
    + apply ModifyMainFacts.mm_body_progresses.
    + rewrite length_app. lia.
    + intros j Hj. apply ModifyMainFacts.mm_quiet_copies.
      destruct (lookup_lt_is_Some_2 (pre ++ blk) j) as [x Hx].
      { rewrite length_app. lia. }
      apply (modify_main_inert_quiet _ j x Hx); [now apply (Hinpre j)|].
      intros prev Hp. apply (Hinpre (j - 1)); [lia | exact Hp].
    + intros out. rewrite Hlen in *.
      rewrite (ModifyMainFacts.mm_body_eq _ 433 out first Hl).
      unfold ModifyMain.after_import. rewrite Hfirst. reflexivity.
  - unfold ModifyMainV2.main.
    assert (forall ls lines, ls = pre ++ first :: blk' -> lines = ls ->
              ModifyMainV2.for_enumerate (ModifyMainV2.body lines) 0 ls
                ModifyMainV2.vinit
              = Done (ModifyMainV2.VState (Some 448) pre)) as Hrun.
    { intros ls lines -> Hlines.
      rewrite for_enumerate_app. unfold ModifyMainV2.vinit.
      rewrite (ModifyMainV2Facts.for_enumerate_quiet lines pre 0 []).
      2:{ intros k l Hk. rewrite Hlines. rewrite lookup_app_l; trivial.
          now apply lookup_lt_Some in Hk. }
      2:{ intros k Hk. destruct (lookup_lt_is_Some_2 pre k Hk) as [x Hx].
          apply (modify_main_v2_inert_quiet lines k x).
          - rewrite Hlines. now rewrite lookup_app_l by lia.
          - exact (forallb_lookup _ pre k x Hpre Hx). }
      cbn [mbind outcome_bind app Nat.add ModifyMainV2.for_enumerate].
      change (ModifyMainV2.body lines (length pre) first
                (ModifyMainV2.VState None pre))
        with (ModifyMainV2.steps lines (length pre) first pre).
      assert (ModifyMainV2.steps lines (length pre) first pre
              = Done (ModifyMainV2.VState (Some 448) pre)) as ->.
      { unfold ModifyMainV2.steps. rewrite Hlen, Hfirst. reflexivity. }
      cbn [mbind outcome_bind]. apply modify_main_v2_skips.
      rewrite Eblk in Hblk. simpl in Hblk. lia. }
    rewrite Eblk. now rewrite (Hrun _ _ eq_refl eq_refl).
Qed.

Lemma block_cut_at_end_of_file_witness :
  ModifyMainFinal.main
    (Samples.pad 433 ++ take 4 Samples.interface_block)
  = Done (Samples.pad 433)
  /\ ModifyMain.main (Samples.pad 433 ++ take 4 Samples.interface_block)
     = Done (Samples.pad 433).
Proof.
  apply (proj1 (block_cut_at_end_of_file (Samples.pad 433)
                  (take 4 Samples.interface_block)
                  ltac:(vm_compute; reflexivity)
                  ltac:(vm_compute; reflexivity)
                  ltac:(vm_compute; lia))).
  reflexivity.
Defined.

(** * The claims on repeated runs, absent patterns, ranges and repeated matches *)

(** ** Text mode: what is read and what is written *)

Lemma string_append_nil_r (s : string) : s +:+ "" = s.
Proof.
  induction s as [|c s IH]; [reflexivity|].
  change (String c (s +:+ "") = String c s). now f_equal.
Qed.

Lemma join_cons (x : string) (xs : list string) :
  join (x :: xs) = x +:+ join xs.
Proof.
  unfold join. destruct xs as [|y ys]; simpl.
  - now rewrite string_append_nil_r.
  - reflexivity.
Qed.

Lemma translate_LF (s : string) : Text.translate LF s = s.
Proof.
  induction s as [|c s IH]; [reflexivity|]. cbn [Text.translate].
  destruct (Ascii.eqb c Text.NL) eqn:E.
  - apply Ascii.eqb_eq in E. subst c. rewrite IH. reflexivity.
  - now rewrite IH.
Qed.

Lemma has_cr_append (a b : string) :
  Text.has_cr (a +:+ b) = Text.has_cr a || Text.has_cr b.
Proof.
  induction a as [|c a IH]; [reflexivity|].
  change (Text.has_cr (String c (a +:+ b))
          = Text.has_cr (String c a) || Text.has_cr b).
  cbn [Text.has_cr]. rewrite IH. now rewrite orb_assoc.
Qed.

(** Text without CR is read as its own lines. *)
Lemma join_readlines_from : forall s cur,
  Text.has_cr s = false -> join (Text.readlines_from cur s) = cur +:+ s.
Proof.
  induction s as [|c s IH]; intros cur Hs.
  - rewrite string_append_nil_r. now destruct cur.
  - cbn [Text.has_cr] in Hs. apply orb_false_iff in Hs as [Hc Hs].
    cbn [Text.readlines_from]. rewrite Hc.
    destruct (Ascii.eqb c Text.NL) eqn:E.
    + apply Ascii.eqb_eq in E. subst c.
      rewrite join_cons, (IH "" Hs). rewrite string_append_assoc.
      reflexivity.
    + rewrite (IH _ Hs). rewrite string_append_assoc. reflexivity.
Qed.

(** No line that is read holds a CR. *)
Lemma has_cr_readlines_from : forall n s cur,
  String.length s <= n ->
  Text.has_cr (join (Text.readlines_from cur s)) = Text.has_cr cur.
Proof.
  induction n as [|n IH]; intros s cur Hn.
  - destruct s; [|simpl in Hn; lia]. now destruct cur.
  - destruct s as [|c s].
    + now destruct cur.
    + simpl in Hn. cbn [Text.readlines_from].
      destruct (Ascii.eqb c Text.NL) eqn:E.
      * rewrite join_cons, !has_cr_append, (IH s "") by lia.
        cbn. now rewrite !orb_false_r.
      * destruct (Ascii.eqb c Text.CR) eqn:E'.
        -- destruct s as [|c' s'].
           ++ unfold join. simpl. rewrite has_cr_append. cbn.
              now rewrite orb_false_r.
           ++ simpl in Hn. destruct (Ascii.eqb c' Text.NL).
              ** rewrite join_cons, !has_cr_append, (IH s' "") by lia.
                 cbn. now rewrite !orb_false_r.
              ** rewrite join_cons, !has_cr_append,
                   (IH (String c' s') "") by (simpl; lia).
                 cbn. now rewrite !orb_false_r.
        -- rewrite (IH s) by lia. rewrite has_cr_append. cbn [Text.has_cr].
           rewrite E'. cbn. now rewrite orb_false_r.
Qed.

(** ** C2: re-running a script on its own output *)

(** C2, as stated, fails: extract_git.py run on its own output is not a
    no-op. With the [generateFileId] import at index 16 the first run
    inserts the git-service import after it, the second run inserts it
    once more, and the second run writes the file. *)
Lemma C2_second_run_inserts_again :
  ExtractGit.main only_import
  = Done (pad 16 ++ [generate_import; import_line] ++ pad 2)
  /\ ExtractGit.main (pad 16 ++ [generate_import; import_line] ++ pad 2)
     = Done (pad 16 ++ [generate_import; import_line; import_line] ++ pad 2)
  /\ pad 16 ++ [generate_import; import_line; import_line] ++ pad 2
     <> pad 16 ++ [generate_import; import_line] ++ pad 2
  /\ IO.script ExtractGit.main
       {[IO.main_ts := pad 16 ++ [generate_import; import_line] ++ pad 2]}
     <> [].
Proof.
  split; [vm_compute; reflexivity|].
  split; [vm_compute; reflexivity|].
  split; [vm_compute; discriminate|].
  unfold IO.script. rewrite lookup_singleton_eq.
  vm_compute. discriminate.
Qed.

(** C2, amended: extract_git.py has no already-applied detection. On a
    document in which none of its five steps applies at any line, the
    lines the run hands to [writelines] are exactly the lines
    [readlines] returned, and the file is still opened for writing and
    rewritten with them. With LF as the line separator of the platform,
    the text written equals the text that was read exactly when that
    text holds no CR: CR LF and CR line ends are read as LF and written
    back as LF. *)
Theorem C2_quiet_run_rewrites_same_lines
    (content : string) (fs : gmap string (list string)) :
  fs !! IO.main_ts = Some (Text.readlines content) ->
  (forall i, i < length (Text.readlines content) ->
             ExtractGit.fires (Text.readlines content) i = false) ->
  ExtractGit.main (Text.readlines content) = Done (Text.readlines content)
  /\ IO.script ExtractGit.main fs = IO.write_back (Text.readlines content)
  /\ (Text.has_cr content = false ->
      Text.writelines LF (Text.readlines content) = content)
  /\ (Text.has_cr content = true ->
      Text.writelines LF (Text.readlines content) <> content).
Proof.
  intros Hf Hq.
  pose proof (ExtractGitFacts.eg_quiet_run _ Hq) as Hm.
  split; [exact Hm|]. split; [exact (script_done _ _ _ _ Hf Hm)|].
  unfold Text.writelines, Text.readlines. rewrite translate_LF. split.
  - intros Hcr. now rewrite join_readlines_from.
  - intros Hcr Heq.
    pose proof (has_cr_readlines_from (String.length content) content ""
                  ltac:(lia)) as H.
    rewrite Heq, Hcr in H. discriminate H.
Qed.

Lemma C2_quiet_run_witness :
  ExtractGit.main (Text.readlines (Samples.ln "// a" +:+ Samples.ln "// b"))
  = Done (Text.readlines (Samples.ln "// a" +:+ Samples.ln "// b"))
  /\ IO.script ExtractGit.main
       {[IO.main_ts
         := Text.readlines (Samples.ln "// a" +:+ Samples.ln "// b")]}
     = IO.write_back
         (Text.readlines (Samples.ln "// a" +:+ Samples.ln "// b"))
  /\ Text.writelines LF
       (Text.readlines (Samples.ln "// a" +:+ Samples.ln "// b"))
     = Samples.ln "// a" +:+ Samples.ln "// b".
Proof.
  destruct (C2_quiet_run_rewrites_same_lines
              (Samples.ln "// a" +:+ Samples.ln "// b")
              {[IO.main_ts
                := Text.readlines (Samples.ln "// a" +:+ Samples.ln "// b")]})
    as (H1 & H2 & H3 & _).
  - reflexivity.
  - intros i Hi. destruct i as [|[|i]]; reflexivity.
  - split; [exact H1|]. split; [exact H2|]. apply H3.
    vm_compute. reflexivity.
Defined.

(** ** C3: a required pattern is absent *)

(** With only the [generateFileId] import present, at index 16,
    extract_git.py inserts the git-service import after it. *)
Lemma extract_git_import_run (pre post : list string) (g : string) :
  length pre = 16 ->
  forallb ExtractGit.inert (pre ++ post) = true ->
  contains "generateFileId" g = true ->
  ExtractGit.main (pre ++ [g] ++ post)
  = Done (pre ++ [g; import_line] ++ post).
Proof.
  intros Hlen Hi Hg.
  destruct (extract_git_copies_around pre [g] post Hi) as [Hpre Hpost].
  rewrite ExtractGitFacts.eg_main_exec.
  rewrite (exec_replaces_block _ pre [g] [g; import_line] post); trivial.
  - apply ExtractGitFacts.eg_body_progresses.
  - simpl. lia.
  - intros out. unfold ExtractGit.body. cbn [idx new_lines].
    rewrite (index_Some _ _ g)
      by (rewrite lookup_app_r by lia; now rewrite Nat.sub_diag).
    cbn [mbind outcome_bind]. rewrite Hlen, Hg. reflexivity.
Qed.

(** The interface marker with no [const GIT_DEBOUNCE_MS] after it: the
    scan of step 2 runs off the end of the file. *)
Lemma extract_git_interface_open_run (pre post : list string) (start : string) :
  forallb ExtractGit.inert pre = true ->
  ExtractGit.starts_interface (length pre) start = true ->
  forallb (fun l => negb (contains "const GIT_DEBOUNCE_MS" l)) post = true ->
  ExtractGit.main (pre ++ [start] ++ post) = IndexError.
Proof.
  intros Hpre Hs Hnone.
  set (lines := pre ++ [start] ++ post).
  assert (lines !! length pre = Some start) as Hl.
  { unfold lines. rewrite lookup_app_r by lia. now rewrite Nat.sub_diag. }
  rewrite ExtractGitFacts.eg_main_exec. unfold init.
  rewrite (exec_copy _ lines (ExtractGitFacts.eg_body_progresses lines)
             (length pre) 0 (length pre) []);
    [|lia|apply lookup_lt_Some in Hl; lia|].
  - rewrite (exec_raise _ _ (ExtractGitFacts.eg_body_progresses lines));
      trivial.
    + simpl. now apply lookup_lt_Some in Hl.
    + apply (extract_git_body_raises_iff lines _ _ start Hl).
      unfold extract_git_scan_fails. rewrite Hs.
      assert (no_later "const GIT_DEBOUNCE_MS" lines (length pre) = true)
        as ->.
      { unfold no_later, lines. rewrite drop_app_ge by lia.
        replace (length pre + 1 - length pre) with 1 by lia.
        cbn [drop app]. exact Hnone. }
      reflexivity.
  - intros j Hj. apply ExtractGitFacts.eg_quiet_copies.
    destruct (lookup_lt_is_Some_2 pre j ltac:(lia)) as [x Hx].
    apply (extract_git_inert_quiet _ j x).
    + unfold lines. now rewrite lookup_app_l by lia.
    + exact (forallb_lookup _ pre j x Hpre Hx).
Qed.

(** C3, as stated, fails: with the [generateFileId] import present and
    every other pattern absent, extract_git.py and modify_main_v2.py
    report nothing, apply the one edit whose pattern is there and write
    the result to the file. *)
Lemma C3_missing_anchors_still_written :
  forallb (fun l =>
             negb (contains "interface GitWatcherSet" l)
             && negb (contains "ipcMain.handle('git:get-info'" l)
             && negb (contains "  })" l)
             && negb (contains "// Clean up all git watchers" l))
    (only_import ++ only_import_v2) = true
  /\ IO.run ExtractGit.main {[IO.main_ts := only_import]} !! IO.main_ts
     = Some (pad 16 ++ [generate_import; import_line] ++ pad 2)
  /\ IO.run ModifyMainV2.main {[IO.main_ts := only_import_v2]} !! IO.main_ts
     = Some (pad 15 ++ [generate_import; import_line] ++ pad 2).
Proof.
  split; [vm_compute; reflexivity|]. split.
  - rewrite (run_done ExtractGit.main _ only_import
               (pad 16 ++ [generate_import; import_line] ++ pad 2)).
    + apply lookup_insert_eq.
    + apply lookup_singleton_eq.
    + vm_compute; reflexivity.
  - rewrite (run_done ModifyMainV2.main _ only_import_v2
               (pad 15 ++ [generate_import; import_line] ++ pad 2)).
    + apply lookup_insert_eq.
    + apply lookup_singleton_eq.
    + vm_compute; reflexivity.
Qed.

(** C3, amended: the scripts have no AnchorNotFound result. A step whose
    pattern is absent does not fire, and what the other steps produce is
    written. In a file [pre ++ [l] ++ post] whose lines other than [l]
    hold none of the patterns that start a step:
    - when [l] is at index 16 and contains [generateFileId],
      extract_git.py inserts the import after [l], nothing else, and
      writes that to the file;
    - when [l] is line 16 (index 15) and contains [generateFileId],
      modify_main_v2.py does the same;
    - when [l] holds the interface marker and no later line contains
      [const GIT_DEBOUNCE_MS], extract_git.py raises IndexError before
      the file is opened for writing, and the file keeps its content. *)
Theorem C3_absent_patterns_do_not_stop_the_run
    (pre post : list string) (l : string) (fs : gmap string (list string)) :
  fs !! IO.main_ts = Some (pre ++ [l] ++ post) ->
  (length pre = 16 -> contains "generateFileId" l = true ->
   forallb ExtractGit.inert (pre ++ post) = true ->
   ExtractGit.main (pre ++ [l] ++ post)
   = Done (pre ++ [l; import_line] ++ post)
   /\ IO.script ExtractGit.main fs
      = IO.write_back (pre ++ [l; import_line] ++ post)
   /\ IO.run ExtractGit.main fs
      = <[IO.main_ts := pre ++ [l; import_line] ++ post]> fs)
  /\ (length pre = 15 -> contains "generateFileId" l = true ->
      forallb ModifyMainV2.inert (pre ++ post) = true ->
      ModifyMainV2.main (pre ++ [l] ++ post)
      = Done (pre ++ [l; import_line] ++ post)
      /\ IO.script ModifyMainV2.main fs
         = IO.write_back (pre ++ [l; import_line] ++ post)
      /\ IO.run ModifyMainV2.main fs
         = <[IO.main_ts := pre ++ [l; import_line] ++ post]> fs)
  /\ (ExtractGit.starts_interface (length pre) l = true ->
      forallb ExtractGit.inert pre = true ->
      forallb (fun x => negb (contains "const GIT_DEBOUNCE_MS" x)) post
      = true ->
      ExtractGit.main (pre ++ [l] ++ post) = IndexError
      /\ IO.script ExtractGit.main fs = []
      /\ IO.run ExtractGit.main fs = fs).
Proof.
  intros Hf. split; [|split].
  - intros Hlen Hg Hi.
    pose proof (extract_git_import_run pre post l Hlen Hi Hg) as Hm.
    split; [exact Hm|]. split.
    + exact (script_done _ _ _ _ Hf Hm).
    + exact (run_done _ _ _ _ Hf Hm).
  - intros Hlen Hg Hi.
    rewrite forallb_app in Hi. apply andb_true_iff in Hi as [_ Hpost].
    pose proof (modify_main_v2_import_run (pre ++ [l] ++ post) pre post l
                  eq_refl Hlen Hg Hpost) as Hm.
    split; [exact Hm|]. split.
    + exact (script_done _ _ _ _ Hf Hm).
    + exact (run_done _ _ _ _ Hf Hm).
  - intros Hs Hpre Hnone.
    pose proof (extract_git_interface_open_run pre post l Hpre Hs Hnone)
      as Hm.
    split; [exact Hm|].
    pose proof (script_raise _ _ _ Hf Hm) as Hscr.
    split; [exact Hscr|]. unfold IO.run. now rewrite Hscr.
Qed.

Lemma C3_absent_patterns_witness :
  IO.run ExtractGit.main {[IO.main_ts := only_import]}
  = <[IO.main_ts := pad 16 ++ [generate_import; import_line] ++ pad 2]>
      {[IO.main_ts := only_import]}
  /\ IO.run ModifyMainV2.main {[IO.main_ts := only_import_v2]}
     = <[IO.main_ts := pad 15 ++ [generate_import; import_line] ++ pad 2]>
         {[IO.main_ts := only_import_v2]}
  /\ IO.run ExtractGit.main
       {[IO.main_ts := pad 2 ++ [ln "interface GitWatcherSet {"] ++ pad 3]}
     = {[IO.main_ts := pad 2 ++ [ln "interface GitWatcherSet {"] ++ pad 3]}.
Proof.
  split; [|split].
  - destruct (C3_absent_patterns_do_not_stop_the_run
                (pad 16) (pad 2) generate_import
                {[IO.main_ts := only_import]}) as (H & _ & _);
      [reflexivity|].
    apply H; vm_compute; reflexivity.
  - destruct (C3_absent_patterns_do_not_stop_the_run
                (pad 15) (pad 2) generate_import
                {[IO.main_ts := only_import_v2]}) as (_ & H & _);
      [reflexivity|].
    apply H; vm_compute; reflexivity.
  - destruct (C3_absent_patterns_do_not_stop_the_run
                (pad 2) (pad 3) (ln "interface GitWatcherSet {")
                {[IO.main_ts
                  := pad 2 ++ [ln "interface GitWatcherSet {"] ++ pad 3]})
      as (_ & _ & H); [reflexivity|].
    apply H; vm_compute; reflexivity.
Defined.

(** ** C6: the line ranges the edits resolve to *)












(** ** C7: a pattern that matches more than once *)

(** extract_git.py removes the interface block through the first line
    with [const GIT_DEBOUNCE_MS]. *)
Lemma extract_git_interface_run (pre mid post : list string)
    (start term : string) :
  forallb ExtractGit.inert (pre ++ post) = true ->
  ExtractGit.starts_interface (length pre) start = true ->
  forallb (fun l => negb (contains "const GIT_DEBOUNCE_MS" l)) mid = true ->
  contains "const GIT_DEBOUNCE_MS" term = true ->
  ExtractGit.main (pre ++ (start :: mid ++ [term]) ++ post)
  = Done (pre ++ post).
Proof.
  intros Hi Hs Hmid Hterm.
  destruct (extract_git_copies_around pre (start :: mid ++ [term]) post Hi)
    as [Hpre Hpost].
  rewrite ExtractGitFacts.eg_main_exec.
  rewrite (exec_removes_block _ pre (start :: mid ++ [term]) post); trivial.
  - apply ExtractGitFacts.eg_body_progresses.
  - simpl. lia.
  - intros out.
    rewrite (ExtractGitFacts.eg_body_interface _ _ out start); trivial.
    + now rewrite (skip_past_block _ pre mid post start term).
    + rewrite lookup_app_r by lia. now rewrite Nat.sub_diag.
Qed.

Lemma lookup_after {A} (pre post : list A) (k : nat) (x : A) :
  post !! k = Some x -> (pre ++ post) !! (length pre + k) = Some x.
Proof.
  intros Hk. rewrite lookup_app_r by lia.
  now replace (length pre + k - length pre) with k by lia.
Qed.

(** C7, as stated, fails: with two lines after the interface marker that
    contain [const GIT_DEBOUNCE_MS], extract_git.py raises nothing; it
    ends the skipped block at the first of them and copies the rest. *)
Lemma C7_first_terminator_is_taken :
  List.filter (contains "const GIT_DEBOUNCE_MS")
    [ln "interface GitWatcherSet {"; ln "const GIT_DEBOUNCE_MS = 300";
     ln "const x = 1"; ln "const GIT_DEBOUNCE_MS = 500"]
  = [ln "const GIT_DEBOUNCE_MS = 300"; ln "const GIT_DEBOUNCE_MS = 500"]
  /\ ExtractGit.main
       [ln "interface GitWatcherSet {"; ln "const GIT_DEBOUNCE_MS = 300";
        ln "const x = 1"; ln "const GIT_DEBOUNCE_MS = 500"]
     = Done [ln "const x = 1"; ln "const GIT_DEBOUNCE_MS = 500"].
Proof. split; vm_compute; reflexivity. Qed.

(** C7, amended: the scripts have no Ambiguous result. Where a step
    scans forward for its terminator, a second line containing it
    further down stops nothing: the block ends at the first such line
    after the block start, and the later match is copied to the output
    with the rest of the file. In a file whose lines outside the block
    hold none of the patterns that start a step, extract_git.py removes
    the interface block through the first later line containing
    [const GIT_DEBOUNCE_MS], and modify_main_v2.py replaces the cleanup
    block, above line 500, through the first later line containing
    [gitWatchers.clear()]; both runs end normally. *)
Theorem C7_first_match_ends_the_block
    (pre mid post : list string) (start term again : string) (k : nat) :
  post !! k = Some again ->
  (contains "const GIT_DEBOUNCE_MS" again = true ->
   forallb ExtractGit.inert (pre ++ post) = true ->
   ExtractGit.starts_interface (length pre) start = true ->
   forallb (fun l => negb (contains "const GIT_DEBOUNCE_MS" l)) mid = true ->
   contains "const GIT_DEBOUNCE_MS" term = true ->
   ExtractGit.main (pre ++ (start :: mid ++ [term]) ++ post)
   = Done (pre ++ post)
   /\ (pre ++ post) !! (length pre + k) = Some again)
  /\ (contains "gitWatchers.clear()" again = true ->
      500 <= length pre ->
      forallb ModifyMainV2.inert (pre ++ post) = true ->
      contains "// Clean up all git watchers" start = true ->
      contains "ipcMain.handle('git:get-info'" start = false ->
      forallb (fun l => negb (contains "gitWatchers.clear()" l)) mid = true ->
      contains "gitWatchers.clear()" term = true ->
      ModifyMainV2.main (pre ++ (start :: mid ++ [term]) ++ post)
      = Done (pre ++ [cleanup_comment; cleanup_call] ++ post)
      /\ (pre ++ [cleanup_comment; cleanup_call] ++ post)
           !! (length pre + 2 + k) = Some again).
Proof.
  intros Hk. split.
  - intros _ Hi Hs Hmid Hterm. split.
    + now apply extract_git_interface_run.
    + now apply lookup_after.
  - intros _ Hlen Hi H5 H4 Hmid Hterm. split.
    + now apply (modify_main_v2_cleanup_found _ pre mid post start term).
    + rewrite lookup_app_r by lia.
      replace (length pre + 2 + k - length pre) with (S (S k)) by lia.
      exact Hk.
Qed.

Lemma C7_first_match_witness :
  (ExtractGit.main
     [ln "interface GitWatcherSet {"; ln "const GIT_DEBOUNCE_MS = 300";
      ln "const x = 1"; ln "const GIT_DEBOUNCE_MS = 500"]
   = Done [ln "const x = 1"; ln "const GIT_DEBOUNCE_MS = 500"]
   /\ [ln "const x = 1"; ln "const GIT_DEBOUNCE_MS = 500"] !! 1
      = Some (ln "const GIT_DEBOUNCE_MS = 500"))
  /\ (ModifyMainV2.main
        (pad 500
           ++ [ln "    // Clean up all git watchers";
               ln "    for (const w of gitWatchers.values()) w.close()";
               ln "    gitWatchers.clear()"]
           ++ [ln "    dbWatchers.clear()"; ln "    gitWatchers.clear()"])
      = Done (pad 500 ++ [cleanup_comment; cleanup_call]
                ++ [ln "    dbWatchers.clear()"; ln "    gitWatchers.clear()"])
      /\ (pad 500 ++ [cleanup_comment; cleanup_call]
            ++ [ln "    dbWatchers.clear()"; ln "    gitWatchers.clear()"])
           !! 503
         = Some (ln "    gitWatchers.clear()")).
Proof.
  split.
  - destruct (C7_first_match_ends_the_block [] []
                [ln "const x = 1"; ln "const GIT_DEBOUNCE_MS = 500"]
                (ln "interface GitWatcherSet {")
                (ln "const GIT_DEBOUNCE_MS = 300")
                (ln "const GIT_DEBOUNCE_MS = 500") 1) as [H _];
      [reflexivity|].
    apply H; vm_compute; reflexivity.
  - destruct (C7_first_match_ends_the_block (pad 500)
                [ln "    for (const w of gitWatchers.values()) w.close()"]
                [ln "    dbWatchers.clear()"; ln "    gitWatchers.clear()"]
                (ln "    // Clean up all git watchers")
                (ln "    gitWatchers.clear()")
                (ln "    gitWatchers.clear()") 1) as [_ H];
      [reflexivity|].
    apply H; vm_compute; reflexivity.
Defined.
